(** * Terraform provider for Loopia: adapters over the remote client

    A shallow embedding of the provider package (provider root, subdomain
    resource, zone record resource and the Configure hooks of the data
    sources).  The handlers are Go methods that mutate a response object and
    call the remote client; here a handler takes the request and the response
    it was handed and returns a program whose leaves are the final response
    and whose nodes are the calls made on the client. *)

From Stdlib Require Import ZArith List String Bool Lia.
From Stdlib Require Import DecimalString.
Import ListNotations.

Local Open Scope string_scope.
Local Open Scope Z_scope.
Local Open Scope list_scope.

Set Implicit Arguments.

(** ** Go integers

    Fixed-width integers are carried as [Z]; a conversion [T(x)] reduces its
    argument into the signed range of [T].  [int] is taken at its 64-bit
    width. *)

Definition wrap (bits : Z) (z : Z) : Z :=
  (z + 2 ^ (bits - 1)) mod 2 ^ bits - 2 ^ (bits - 1).

Definition int32 (z : Z) : Z := wrap 32 z.
Definition int64 (z : Z) : Z := wrap 64 z.
Definition int (z : Z) : Z := wrap 64 z.

Definition int32_range (z : Z) : Prop := - 2 ^ 31 <= z < 2 ^ 31.

(** [fmt.Sprintf] verbs used by the handlers: [%d] on an integer. *)
Definition fmt_d (z : Z) : string := NilZero.string_of_int (Z.to_int z).

(** A Go [error] is carried by the text of its [Error()] method. *)
Definition error := string.

(** ** terraform-plugin-framework: attribute values *)

Module types.

Inductive String : Type :=
| StringNull
| StringUnknown
| StringValue (value : string).

Definition ValueString (s : String) : string :=
  match s with
  | StringValue v => v
  | _ => ""
  end.

Definition StringIsNull (s : String) : bool :=
  match s with StringNull => true | _ => false end.

Definition StringIsUnknown (s : String) : bool :=
  match s with StringUnknown => true | _ => false end.

Inductive Int32 : Type :=
| Int32Null
| Int32Unknown
| Int32Value (value : Z).

Definition ValueInt32 (i : Int32) : Z :=
  match i with
  | Int32Value v => v
  | _ => 0
  end.

Inductive Bool : Type :=
| BoolNull
| BoolUnknown
| BoolValue (value : bool).

End types.

(** ** terraform-plugin-framework: diagnostics *)

Module diag.

Inductive Severity : Type := SeverityError | SeverityWarning.

Record Diagnostic : Type := {
  severity : Severity;
  Summary : string;
  Detail : string;
  (* [path.Root name] of an attribute diagnostic *)
  Path : option string
}.

Definition Diagnostics := list Diagnostic.

Definition NewErrorDiagnostic (summary detail : string) : Diagnostic :=
  {| severity := SeverityError; Summary := summary; Detail := detail;
     Path := None |}.

Definition NewAttributeErrorDiagnostic (path summary detail : string)
  : Diagnostic :=
  {| severity := SeverityError; Summary := summary; Detail := detail;
     Path := Some path |}.

Definition severity_eqb (a b : Severity) : bool :=
  match a, b with
  | SeverityError, SeverityError => true
  | SeverityWarning, SeverityWarning => true
  | _, _ => false
  end.

Definition path_eqb (a b : option string) : bool :=
  match a, b with
  | None, None => true
  | Some x, Some y => String.eqb x y
  | _, _ => false
  end.

Definition Equal (a b : Diagnostic) : bool :=
  severity_eqb (severity a) (severity b)
  && String.eqb (Summary a) (Summary b)
  && String.eqb (Detail a) (Detail b)
  && path_eqb (Path a) (Path b).

Definition Contains (diags : Diagnostics) (d : Diagnostic) : bool :=
  existsb (Equal d) diags.

(** [Append] skips a diagnostic the collection already holds. *)
Definition Append (diags : Diagnostics) (new : Diagnostics) : Diagnostics :=
  fold_left
    (fun acc d => if Contains acc d then acc else acc ++ [d])
    new diags.

Definition AddError (diags : Diagnostics) (summary detail : string)
  : Diagnostics :=
  Append diags [NewErrorDiagnostic summary detail].

Definition AddAttributeError (diags : Diagnostics)
  (path summary detail : string) : Diagnostics :=
  Append diags [NewAttributeErrorDiagnostic path summary detail].

Definition isError (d : Diagnostic) : bool :=
  severity_eqb (severity d) SeverityError.

Definition HasError (diags : Diagnostics) : bool := existsb isError diags.

End diag.

(** ** terraform-plugin-framework: list values

    The one list this provider builds has [types.StringType] elements, each
    made by [types.StringValue]; a list value is carried with its elements
    at that type.  [ListValue] checks every element against the element
    type, which elements of this type pass, so it returns the known list and
    no diagnostic.  A known list may be empty and differs from the null
    list. *)

Module basetypes.

Inductive List : Type :=
| ListNull
| ListUnknown
| ListKnown (elements : list types.String).

Definition ListValue (elements : list types.String)
  : List * diag.Diagnostics :=
  (ListKnown elements, []).

End basetypes.

(** ** loopia-go: the remote client *)

Module loopia.

(** The handle returned by [loopia.New]; the credentials are fixed when it
    is built. *)
Record API : Type := { username : string; password : string }.

Record Record_ : Type := {
  ID : Z;        (* int64 *)
  TTL : Z;       (* int *)
  Type_ : string;
  Value : string;
  Priority : Z   (* int *)
}.

Record Subdomain : Type := { Name : string }.

(** A Go result pair [(T, error)]: the callers test [err != nil] first and
    read the value only when it is nil. *)
Inductive result (T : Type) : Type :=
| Ok (v : T)
| Err (e : error).

Arguments Err {T} e.

(** What the provider asks of the outside, indexed by what comes back: the
    process environment ([os.Getenv]), the constructor [loopia.New] and the
    methods of the client.  The first argument of a method is its receiver,
    the adapter's [client] pointer ([None] is the nil pointer).  Where a
    caller discards the first component of the result pair, only the error
    is kept. *)
Inductive call : Type -> Type :=
| os_Getenv (key : string) : call string
| New (username password : string) : call (result API)
| AddSubdomain (c : option API) (domain subdomain : string)
    : call (option error)
| GetSubdomains (c : option API) (domain : string)
    : call (result (list Subdomain))
| RemoveSubDomain (c : option API) (domain subdomain : string)
    : call (option error)
| AddZoneRecord (c : option API) (domain subdomain : string)
    (record : Record_) : call (option error)
| GetZoneRecords (c : option API) (domain subdomain : string)
    : call (result (list Record_))
| GetZoneRecord (c : option API) (domain subdomain : string) (id : Z)
    : call (result Record_)
| UpdateZoneRecord (c : option API) (domain subdomain : string)
    (record : Record_) : call (option error)
| RemoveZoneRecord (c : option API) (domain subdomain : string) (id : Z)
    : call (option error).

Record Domain : Type := {
  DomainName : string;       (* Name *)
  Paid : bool;
  Registered : bool;
  RenewalStatus : string;
  ExpirationDate : string;
  ReferenceNumber : Z        (* int32 *)
}.

(** The two operations of the client on domains, used by the domain data
    sources only. *)
Inductive domainCall : Type -> Type :=
| GetDomain (c : option API) (name : string) : domainCall (result Domain)
| GetDomains (c : option API) : domainCall (result (list Domain)).

End loopia.

(** ** Programs over the client *)

Inductive prog (R : Type) : Type :=
| Ret (r : R)
| Do (X : Type) (c : loopia.call X) (k : X -> prog R).

Arguments Ret {R} r.
Arguments Do {R X} c k.

Notation "x <- c ;; k" := (Do c (fun x => k))
  (at level 61, c at next level, right associativity).

(** A remote side: how each call is answered in a world [W]. *)
Definition remote (W : Type) : Type := forall X, loopia.call X -> W -> X * W.

(** A call as it was issued, without its answer. *)
Inductive issued : Type :=
| Issued (X : Type) (c : loopia.call X).

Arguments Issued {X} c.

Fixpoint run {W R : Type} (h : remote W) (p : prog R) (w : W) : R * W :=
  match p with
  | Ret r => (r, w)
  | Do c k => run h (k (fst (h _ c w))) (snd (h _ c w))
  end.

Fixpoint calls {W R : Type} (h : remote W) (p : prog R) (w : W) : list issued :=
  match p with
  | Ret _ => []
  | Do c k => Issued c :: calls h (k (fst (h _ c w))) (snd (h _ c w))
  end.

(** Programs of the domain data sources, over the client's domain
    operations, with the same reading. *)
Inductive domainProg (R : Type) : Type :=
| DomainRet (r : R)
| DomainDo (X : Type) (c : loopia.domainCall X) (k : X -> domainProg R).

Arguments DomainRet {R} r.
Arguments DomainDo {R X} c k.

Definition domainRemote (W : Type) : Type :=
  forall X, loopia.domainCall X -> W -> X * W.

Inductive domainIssued : Type :=
| DomainIssued (X : Type) (c : loopia.domainCall X).

Arguments DomainIssued {X} c.

Fixpoint domainRun {W R : Type} (h : domainRemote W) (p : domainProg R) (w : W)
  : R * W :=
  match p with
  | DomainRet r => (r, w)
  | DomainDo c k => domainRun h (k (fst (h _ c w))) (snd (h _ c w))
  end.

Fixpoint domainCalls {W R : Type} (h : domainRemote W) (p : domainProg R)
  (w : W) : list domainIssued :=
  match p with
  | DomainRet _ => []
  | DomainDo c k =>
      DomainIssued c :: domainCalls h (k (fst (h _ c w))) (snd (h _ c w))
  end.

(** ** terraform-plugin-framework: plans, states, requests, responses *)

Module tfsdk.

(** A plan, prior state or configuration as the handler sees it through
    [Get]: the decoded model and the diagnostics of decoding it. *)
Record Data (M : Type) : Type := {
  decoded : M;
  decodeDiags : diag.Diagnostics
}.

Definition Get {M : Type} (d : Data M) : M * diag.Diagnostics :=
  (decoded d, decodeDiags d).

(** The state of a response; [Raw = None] is the null state, which the
    host reads as "no such resource". *)
Record State (M : Type) : Type := { Raw : option M }.

(** [Set] encodes a model by reflection over its [tfsdk] tags.  The models
    of this provider mirror their schemas attribute by attribute, so the
    encoding has no failing case: the value is stored and no diagnostic
    comes back. *)
Definition Set_ {M : Type} (s : State M) (val : M)
  : State M * diag.Diagnostics :=
  ({| Raw := Some val |}, []).

Definition RemoveResource {M : Type} (s : State M) : State M :=
  {| Raw := None |}.

End tfsdk.

(** A value of type [any] as the Configure hooks inspect it: the nil
    interface, a [*loopia.API] (a pointer, possibly nil), or a value of
    another type, kept by the name [%T] prints. *)
Inductive any : Type :=
| NilData
| APIData (client : option loopia.API)
| OtherData (typeName : string).

Module resource.

Module CreateRequest.
Record t (M : Type) : Type := { Plan : tfsdk.Data M }.
End CreateRequest.

Module ReadRequest.
Record t (M : Type) : Type := { State : tfsdk.Data M }.
End ReadRequest.

Module UpdateRequest.
Record t (M : Type) : Type := {
  Plan : tfsdk.Data M;
  State : tfsdk.Data M
}.
End UpdateRequest.

Module DeleteRequest.
Record t (M : Type) : Type := { State : tfsdk.Data M }.
End DeleteRequest.

(** [CreateResponse], [ReadResponse], [UpdateResponse] and
    [DeleteResponse] carry the same two fields. *)
Module Response.
Record t (M : Type) : Type := {
  State : tfsdk.State M;
  Diagnostics : diag.Diagnostics
}.
End Response.

Module ConfigureRequest.
Record t : Type := { ProviderData : any }.
End ConfigureRequest.

Module ConfigureResponse.
Record t : Type := { Diagnostics : diag.Diagnostics }.
End ConfigureResponse.

End resource.

Import resource.

(** [resp.Diagnostics.Append(diags...)] and [resp.Diagnostics.AddError(..)]
    on a resource response. *)
Definition appendDiags {M : Type} (resp : Response.t M)
  (diags : diag.Diagnostics) : Response.t M :=
  {| Response.State := Response.State resp;
     Response.Diagnostics := diag.Append (Response.Diagnostics resp) diags |}.

Definition addError {M : Type} (resp : Response.t M)
  (summary detail : string) : Response.t M :=
  {| Response.State := Response.State resp;
     Response.Diagnostics :=
       diag.AddError (Response.Diagnostics resp) summary detail |}.

Definition hasError {M : Type} (resp : Response.t M) : bool :=
  diag.HasError (Response.Diagnostics resp).

(** [diags = resp.State.Set(ctx, val); resp.Diagnostics.Append(diags...)] *)
Definition setState {M : Type} (resp : Response.t M) (val : M)
  : Response.t M :=
  let (st, diags) := tfsdk.Set_ (Response.State resp) val in
  appendDiags {| Response.State := st;
                 Response.Diagnostics := Response.Diagnostics resp |} diags.

(** ** Zone record resource *)

Module zoneRecordResource.

Record t : Type := { client : option loopia.API }.

Definition NewZoneRecordResource : t := {| client := None |}.

Record recordModel : Type := {
  Type_ : types.String;
  Ttl : types.Int32;
  Priority : types.Int32;
  Value : types.String;
  RecordId : types.Int32
}.

Record ZoneRecordResourceModel : Type := {
  Domain : types.String;
  Subdomain : types.String;
  Record_ : recordModel
}.

Definition toClientRecord (m : recordModel) : loopia.Record_ :=
  {| loopia.ID := int64 (types.ValueInt32 (RecordId m));
     loopia.TTL := int (types.ValueInt32 (Ttl m));
     loopia.Type_ := types.ValueString (Type_ m);
     loopia.Value := types.ValueString (Value m);
     loopia.Priority := int (types.ValueInt32 (Priority m)) |}.

Definition recordModelFromClient (rec : loopia.Record_) : recordModel :=
  {| Type_ := types.StringValue (loopia.Type_ rec);
     Ttl := types.Int32Value (int32 (loopia.TTL rec));
     Priority := types.Int32Value (int32 (loopia.Priority rec));
     Value := types.StringValue (loopia.Value rec);
     RecordId := types.Int32Value (int32 (loopia.ID rec)) |}.

Definition recordsMatch (r : t) (apiRecord : loopia.Record_)
  (planRecord : recordModel) : bool :=
  String.eqb (loopia.Type_ apiRecord) (types.ValueString (Type_ planRecord))
  && String.eqb (loopia.Value apiRecord)
       (types.ValueString (Value planRecord))
  && Z.eqb (loopia.TTL apiRecord) (int (types.ValueInt32 (Ttl planRecord)))
  && Z.eqb (loopia.Priority apiRecord)
       (int (types.ValueInt32 (Priority planRecord))).

(** [plan.Record = rec'] on a model *)
Definition withRecord (m : ZoneRecordResourceModel) (rec' : recordModel)
  : ZoneRecordResourceModel :=
  {| Domain := Domain m; Subdomain := Subdomain m; Record_ := rec' |}.

Definition withRecordId (m : recordModel) (id : types.Int32) : recordModel :=
  {| Type_ := Type_ m; Ttl := Ttl m; Priority := Priority m;
     Value := Value m; RecordId := id |}.

Definition Create (r : t) (req : CreateRequest.t ZoneRecordResourceModel)
  (resp : Response.t ZoneRecordResourceModel)
  : prog (Response.t ZoneRecordResourceModel) :=
  let (plan, diags) := tfsdk.Get (CreateRequest.Plan req) in
  let resp := appendDiags resp diags in
  if hasError resp then Ret resp else
  let planRecord := toClientRecord (Record_ plan) in
  err <- loopia.AddZoneRecord (client r)
           (types.ValueString (Domain plan))
           (types.ValueString (Subdomain plan))
           planRecord ;;
  match err with
  | Some e =>
      Ret (addError resp "Error Creating Zone Record"
             ("Could not create zone record: " ++ e)%string)
  | None =>
      listed <- loopia.GetZoneRecords (client r)
                  (types.ValueString (Domain plan))
                  (types.ValueString (Subdomain plan)) ;;
      match listed with
      | loopia.Err e =>
          Ret (addError resp "Error Fetching Zone Records After Creation"
                 ("Could not list zone records: " ++ e)%string)
      | loopia.Ok records =>
          match find (fun rec => recordsMatch r rec (Record_ plan)) records with
          | None =>
              Ret (addError resp "Unable to Identify Created Record"
                     "Could not find the newly created record in the API response.")
          | Some createdRecord =>
              let plan := withRecord plan (recordModelFromClient createdRecord) in
              Ret (setState resp plan)
          end
      end
  end.

Definition Read (r : t) (req : ReadRequest.t ZoneRecordResourceModel)
  (resp : Response.t ZoneRecordResourceModel)
  : prog (Response.t ZoneRecordResourceModel) :=
  let (state, diags) := tfsdk.Get (ReadRequest.State req) in
  let resp := appendDiags resp diags in
  if hasError resp then Ret resp else
  fetched <- loopia.GetZoneRecord (client r)
               (types.ValueString (Domain state))
               (types.ValueString (Subdomain state))
               (int64 (types.ValueInt32 (RecordId (Record_ state)))) ;;
  match fetched with
  | loopia.Err e =>
      Ret (addError resp "Error Reading Zone Record"
             ("Could not read zone record ID "
              ++ fmt_d (types.ValueInt32 (RecordId (Record_ state)))
              ++ ": " ++ e)%string)
  | loopia.Ok rec =>
      let state := withRecord state (recordModelFromClient rec) in
      Ret (setState resp state)
  end.

Definition Update (r : t) (req : UpdateRequest.t ZoneRecordResourceModel)
  (resp : Response.t ZoneRecordResourceModel)
  : prog (Response.t ZoneRecordResourceModel) :=
  let (state, diags) := tfsdk.Get (UpdateRequest.State req) in
  let resp := appendDiags resp diags in
  if hasError resp then Ret resp else
  let (plan, diags) := tfsdk.Get (UpdateRequest.Plan req) in
  let resp := appendDiags resp diags in
  if hasError resp then Ret resp else
  let plan :=
    withRecord plan (withRecordId (Record_ plan) (RecordId (Record_ state))) in
  let rec := toClientRecord (Record_ plan) in
  err <- loopia.UpdateZoneRecord (client r)
           (types.ValueString (Domain plan))
           (types.ValueString (Subdomain plan))
           rec ;;
  match err with
  | Some e =>
      Ret (addError resp "Error Updating Zone Record"
             ("Could not update zone record ID "
              ++ fmt_d (types.ValueInt32 (RecordId (Record_ plan)))
              ++ ": " ++ e)%string)
  | None =>
      fetched <- loopia.GetZoneRecord (client r)
                   (types.ValueString (Domain plan))
                   (types.ValueString (Subdomain plan))
                   (int64 (types.ValueInt32 (RecordId (Record_ plan)))) ;;
      match fetched with
      | loopia.Err e =>
          Ret (addError resp "Error Refreshing Zone Record After Update"
                 ("Could not read updated zone record: " ++ e)%string)
      | loopia.Ok updatedRec =>
          let plan := withRecord plan (recordModelFromClient updatedRec) in
          Ret (setState resp plan)
      end
  end.

Definition Delete (r : t) (req : DeleteRequest.t ZoneRecordResourceModel)
  (resp : Response.t ZoneRecordResourceModel)
  : prog (Response.t ZoneRecordResourceModel) :=
  let (state, diags) := tfsdk.Get (DeleteRequest.State req) in
  let resp := appendDiags resp diags in
  if hasError resp then Ret resp else
  err <- loopia.RemoveZoneRecord (client r)
           (types.ValueString (Domain state))
           (types.ValueString (Subdomain state))
           (int64 (types.ValueInt32 (RecordId (Record_ state)))) ;;
  match err with
  | Some e =>
      Ret (addError resp "Error Deleting Zone Record"
             ("Could not delete zone record ID "
              ++ fmt_d (types.ValueInt32 (RecordId (Record_ state)))
              ++ ": " ++ e)%string)
  | None => Ret resp
  end.

Definition Configure (r : t) (req : ConfigureRequest.t)
  (resp : ConfigureResponse.t) : t * ConfigureResponse.t :=
  match ConfigureRequest.ProviderData req with
  | NilData => (r, resp)
  | APIData c => ({| client := c |}, resp)
  | OtherData typeName =>
      (r,
       {| ConfigureResponse.Diagnostics :=
            diag.AddError (ConfigureResponse.Diagnostics resp)
              "Unexpected Resource Configure Type"
              ("Expected *loopia.API, got: " ++ typeName
               ++ ". Please report this issue to the provider developers.")%string |})
  end.

Definition Metadata (r : t) (ProviderTypeName : string) : string :=
  (ProviderTypeName ++ "_zone_record")%string.

End zoneRecordResource.

(** ** Subdomain resource *)

Module subdomainResource.

Record t : Type := { client : option loopia.API }.

Definition NewSubdomainResource : t := {| client := None |}.

Record SubdomainResourceModel : Type := {
  Domain : types.String;
  Subdomain : types.String
}.

Definition Create (r : t) (req : CreateRequest.t SubdomainResourceModel)
  (resp : Response.t SubdomainResourceModel)
  : prog (Response.t SubdomainResourceModel) :=
  let (plan, diags) := tfsdk.Get (CreateRequest.Plan req) in
  let resp := appendDiags resp diags in
  if hasError resp then Ret resp else
  err <- loopia.AddSubdomain (client r)
           (types.ValueString (Domain plan))
           (types.ValueString (Subdomain plan)) ;;
  match err with
  | Some e =>
      Ret (addError resp "Error creating subdomain"
             ("Could not create subdomain, unexpected error: " ++ e)%string)
  | None =>
      let resp := setState resp plan in
      if hasError resp then Ret resp else Ret resp
  end.

Definition Read (r : t) (req : ReadRequest.t SubdomainResourceModel)
  (resp : Response.t SubdomainResourceModel)
  : prog (Response.t SubdomainResourceModel) :=
  let (state, diags) := tfsdk.Get (ReadRequest.State req) in
  let resp := appendDiags resp diags in
  if hasError resp then Ret resp else
  listed <- loopia.GetSubdomains (client r)
              (types.ValueString (Domain state)) ;;
  match listed with
  | loopia.Err e => Ret (addError resp "Unable to Read Subdomains" e)
  | loopia.Ok subdomains =>
      let found :=
        existsb
          (fun subdomain =>
             String.eqb (loopia.Name subdomain)
               (types.ValueString (Subdomain state)))
          subdomains in
      if negb found then
        Ret {| Response.State := tfsdk.RemoveResource (Response.State resp);
               Response.Diagnostics := Response.Diagnostics resp |}
      else
        (* the diagnostics of this Set are dropped by the caller *)
        Ret {| Response.State :=
                 fst (tfsdk.Set_ (Response.State resp) state);
               Response.Diagnostics := Response.Diagnostics resp |}
  end.

Definition Update (r : t) (req : UpdateRequest.t SubdomainResourceModel)
  (resp : Response.t SubdomainResourceModel)
  : prog (Response.t SubdomainResourceModel) :=
  Ret resp.

Definition Delete (r : t) (req : DeleteRequest.t SubdomainResourceModel)
  (resp : Response.t SubdomainResourceModel)
  : prog (Response.t SubdomainResourceModel) :=
  let (state, diags) := tfsdk.Get (DeleteRequest.State req) in
  let resp := appendDiags resp diags in
  if hasError resp then Ret resp else
  err <- loopia.RemoveSubDomain (client r)
           (types.ValueString (Domain state))
           (types.ValueString (Subdomain state)) ;;
  match err with
  | Some e =>
      Ret (addError resp "Error Deleting Loopia Subdomain"
             ("Could not delete subdomain, unexpected error: " ++ e)%string)
  | None => Ret resp
  end.

Definition Configure (r : t) (req : ConfigureRequest.t)
  (resp : ConfigureResponse.t) : t * ConfigureResponse.t :=
  match ConfigureRequest.ProviderData req with
  | NilData => (r, resp)
  | APIData c => ({| client := c |}, resp)
  | OtherData typeName =>
      (r,
       {| ConfigureResponse.Diagnostics :=
            diag.AddError (ConfigureResponse.Diagnostics resp)
              "Unexpected Data Source Configure Type"
              ("Expected *hashicups.Client, got: " ++ typeName
               ++ ". Please report this issue to the provider developers.")%string |})
  end.

Definition Metadata (r : t) (ProviderTypeName : string) : string :=
  (ProviderTypeName ++ "_subdomain")%string.

End subdomainResource.

(** ** Data sources: the Configure hooks *)

Module datasource.

Module ConfigureRequest.
Record t : Type := { ProviderData : any }.
End ConfigureRequest.

Module ConfigureResponse.
Record t : Type := { Diagnostics : diag.Diagnostics }.
End ConfigureResponse.

(** A data source reads its configuration; its [ReadResponse] carries a
    state and diagnostics like a resource response and is taken at that
    type. *)
Module ReadRequest.
Record t (M : Type) : Type := { Config : tfsdk.Data M }.
End ReadRequest.

(** The four data sources share the text of their type-assertion
    diagnostic. *)
Definition unexpectedType (resp : ConfigureResponse.t) (typeName : string)
  : ConfigureResponse.t :=
  {| ConfigureResponse.Diagnostics :=
       diag.AddError (ConfigureResponse.Diagnostics resp)
         "Unexpected Data Source Configure Type"
         ("Expected *loopia.API, got: " ++ typeName
          ++ ". Please report this issue to the provider developers.")%string |}.

End datasource.

Module DomainDataSource.

Record t : Type := { client : option loopia.API }.

Definition NewDomainDataSource : t := {| client := None |}.

Definition Configure (d : t) (req : datasource.ConfigureRequest.t)
  (resp : datasource.ConfigureResponse.t)
  : t * datasource.ConfigureResponse.t :=
  match datasource.ConfigureRequest.ProviderData req with
  | NilData => (d, resp)
  | APIData c => ({| client := c |}, resp)
  | OtherData typeName => (d, datasource.unexpectedType resp typeName)
  end.

Record DomainDataSourceModel : Type := {
  Name : types.String;
  Paid : types.Bool;
  Registered : types.Bool;
  RenewalStatus : types.String;
  ExpirationDate : types.String;
  ReferenceNumber : types.Int32
}.

Definition Metadata (d : t) (ProviderTypeName : string) : string :=
  (ProviderTypeName ++ "_domain")%string.

Definition Read (d : t)
  (req : datasource.ReadRequest.t DomainDataSourceModel)
  (resp : Response.t DomainDataSourceModel)
  : domainProg (Response.t DomainDataSourceModel) :=
  let (state, diags) := tfsdk.Get (datasource.ReadRequest.Config req) in
  let resp := appendDiags resp diags in
  if hasError resp then DomainRet resp else
  DomainDo (loopia.GetDomain (client d) (types.ValueString (Name state)))
    (fun fetched =>
       match fetched with
       | loopia.Err e =>
           DomainRet (addError resp "Unable to Read Loopia Domain" e)
       | loopia.Ok domain =>
           let state :=
             {| Name := types.StringValue (loopia.DomainName domain);
                Paid := types.BoolValue (loopia.Paid domain);
                Registered := types.BoolValue (loopia.Registered domain);
                RenewalStatus :=
                  types.StringValue (loopia.RenewalStatus domain);
                ExpirationDate :=
                  types.StringValue (loopia.ExpirationDate domain);
                ReferenceNumber :=
                  types.Int32Value (loopia.ReferenceNumber domain) |} in
           DomainRet (setState resp state)
       end).

End DomainDataSource.

Module DomainsDataSource.

Record t : Type := { client : option loopia.API }.

Definition NewDomainsDataSource : t := {| client := None |}.

Definition Configure (d : t) (req : datasource.ConfigureRequest.t)
  (resp : datasource.ConfigureResponse.t)
  : t * datasource.ConfigureResponse.t :=
  match datasource.ConfigureRequest.ProviderData req with
  | NilData => (d, resp)
  | APIData c => ({| client := c |}, resp)
  | OtherData typeName => (d, datasource.unexpectedType resp typeName)
  end.

Record domainsModel : Type := {
  Name : types.String;
  Paid : types.Bool;
  Registered : types.Bool;
  RenewalStatus : types.String;
  ExpirationDate : types.String;
  ReferenceNumber : types.Int32
}.

Record DomainsDataSourceModel : Type := { Domains : list domainsModel }.

Definition Metadata (d : t) (ProviderTypeName : string) : string :=
  (ProviderTypeName ++ "_domains")%string.

(** The loop body: the entry appended for one listed domain. *)
Definition domainState (domain : loopia.Domain) : domainsModel :=
  {| Name := types.StringValue (loopia.DomainName domain);
     Paid := types.BoolValue (loopia.Paid domain);
     Registered := types.BoolValue (loopia.Registered domain);
     RenewalStatus := types.StringValue (loopia.RenewalStatus domain);
     ExpirationDate := types.StringValue (loopia.ExpirationDate domain);
     ReferenceNumber := types.Int32Value (loopia.ReferenceNumber domain) |}.

(** [state] starts as the zero value: the configuration is not read. *)
Definition Read (d : t)
  (req : datasource.ReadRequest.t DomainsDataSourceModel)
  (resp : Response.t DomainsDataSourceModel)
  : domainProg (Response.t DomainsDataSourceModel) :=
  let state := {| Domains := [] |} in
  DomainDo (loopia.GetDomains (client d))
    (fun listed =>
       match listed with
       | loopia.Err e =>
           DomainRet (addError resp "Unable to Read Loopia Domains" e)
       | loopia.Ok domains =>
           let state :=
             fold_left
               (fun state domain =>
                  {| Domains := Domains state ++ [domainState domain] |})
               domains state in
           let resp := setState resp state in
           if hasError resp then DomainRet resp else DomainRet resp
       end).

End DomainsDataSource.

Module SubdomainsDataSource.

Record t : Type := { client : option loopia.API }.

Definition NewSubdomainsDataSource : t := {| client := None |}.

Definition Configure (d : t) (req : datasource.ConfigureRequest.t)
  (resp : datasource.ConfigureResponse.t)
  : t * datasource.ConfigureResponse.t :=
  match datasource.ConfigureRequest.ProviderData req with
  | NilData => (d, resp)
  | APIData c => ({| client := c |}, resp)
  | OtherData typeName => (d, datasource.unexpectedType resp typeName)
  end.

Record SubdomainsDataSourceModel : Type := {
  Domain : types.String;
  Subdomains : basetypes.List
}.

Definition Metadata (d : t) (ProviderTypeName : string) : string :=
  (ProviderTypeName ++ "_subdomains")%string.

Definition Read (d : t)
  (req : datasource.ReadRequest.t SubdomainsDataSourceModel)
  (resp : Response.t SubdomainsDataSourceModel)
  : prog (Response.t SubdomainsDataSourceModel) :=
  let (state, diags) := tfsdk.Get (datasource.ReadRequest.Config req) in
  let resp := appendDiags resp diags in
  if hasError resp then Ret resp else
  listed <- loopia.GetSubdomains (client d)
              (types.ValueString (Domain state)) ;;
  match listed with
  | loopia.Err e => Ret (addError resp "Unable to Read Loopia Subdomains" e)
  | loopia.Ok subdomains =>
      let subdomainNames :=
        fold_left
          (fun names subdomain =>
             names ++ [types.StringValue (loopia.Name subdomain)])
          subdomains [] in
      let (listValue, diags) := basetypes.ListValue subdomainNames in
      let resp := appendDiags resp diags in
      if hasError resp then Ret resp else
      let state := {| Domain := Domain state; Subdomains := listValue |} in
      let resp := setState resp state in
      if hasError resp then Ret resp else Ret resp
  end.

End SubdomainsDataSource.

Module zoneRecordsDataSource.

Record t : Type := { client : option loopia.API }.

Definition NewZoneRecordsDataSource : t := {| client := None |}.

Definition Configure (d : t) (req : datasource.ConfigureRequest.t)
  (resp : datasource.ConfigureResponse.t)
  : t * datasource.ConfigureResponse.t :=
  match datasource.ConfigureRequest.ProviderData req with
  | NilData => (d, resp)
  | APIData c => ({| client := c |}, resp)
  | OtherData typeName => (d, datasource.unexpectedType resp typeName)
  end.

Record zoneRecordsModel : Type := {
  Type_ : types.String;
  Ttl : types.Int32;
  Priority : types.Int32;
  Value : types.String;
  RecordId : types.Int32
}.

Record ZoneRecordsDataSourceModel : Type := {
  Domain : types.String;
  Subdomain : types.String;
  ZoneRecords : list zoneRecordsModel
}.

Definition Metadata (d : t) (ProviderTypeName : string) : string :=
  (ProviderTypeName ++ "_zone_records")%string.

(** The loop body: the entry appended for one listed record. *)
Definition zoneRecordState (record : loopia.Record_) : zoneRecordsModel :=
  {| Type_ := types.StringValue (loopia.Type_ record);
     Ttl := types.Int32Value (int32 (loopia.TTL record));
     Priority := types.Int32Value (int32 (loopia.Priority record));
     Value := types.StringValue (loopia.Value record);
     RecordId := types.Int32Value (int32 (loopia.ID record)) |}.

Definition Read (d : t)
  (req : datasource.ReadRequest.t ZoneRecordsDataSourceModel)
  (resp : Response.t ZoneRecordsDataSourceModel)
  : prog (Response.t ZoneRecordsDataSourceModel) :=
  let (state, diags) := tfsdk.Get (datasource.ReadRequest.Config req) in
  let resp := appendDiags resp diags in
  if hasError resp then Ret resp else
  listed <- loopia.GetZoneRecords (client d)
              (types.ValueString (Domain state))
              (types.ValueString (Subdomain state)) ;;
  match listed with
  | loopia.Err e =>
      Ret (addError resp "Unable to Read Loopia Zone Records"
             ("Could not read zone records: " ++ e)%string)
  | loopia.Ok zoneRecords =>
      let state :=
        fold_left
          (fun state record =>
             {| Domain := Domain state; Subdomain := Subdomain state;
                ZoneRecords := ZoneRecords state ++ [zoneRecordState record] |})
          zoneRecords state in
      Ret (setState resp state)
  end.

End zoneRecordsDataSource.

(** ** Provider root *)

Module provider.

Record loopiaProviderModel : Type := {
  Username : types.String;
  Password : types.String
}.

Module ConfigureRequest.
Record t : Type := { Config : tfsdk.Data loopiaProviderModel }.
End ConfigureRequest.

Module ConfigureResponse.
Record t : Type := {
  DataSourceData : any;
  ResourceData : any;
  Diagnostics : diag.Diagnostics
}.
End ConfigureResponse.

Record LoopiaProvider : Type := { version : string }.

Definition withDiagnostics (resp : ConfigureResponse.t)
  (diags : diag.Diagnostics) : ConfigureResponse.t :=
  {| ConfigureResponse.DataSourceData := ConfigureResponse.DataSourceData resp;
     ConfigureResponse.ResourceData := ConfigureResponse.ResourceData resp;
     ConfigureResponse.Diagnostics := diags |}.

Definition unknownUsername : diag.Diagnostic :=
  diag.NewAttributeErrorDiagnostic "username"
    "Unknown Loopia API Username"
    ("The provider cannot create the Loopia API client as there is an unknown configuration value for the Loopia API username. "
     ++ "Either target apply the source of the value first, set the value statically in the configuration, or use the LOOPIA_USERNAME environment variable.")%string.

Definition unknownPassword : diag.Diagnostic :=
  diag.NewAttributeErrorDiagnostic "password"
    "Unknown Loopia API Password"
    ("The provider cannot create the Loopia API client as there is an unknown configuration value for the Loopia API password. "
     ++ "Either target apply the source of the value first, set the value statically in the configuration, or use the LOOPIA_PASSWORD environment variable.")%string.

Definition missingUsername : diag.Diagnostic :=
  diag.NewAttributeErrorDiagnostic "username"
    "Missing Loopia API Username"
    ("The provider cannot create the Loopia API client as there is a missing or empty value for the Loopia API username. "
     ++ "Set the username value in the configuration or use the LOOPIA_USERNAME environment variable. "
     ++ "If either is already set, ensure the value is not empty.")%string.

Definition missingPassword : diag.Diagnostic :=
  diag.NewAttributeErrorDiagnostic "password"
    "Missing Loopia API Password"
    ("The provider cannot create the Loopia API client as there is a missing or empty value for the Loopia API password. "
     ++ "Set the password value in the configuration or use the LOOPIA_PASSWORD environment variable. "
     ++ "If either is already set, ensure the value is not empty.")%string.

(** [Metadata] sets the provider's type name and version. *)
Definition Metadata (p : LoopiaProvider) : string * string :=
  ("loopia", version p).

(** The [tflog] calls write to the host's log only and are left out. *)
Definition Configure (p : LoopiaProvider) (req : ConfigureRequest.t)
  (resp : ConfigureResponse.t) : prog ConfigureResponse.t :=
  let (config, diags) := tfsdk.Get (ConfigureRequest.Config req) in
  let resp :=
    withDiagnostics resp
      (diag.Append (ConfigureResponse.Diagnostics resp) diags) in
  if diag.HasError (ConfigureResponse.Diagnostics resp) then Ret resp else
  let resp :=
    if types.StringIsUnknown (Username config)
    then withDiagnostics resp
           (diag.Append (ConfigureResponse.Diagnostics resp) [unknownUsername])
    else resp in
  let resp :=
    if types.StringIsUnknown (Password config)
    then withDiagnostics resp
           (diag.Append (ConfigureResponse.Diagnostics resp) [unknownPassword])
    else resp in
  if diag.HasError (ConfigureResponse.Diagnostics resp) then Ret resp else
  username <- loopia.os_Getenv "LOOPIA_USERNAME" ;;
  password <- loopia.os_Getenv "LOOPIA_PASSWORD" ;;
  let username :=
    if negb (types.StringIsNull (Username config))
    then types.ValueString (Username config) else username in
  let password :=
    if negb (types.StringIsNull (Password config))
    then types.ValueString (Password config) else password in
  let resp :=
    if String.eqb username ""
    then withDiagnostics resp
           (diag.Append (ConfigureResponse.Diagnostics resp) [missingUsername])
    else resp in
  let resp :=
    if String.eqb password ""
    then withDiagnostics resp
           (diag.Append (ConfigureResponse.Diagnostics resp) [missingPassword])
    else resp in
  if diag.HasError (ConfigureResponse.Diagnostics resp) then Ret resp else
  created <- loopia.New username password ;;
  match created with
  | loopia.Err e =>
      Ret (withDiagnostics resp
             (diag.AddError (ConfigureResponse.Diagnostics resp)
                "Unable to Create Loopia API Client"
                ("An unexpected error occurred when creating the Loopia API client. "
                 ++ "If the error is not clear, please contact the provider developers."
                 ++ String (Ascii.ascii_of_nat 10) (String (Ascii.ascii_of_nat 10) "")
                 ++ "Loopia Client Error: " ++ e)%string))
  | loopia.Ok client =>
      Ret {| ConfigureResponse.DataSourceData := APIData (Some client);
             ConfigureResponse.ResourceData := APIData (Some client);
             ConfigureResponse.Diagnostics :=
               ConfigureResponse.Diagnostics resp |}
  end.

End provider.

(** ** A reference remote

    An in-memory registrar used to run the handlers on concrete inputs: it
    keeps the process environment, the subdomains and the zone records of one
    domain, and numbers new records from a counter.  It accepts what it is
    sent, duplicates included. *)

Module registrar.

Record world : Type := {
  environ : list (string * string);
  subdomains : list loopia.Subdomain;
  records : list loopia.Record_;
  nextID : Z
}.

Fixpoint lookupEnv (env : list (string * string)) (key : string) : string :=
  match env with
  | [] => ""
  | (k, v) :: rest => if String.eqb k key then v else lookupEnv rest key
  end.

Definition withID (rec : loopia.Record_) (id : Z) : loopia.Record_ :=
  {| loopia.ID := id; loopia.TTL := loopia.TTL rec;
     loopia.Type_ := loopia.Type_ rec; loopia.Value := loopia.Value rec;
     loopia.Priority := loopia.Priority rec |}.

Definition hasID (id : Z) (rec : loopia.Record_) : bool :=
  Z.eqb (loopia.ID rec) id.

Definition answer : remote world :=
  fun X c =>
    match c in loopia.call X return world -> X * world with
    | loopia.os_Getenv key => fun w => (lookupEnv (environ w) key, w)
    | loopia.New u p =>
        fun w => (loopia.Ok {| loopia.username := u; loopia.password := p |}, w)
    | loopia.AddSubdomain _ _ sub =>
        fun w =>
          (None,
           {| environ := environ w;
              subdomains := subdomains w ++ [{| loopia.Name := sub |}];
              records := records w; nextID := nextID w |})
    | loopia.GetSubdomains _ _ => fun w => (loopia.Ok (subdomains w), w)
    | loopia.RemoveSubDomain _ _ sub =>
        fun w =>
          (None,
           {| environ := environ w;
              subdomains :=
                filter (fun s => negb (String.eqb (loopia.Name s) sub))
                  (subdomains w);
              records := records w; nextID := nextID w |})
    | loopia.AddZoneRecord _ _ _ rec =>
        fun w =>
          (None,
           {| environ := environ w; subdomains := subdomains w;
              records := records w ++ [withID rec (nextID w)];
              nextID := nextID w + 1 |})
    | loopia.GetZoneRecords _ _ _ => fun w => (loopia.Ok (records w), w)
    | loopia.GetZoneRecord _ _ _ id =>
        fun w =>
          match find (hasID id) (records w) with
          | Some rec => (loopia.Ok rec, w)
          | None => (loopia.Err "record not found", w)
          end
    | loopia.UpdateZoneRecord _ _ _ rec =>
        fun w =>
          (None,
           {| environ := environ w; subdomains := subdomains w;
              records :=
                map (fun old => if hasID (loopia.ID rec) old then rec else old)
                  (records w);
              nextID := nextID w |})
    | loopia.RemoveZoneRecord _ _ _ id =>
        fun w =>
          (None,
           {| environ := environ w; subdomains := subdomains w;
              records := filter (fun old => negb (hasID id old)) (records w);
              nextID := nextID w |})
    end.

Arguments answer : clear implicits.

End registrar.

(** ** A failing remote

    A remote that serves a given number of calls and refuses every later
    one: the world is the number of calls still served.  A served call gets
    the plainest answer of its kind. *)

Module flaky.

Definition refusal : error := "connection refused".

Definition answer : remote nat :=
  fun X c =>
    match c in loopia.call X return nat -> X * nat with
    | loopia.os_Getenv _ => fun w => ("", w)
    | loopia.New u p =>
        fun w =>
          match w with
          | O => (loopia.Err refusal, O)
          | S w' =>
              (loopia.Ok {| loopia.username := u; loopia.password := p |}, w')
          end
    | loopia.AddSubdomain _ _ _ =>
        fun w => match w with O => (Some refusal, O) | S w' => (None, w') end
    | loopia.GetSubdomains _ _ =>
        fun w =>
          match w with
          | O => (loopia.Err refusal, O)
          | S w' => (loopia.Ok [], w')
          end
    | loopia.RemoveSubDomain _ _ _ =>
        fun w => match w with O => (Some refusal, O) | S w' => (None, w') end
    | loopia.AddZoneRecord _ _ _ _ =>
        fun w => match w with O => (Some refusal, O) | S w' => (None, w') end
    | loopia.GetZoneRecords _ _ _ =>
        fun w =>
          match w with
          | O => (loopia.Err refusal, O)
          | S w' => (loopia.Ok [], w')
          end
    | loopia.GetZoneRecord _ _ _ id =>
        fun w =>
          match w with
          | O => (loopia.Err refusal, O)
          | S w' =>
              (loopia.Ok {| loopia.ID := id; loopia.TTL := 0;
                            loopia.Type_ := "A"; loopia.Value := "192.0.2.1";
                            loopia.Priority := 0 |}, w')
          end
    | loopia.UpdateZoneRecord _ _ _ _ =>
        fun w => match w with O => (Some refusal, O) | S w' => (None, w') end
    | loopia.RemoveZoneRecord _ _ _ _ =>
        fun w => match w with O => (Some refusal, O) | S w' => (None, w') end
    end.

Arguments answer : clear implicits.

End flaky.

(** ** A reference remote for domains

    The world is the account's list of domains; an empty account stands for
    a client that cannot list. *)

Module domainRegistrar.

Definition named (name : string) (domain : loopia.Domain) : bool :=
  String.eqb (loopia.DomainName domain) name.

Definition answer : domainRemote (list loopia.Domain) :=
  fun X c =>
    match c in loopia.domainCall X return list loopia.Domain -> X * _ with
    | loopia.GetDomain _ name =>
        fun w =>
          match find (named name) w with
          | Some domain => (loopia.Ok domain, w)
          | None => (loopia.Err "unknown domain", w)
          end
    | loopia.GetDomains _ =>
        fun w =>
          match w with
          | [] => (loopia.Err "no domains", w)
          | _ => (loopia.Ok w, w)
          end
    end.

Arguments answer : clear implicits.

End domainRegistrar.

(** ** Notions the statements use *)

(** The first element of a list that satisfies a test, in list order. *)
Definition firstMatch {A : Type} (test : A -> bool) (l : list A) (x : A)
  : Prop :=
  exists pre post,
    l = pre ++ x :: post /\ test x = true /\
    forall y, In y pre -> test y = false.

(** Two client records carry the same (type, value, ttl, priority) tuple. *)
Definition sameTuple (a b : loopia.Record_) : bool :=
  String.eqb (loopia.Type_ a) (loopia.Type_ b)
  && String.eqb (loopia.Value a) (loopia.Value b)
  && Z.eqb (loopia.TTL a) (loopia.TTL b)
  && Z.eqb (loopia.Priority a) (loopia.Priority b).

(** A listed subdomain carries the given name. *)
Definition listedName (name : string) (subdomain : loopia.Subdomain) : bool :=
  String.eqb (loopia.Name subdomain) name.

(** A credential as the configuration surface describes it: the explicit
    value when one is given, the environment's otherwise. *)
Definition resolve (explicit : types.String) (fromEnv : string) : string :=
  if types.StringIsNull explicit then fromEnv else types.ValueString explicit.

(** What the Configure hook of an adapter does with each kind of provider
    data, for an adapter type [T] with its request constructor, its response
    diagnostics and its client field: nil data change nothing; a
    [*loopia.API] is stored and nothing is reported; the diagnostics change
    only for a value of another type, and then they hold an error while the
    client stays as it was. *)
Definition configureContract {T Req Resp : Type}
  (request : any -> Req) (diagnostics : Resp -> diag.Diagnostics)
  (client : T -> option loopia.API)
  (Configure : T -> Req -> Resp -> T * Resp) : Prop :=
  (forall a resp, Configure a (request NilData) resp = (a, resp))
  /\ (forall a resp c,
        client (fst (Configure a (request (APIData c)) resp)) = c
        /\ snd (Configure a (request (APIData c)) resp) = resp)
  /\ (forall a resp data,
        diagnostics (snd (Configure a (request data) resp))
        <> diagnostics resp ->
        exists typeName, data = OtherData typeName)
  /\ (forall a resp typeName,
        diag.HasError
          (diagnostics (snd (Configure a (request (OtherData typeName)) resp)))
        = true
        /\ fst (Configure a (request (OtherData typeName)) resp) = a).


(** A call that changes the remote zone after a record was added. *)
Definition undoes (i : issued) : bool :=
  match i with
  | Issued (loopia.RemoveZoneRecord _ _ _ _) => true
  | Issued (loopia.UpdateZoneRecord _ _ _ _) => true
  | _ => false
  end.

(** The diagnostic of a zone record Create that cannot find its record in
    the listing. *)
Definition unidentified : diag.Diagnostic :=
  diag.NewErrorDiagnostic "Unable to Identify Created Record"
    "Could not find the newly created record in the API response.".

(** ** Sample inputs

    An A record without ttl and priority in the plan, an adapter holding a
    client, and registrars with and without an identical record already
    served under identifier 11. *)

Definition sampleRecord : zoneRecordResource.recordModel :=
  {| zoneRecordResource.Type_ := types.StringValue "A";
     zoneRecordResource.Ttl := types.Int32Null;
     zoneRecordResource.Priority := types.Int32Null;
     zoneRecordResource.Value := types.StringValue "192.0.2.1";
     zoneRecordResource.RecordId := types.Int32Unknown |}.

Definition samplePlan : zoneRecordResource.ZoneRecordResourceModel :=
  {| zoneRecordResource.Domain := types.StringValue "example.com";
     zoneRecordResource.Subdomain := types.StringValue "www";
     zoneRecordResource.Record_ := sampleRecord |}.

Definition sampleCreate
  : CreateRequest.t zoneRecordResource.ZoneRecordResourceModel :=
  {| CreateRequest.Plan :=
       {| tfsdk.decoded := samplePlan; tfsdk.decodeDiags := [] |} |}.

Definition emptyResponse {M : Type} : Response.t M :=
  {| Response.State := {| tfsdk.Raw := None |}; Response.Diagnostics := [] |}.

Definition sampleAPI : loopia.API :=
  {| loopia.username := "u"; loopia.password := "p" |}.

Definition configured : zoneRecordResource.t :=
  {| zoneRecordResource.client := Some sampleAPI |}.

Definition served (id : Z) : loopia.Record_ :=
  {| loopia.ID := id; loopia.TTL := 0; loopia.Type_ := "A";
     loopia.Value := "192.0.2.1"; loopia.Priority := 0 |}.

Definition emptyZone : registrar.world :=
  {| registrar.environ := []; registrar.subdomains := [];
     registrar.records := []; registrar.nextID := 11 |}.

Definition occupiedZone : registrar.world :=
  {| registrar.environ := []; registrar.subdomains := [];
     registrar.records := [served 11]; registrar.nextID := 12 |}.

Definition sampleRead
  : ReadRequest.t zoneRecordResource.ZoneRecordResourceModel :=
  {| ReadRequest.State :=
       {| tfsdk.decoded :=
            zoneRecordResource.withRecord samplePlan
              (zoneRecordResource.recordModelFromClient (served 11));
          tfsdk.decodeDiags := [] |} |}.

Definition priorResponse
  : Response.t zoneRecordResource.ZoneRecordResourceModel :=
  {| Response.State :=
       {| tfsdk.Raw := Some (tfsdk.decoded (ReadRequest.State sampleRead)) |};
     Response.Diagnostics := [] |}.

(** An update of the served record to a new address; the plan does not
    know the identifier. *)
Definition sampleUpdate
  : UpdateRequest.t zoneRecordResource.ZoneRecordResourceModel :=
  {| UpdateRequest.Plan :=
       {| tfsdk.decoded :=
            zoneRecordResource.withRecord samplePlan
              {| zoneRecordResource.Type_ := types.StringValue "A";
                 zoneRecordResource.Ttl := types.Int32Value 300;
                 zoneRecordResource.Priority := types.Int32Value 0;
                 zoneRecordResource.Value := types.StringValue "192.0.2.2";
                 zoneRecordResource.RecordId := types.Int32Unknown |};
          tfsdk.decodeDiags := [] |};
     UpdateRequest.State := ReadRequest.State sampleRead |}.

Definition sampleSubdomain : subdomainResource.SubdomainResourceModel :=
  {| subdomainResource.Domain := types.StringValue "example.com";
     subdomainResource.Subdomain := types.StringValue "www" |}.

Definition subdomainAdapter : subdomainResource.t :=
  {| subdomainResource.client := Some sampleAPI |}.

(** A provider block without credentials, as in the repository's examples,
    run in a process whose environment has none either. *)
Definition sampleConfigure : provider.ConfigureRequest.t :=
  {| provider.ConfigureRequest.Config :=
       {| tfsdk.decoded :=
            {| provider.Username := types.StringNull;
               provider.Password := types.StringNull |};
          tfsdk.decodeDiags := [] |} |}.

Definition freshConfigureResponse : provider.ConfigureResponse.t :=
  {| provider.ConfigureResponse.DataSourceData := NilData;
     provider.ConfigureResponse.ResourceData := NilData;
     provider.ConfigureResponse.Diagnostics := [] |}.

Definition devProvider : provider.LoopiaProvider :=
  {| provider.version := "dev" |}.

(** A process environment that carries both credentials. *)
Definition credentialedZone : registrar.world :=
  {| registrar.environ :=
       [("LOOPIA_USERNAME", "env-user"); ("LOOPIA_PASSWORD", "env-pass")];
     registrar.subdomains := []; registrar.records := [];
     registrar.nextID := 11 |}.

Definition explicitConfigure : provider.ConfigureRequest.t :=
  {| provider.ConfigureRequest.Config :=
       {| tfsdk.decoded :=
            {| provider.Username := types.StringValue "cfg-user";
               provider.Password := types.StringNull |};
          tfsdk.decodeDiags := [] |} |}.

(** Inputs of the further runs: the stored states of the samples, a
    subdomains query, a zone records query, and an account of two domains. *)
Definition sampleDelete
  : DeleteRequest.t zoneRecordResource.ZoneRecordResourceModel :=
  {| DeleteRequest.State := ReadRequest.State sampleRead |}.

Definition sampleSubdomainState
  : tfsdk.Data subdomainResource.SubdomainResourceModel :=
  {| tfsdk.decoded := sampleSubdomain; tfsdk.decodeDiags := [] |}.

Definition subdomainsQuery
  : datasource.ReadRequest.t SubdomainsDataSource.SubdomainsDataSourceModel :=
  {| datasource.ReadRequest.Config :=
       {| tfsdk.decoded :=
            {| SubdomainsDataSource.Domain := types.StringValue "example.com";
               SubdomainsDataSource.Subdomains := basetypes.ListNull |};
          tfsdk.decodeDiags := [] |} |}.

Definition zoneRecordsQuery
  : datasource.ReadRequest.t zoneRecordsDataSource.ZoneRecordsDataSourceModel :=
  {| datasource.ReadRequest.Config :=
       {| tfsdk.decoded :=
            {| zoneRecordsDataSource.Domain := types.StringValue "example.com";
               zoneRecordsDataSource.Subdomain := types.StringValue "www";
               zoneRecordsDataSource.ZoneRecords := [] |};
          tfsdk.decodeDiags := [] |} |}.

Definition twoSubdomains : registrar.world :=
  {| registrar.environ := [];
     registrar.subdomains :=
       [{| loopia.Name := "www" |}; {| loopia.Name := "mail" |}];
     registrar.records := [served 11; served 12]; registrar.nextID := 13 |}.

Definition exampleCom : loopia.Domain :=
  {| loopia.DomainName := "example.com"; loopia.Paid := true;
     loopia.Registered := true; loopia.RenewalStatus := "NORMAL";
     loopia.ExpirationDate := "2027-01-01"; loopia.ReferenceNumber := 4711 |}.

Definition exampleOrg : loopia.Domain :=
  {| loopia.DomainName := "example.org"; loopia.Paid := false;
     loopia.Registered := true; loopia.RenewalStatus := "NOT_HANDLED_BY_LOOPIA";
     loopia.ExpirationDate := "2026-12-01"; loopia.ReferenceNumber := 4712 |}.

Definition domainQuery (name : string)
  : datasource.ReadRequest.t DomainDataSource.DomainDataSourceModel :=
  {| datasource.ReadRequest.Config :=
       {| tfsdk.decoded :=
            {| DomainDataSource.Name := types.StringValue name;
               DomainDataSource.Paid := types.BoolNull;
               DomainDataSource.Registered := types.BoolNull;
               DomainDataSource.RenewalStatus := types.StringNull;
               DomainDataSource.ExpirationDate := types.StringNull;
               DomainDataSource.ReferenceNumber := types.Int32Null |};
          tfsdk.decodeDiags := [] |} |}.

Definition domainsQuery
  : datasource.ReadRequest.t DomainsDataSource.DomainsDataSourceModel :=
  {| datasource.ReadRequest.Config :=
       {| tfsdk.decoded := {| DomainsDataSource.Domains := [] |};
          tfsdk.decodeDiags := [] |} |}.

(** A Create whose plan knows every attribute but the identifier, and a
    provider block that carries both credentials. *)
Definition knownCreate
  : CreateRequest.t zoneRecordResource.ZoneRecordResourceModel :=
  {| CreateRequest.Plan := UpdateRequest.Plan sampleUpdate |}.

Definition explicitBoth : provider.ConfigureRequest.t :=
  {| provider.ConfigureRequest.Config :=
       {| tfsdk.decoded :=
            {| provider.Username := types.StringValue "cfg-user";
               provider.Password := types.StringValue "cfg-pass" |};
          tfsdk.decodeDiags := [] |} |}.

(** A zone that already serves another A record of the same name, under
    identifier 7, so that the record a Create adds is listed second. *)
Definition otherRecord : loopia.Record_ :=
  {| loopia.ID := 7; loopia.TTL := 3600; loopia.Type_ := "A";
     loopia.Value := "192.0.2.99"; loopia.Priority := 0 |}.

Definition mixedZone : registrar.world :=
  {| registrar.environ := []; registrar.subdomains := [];
     registrar.records := [otherRecord]; registrar.nextID := 11 |}.

(** * Properties *)

Unset Implicit Arguments.

(** ** Integer conversions *)

Lemma wrap_range (bits z : Z) :
  0 < bits -> - 2 ^ (bits - 1) <= wrap bits z < 2 ^ (bits - 1).
Proof.
  intros Hb. unfold wrap.
  assert (H2 : 2 ^ bits = 2 * 2 ^ (bits - 1)).
  { replace bits with (Z.succ (bits - 1)) at 1 by lia.
    rewrite Z.pow_succ_r by lia. reflexivity. }
  assert (Hp : 0 < 2 ^ (bits - 1)) by (apply Z.pow_pos_nonneg; lia).
  pose proof (Z.mod_pos_bound (z + 2 ^ (bits - 1)) (2 ^ bits)) as Hm.
  lia.
Qed.

Lemma wrap_small (bits z : Z) :
  0 < bits -> - 2 ^ (bits - 1) <= z < 2 ^ (bits - 1) -> wrap bits z = z.
Proof.
  intros Hb Hz. unfold wrap.
  assert (H2 : 2 ^ bits = 2 * 2 ^ (bits - 1)).
  { replace bits with (Z.succ (bits - 1)) at 1 by lia.
    rewrite Z.pow_succ_r by lia. reflexivity. }
  rewrite Z.mod_small by lia. lia.
Qed.

Lemma wrap_congruent (bits z : Z) :
  0 < bits -> (wrap bits z) mod 2 ^ bits = z mod 2 ^ bits.
Proof.
  intros Hb. unfold wrap.
  assert (Hp : 0 < 2 ^ bits) by (apply Z.pow_pos_nonneg; lia).
  pose proof (Z.div_mod (z + 2 ^ (bits - 1)) (2 ^ bits)) as Hd.
  replace ((z + 2 ^ (bits - 1)) mod 2 ^ bits - 2 ^ (bits - 1))
    with (z + - ((z + 2 ^ (bits - 1)) / 2 ^ bits) * 2 ^ bits) by lia.
  apply Z.mod_add. lia.
Qed.

Lemma int32_fixed_iff (z : Z) : int32 z = z <-> int32_range z.
Proof.
  unfold int32, int32_range. split.
  - intros H. rewrite <- H. apply (wrap_range 32 z). lia.
  - intros H. apply wrap_small; [lia | exact H].
Qed.

Lemma int32_in_range (z : Z) : int32_range (int32 z).
Proof. unfold int32, int32_range. apply (wrap_range 32 z). lia. Qed.

Lemma int64_of_int32 (z : Z) : int64 (int32 z) = int32 z.
Proof.
  pose proof (int32_in_range z) as H. unfold int32_range in H.
  unfold int64. apply wrap_small; lia.
Qed.

Lemma int_of_int32 (z : Z) : int (int32 z) = int32 z.
Proof. exact (int64_of_int32 z). Qed.

(** ** Diagnostics *)

Lemma Equal_isError (d e : diag.Diagnostic) :
  diag.Equal d e = true -> diag.isError e = diag.isError d.
Proof.
  unfold diag.Equal, diag.isError. intros H.
  repeat (apply andb_prop in H; destruct H as [H ?]).
  destruct (diag.severity d), (diag.severity e); simpl in *; congruence.
Qed.

Lemma Contains_error (diags : diag.Diagnostics) (d : diag.Diagnostic) :
  diag.isError d = true -> diag.HasError diags = false ->
  diag.Contains diags d = false.
Proof.
  intros Hd Hno. unfold diag.Contains.
  destruct (existsb (diag.Equal d) diags) eqn:He; [| reflexivity].
  apply existsb_exists in He. destruct He as [e [Hin Heq]].
  assert (Hex : diag.HasError diags = true).
  { apply existsb_exists. exists e. split; [exact Hin |].
    rewrite (Equal_isError _ _ Heq). exact Hd. }
  congruence.
Qed.

Lemma Append_error (diags : diag.Diagnostics) (d : diag.Diagnostic) :
  diag.isError d = true -> diag.HasError diags = false ->
  diag.Append diags [d] = diags ++ [d].
Proof.
  intros Hd Hno. unfold diag.Append. simpl.
  rewrite (Contains_error _ _ Hd Hno). reflexivity.
Qed.

Lemma AddError_fresh (diags : diag.Diagnostics) (summary detail : string) :
  diag.HasError diags = false ->
  diag.AddError diags summary detail =
  diags ++ [diag.NewErrorDiagnostic summary detail].
Proof. intros H. apply Append_error; [reflexivity | exact H]. Qed.

Lemma HasError_app (a b : diag.Diagnostics) :
  diag.HasError (a ++ b) = diag.HasError a || diag.HasError b.
Proof. apply existsb_app. Qed.

Lemma HasError_Append_one (diags : diag.Diagnostics) (d : diag.Diagnostic) :
  diag.isError d = true -> diag.HasError (diag.Append diags [d]) = true.
Proof.
  intros Hd. unfold diag.Append. simpl.
  destruct (diag.Contains diags d) eqn:Hc.
  - unfold diag.Contains in Hc. apply existsb_exists in Hc.
    destruct Hc as [e [Hin Heq]].
    apply existsb_exists. exists e. split; [exact Hin |].
    rewrite (Equal_isError _ _ Heq). exact Hd.
  - rewrite HasError_app. simpl. rewrite Hd. apply orb_true_r.
Qed.

(** ** List search *)

Lemma find_firstMatch {A : Type} (test : A -> bool) (l : list A) (x : A) :
  find test l = Some x <-> firstMatch test l x.
Proof.
  split.
  - revert x. induction l as [| a l IH]; intros x H; simpl in H.
    + discriminate.
    + destruct (test a) eqn:Ha.
      * inversion H; subst. exists [], l. repeat split; auto.
        intros y [].
      * destruct (IH x H) as [pre [post [Hl [Hx Hpre]]]].
        exists (a :: pre), post. subst l. repeat split; auto.
        intros y [Hy | Hy]; [subst; exact Ha | auto].
  - intros [pre [post [Hl [Hx Hpre]]]]. subst l.
    induction pre as [| a pre IH]; simpl.
    + rewrite Hx. reflexivity.
    + rewrite (Hpre a (or_introl eq_refl)). apply IH.
      intros y Hy. apply Hpre. right. exact Hy.
Qed.

Lemma find_none_iff {A : Type} (test : A -> bool) (l : list A) :
  find test l = None <-> forall y, In y l -> test y = false.
Proof.
  split.
  - intros H y Hy. exact (find_none test l H y Hy).
  - induction l as [| a l IH]; intros H; simpl.
    + reflexivity.
    + rewrite (H a (or_introl eq_refl)). apply IH.
      intros y Hy. apply H. right. exact Hy.
Qed.


Lemma sameTuple_fields (a b : loopia.Record_) :
  sameTuple a b = true ->
  loopia.Type_ a = loopia.Type_ b
  /\ loopia.Value a = loopia.Value b
  /\ loopia.TTL a = loopia.TTL b
  /\ loopia.Priority a = loopia.Priority b.
Proof.
  unfold sameTuple. intros H.
  apply andb_prop in H. destruct H as [H Hp].
  apply andb_prop in H. destruct H as [H Ht].
  apply andb_prop in H. destruct H as [Hty Hv].
  apply String.eqb_eq in Hty. apply String.eqb_eq in Hv.
  apply Z.eqb_eq in Ht. apply Z.eqb_eq in Hp.
  repeat split; assumption.
Qed.

(** ** Zone record Create *)

Section ZoneRecordCreate.

Import zoneRecordResource.

Context {W : Type} (h : remote W) (r : zoneRecordResource.t).

Variable req : CreateRequest.t ZoneRecordResourceModel.
Variable resp : Response.t ZoneRecordResourceModel.

Local Abbreviation plan := (tfsdk.decoded (CreateRequest.Plan req)).
Local Abbreviation resp0 :=
  (appendDiags resp (tfsdk.decodeDiags (CreateRequest.Plan req))).
Local Abbreviation domain := (types.ValueString (Domain plan)).
Local Abbreviation subdomain := (types.ValueString (Subdomain plan)).
Local Abbreviation submitted := (toClientRecord (Record_ plan)).

Lemma recordsMatch_sameTuple (api : loopia.Record_) (m : recordModel) :
  recordsMatch r api m = sameTuple api (toClientRecord m).
Proof. reflexivity. Qed.

Lemma zoneCreate_run (w w1 w2 : W) (listed : list loopia.Record_) :
  hasError resp0 = false ->
  h _ (loopia.AddZoneRecord (client r) domain subdomain submitted) w
    = (None, w1) ->
  h _ (loopia.GetZoneRecords (client r) domain subdomain) w1
    = (loopia.Ok listed, w2) ->
  run h (Create r req resp) w =
  (match find (fun rec => sameTuple rec submitted) listed with
   | Some createdRecord =>
       setState resp0 (withRecord plan (recordModelFromClient createdRecord))
   | None =>
       addError resp0 "Unable to Identify Created Record"
         "Could not find the newly created record in the API response."
   end, w2).
Proof.
  destruct req as [[p ds]]. simpl. intros Hok Hadd Hlist.
  unfold Create. simpl. rewrite Hok. simpl. rewrite Hadd. simpl.
  rewrite Hlist. simpl.
  destruct (find _ listed); reflexivity.
Qed.


(** C2. When AddZoneRecord and the listing that follows both succeed, the
    state Create writes is the plan's domain and subdomain with the first
    listed record, in the order the client returned, whose (type, value, ttl,
    priority) equal the submitted ones: the stored record holds that
    entry's type and value, its ttl, priority and identifier through the
    32-bit fields, all five as known values, and the four fields of the
    entry are the submitted ones; no diagnostic is added.  When no listed
    record has that tuple, Create adds the error "Unable to Identify Created
    Record" and leaves the state as it was handed over.  One of the two
    cases always applies. *)
Theorem Create_adopts_first_match (w w1 w2 : W) (listed : list loopia.Record_) :
  hasError resp0 = false ->
  h _ (loopia.AddZoneRecord (client r) domain subdomain submitted) w
    = (None, w1) ->
  h _ (loopia.GetZoneRecords (client r) domain subdomain) w1
    = (loopia.Ok listed, w2) ->
  (forall rec,
      firstMatch (fun x => sameTuple x submitted) listed rec ->
      Response.State (fst (run h (Create r req resp) w)) =
        {| tfsdk.Raw :=
             Some {| Domain := Domain plan; Subdomain := Subdomain plan;
                     Record_ :=
                       {| Type_ := types.StringValue (loopia.Type_ rec);
                          Ttl := types.Int32Value (int32 (loopia.TTL rec));
                          Priority :=
                            types.Int32Value (int32 (loopia.Priority rec));
                          Value := types.StringValue (loopia.Value rec);
                          RecordId :=
                            types.Int32Value (int32 (loopia.ID rec)) |} |} |}
      /\ (loopia.Type_ rec = types.ValueString (Type_ (Record_ plan))
          /\ loopia.Value rec = types.ValueString (Value (Record_ plan))
          /\ loopia.TTL rec = int (types.ValueInt32 (Ttl (Record_ plan)))
          /\ loopia.Priority rec
             = int (types.ValueInt32 (Priority (Record_ plan))))
      /\ Response.State (fst (run h (Create r req resp) w)) =
           {| tfsdk.Raw :=
                Some {| Domain := Domain plan; Subdomain := Subdomain plan;
                        Record_ := recordModelFromClient rec |} |}
      /\ RecordId (recordModelFromClient rec)
         = types.Int32Value (int32 (loopia.ID rec))
      /\ Response.Diagnostics (fst (run h (Create r req resp) w))
         = Response.Diagnostics resp0)
  /\ ((forall rec, In rec listed -> sameTuple rec submitted = false) ->
      Response.State (fst (run h (Create r req resp) w)) = Response.State resp
      /\ Response.Diagnostics (fst (run h (Create r req resp) w))
         = Response.Diagnostics resp0 ++ [unidentified]
      /\ hasError (fst (run h (Create r req resp) w)) = true)
  /\ ((exists rec, firstMatch (fun x => sameTuple x submitted) listed rec)
      \/ (forall rec, In rec listed -> sameTuple rec submitted = false)).
Proof.
  intros Hok Hadd Hlist.
  rewrite (zoneCreate_run w w1 w2 listed Hok Hadd Hlist). simpl.
  split; [| split].
  - intros rec Hfirst.
    assert (Hsame : sameTuple rec submitted = true)
      by (destruct Hfirst as [pre [post [_ [Hx _]]]]; exact Hx).
    destruct (sameTuple_fields _ _ Hsame) as [Hty [Hv [Ht Hp]]].
    simpl in Hty, Hv, Ht, Hp.
    apply find_firstMatch in Hfirst. rewrite Hfirst.
    split; [reflexivity |].
    split; [repeat split; assumption |].
    repeat split.
  - intros Hnone. apply find_none_iff in Hnone. rewrite Hnone.
    unfold addError, hasError. simpl.
    rewrite AddError_fresh by exact Hok.
    repeat split. rewrite HasError_app. simpl. apply orb_true_r.
  - destruct (find (fun x => sameTuple x submitted) listed) as [rec |] eqn:Hf.
    + left. exists rec. apply find_firstMatch. exact Hf.
    + right. apply find_none_iff. exact Hf.
Qed.

(** C1, as the code has it.  When the listing after the creation holds two
    or more records whose (type, value, ttl, priority) equal the submitted
    ones, Create adopts the first of them in listing order: that record's
    identifier goes into the state and no error diagnostic is added. *)
Theorem Create_adopts_first_of_duplicates
  (w w1 w2 : W) (listed : list loopia.Record_) :
  hasError resp0 = false ->
  h _ (loopia.AddZoneRecord (client r) domain subdomain submitted) w
    = (None, w1) ->
  h _ (loopia.GetZoneRecords (client r) domain subdomain) w1
    = (loopia.Ok listed, w2) ->
  (2 <= List.length (filter (fun x => sameTuple x submitted) listed))%nat ->
  exists rec,
    firstMatch (fun x => sameTuple x submitted) listed rec
    /\ Response.State (fst (run h (Create r req resp) w)) =
         {| tfsdk.Raw :=
              Some {| Domain := Domain plan; Subdomain := Subdomain plan;
                      Record_ := recordModelFromClient rec |} |}
    /\ types.ValueInt32 (RecordId (recordModelFromClient rec))
       = int32 (loopia.ID rec)
    /\ hasError (fst (run h (Create r req resp) w)) = false.
Proof.
  intros Hok Hadd Hlist Htwo.
  rewrite (zoneCreate_run w w1 w2 listed Hok Hadd Hlist).
  destruct (find (fun x => sameTuple x submitted) listed) as [rec |] eqn:Hf.
  - exists rec. split; [apply find_firstMatch; exact Hf |].
    simpl. repeat split. exact Hok.
  - exfalso.
    destruct (filter (fun x => sameTuple x submitted) listed) as [| x l] eqn:Hx.
    + simpl in Htwo. lia.
    + assert (Hin : In x (filter (fun x => sameTuple x submitted) listed))
        by (rewrite Hx; left; reflexivity).
      apply filter_In in Hin. destruct Hin as [Hin Ht].
      rewrite (find_none _ _ Hf x Hin) in Ht. discriminate.
Qed.


End ZoneRecordCreate.

(** ** Zone record Read *)

Section ZoneRecordRead.

Import zoneRecordResource.

Context {W : Type} (h : remote W) (r : zoneRecordResource.t).

Variable req : ReadRequest.t ZoneRecordResourceModel.
Variable resp : Response.t ZoneRecordResourceModel.

Local Abbreviation state := (tfsdk.decoded (ReadRequest.State req)).
Local Abbreviation resp0 :=
  (appendDiags resp (tfsdk.decodeDiags (ReadRequest.State req))).
Local Abbreviation fetch :=
  (loopia.GetZoneRecord (client r)
     (types.ValueString (Domain state))
     (types.ValueString (Subdomain state))
     (int64 (types.ValueInt32 (RecordId (Record_ state))))).

Lemma zoneRead_run (w : W) :
  hasError resp0 = false ->
  run h (Read r req resp) w =
  (match fst (h _ fetch w) with
   | loopia.Err e =>
       addError resp0 "Error Reading Zone Record"
         ("Could not read zone record ID "
          ++ fmt_d (types.ValueInt32 (RecordId (Record_ state)))
          ++ ": " ++ e)%string
   | loopia.Ok rec => setState resp0 (withRecord state (recordModelFromClient rec))
   end, snd (h _ fetch w)).
Proof.
  destruct req as [[s ds]]. simpl. intros Hok.
  unfold Read. simpl. rewrite Hok. simpl.
  destruct (h _ _ w) as [[rec | e] w1]; reflexivity.
Qed.

Lemma Read_keeps_state_or_sets (w : W) :
  Response.State (fst (run h (Read r req resp) w)) = Response.State resp
  \/ exists m,
      Response.State (fst (run h (Read r req resp) w))
      = {| tfsdk.Raw := Some m |}.
Proof.
  destruct (hasError resp0) eqn:Hok.
  - left. destruct req as [[s ds]]. simpl in Hok.
    unfold Read. simpl. rewrite Hok. reflexivity.
  - rewrite (zoneRead_run w Hok). simpl.
    destruct (fst (h _ fetch w)) as [rec | e].
    + right. eexists. reflexivity.
    + left. reflexivity.
Qed.

(** C5. Whatever error the single-record fetch returns, a missing record
    included, zone record Read adds the error diagnostic "Error Reading Zone
    Record" carrying the identifier and the error text and leaves the state
    it was handed untouched; and on no input at all does Read clear the
    state: it is either left as handed over or set to a model. *)
Theorem Read_surfaces_every_fetch_error (w : W) :
  (forall e w1,
      hasError resp0 = false ->
      h _ fetch w = (loopia.Err e, w1) ->
      Response.Diagnostics (fst (run h (Read r req resp) w)) =
        Response.Diagnostics resp0
        ++ [diag.NewErrorDiagnostic "Error Reading Zone Record"
              ("Could not read zone record ID "
               ++ fmt_d (types.ValueInt32 (RecordId (Record_ state)))
               ++ ": " ++ e)%string]
      /\ hasError (fst (run h (Read r req resp) w)) = true
      /\ Response.State (fst (run h (Read r req resp) w))
         = Response.State resp)
  /\ (tfsdk.Raw (Response.State resp) <> None ->
      tfsdk.Raw (Response.State (fst (run h (Read r req resp) w))) <> None).
Proof.
  split.
  - intros e w1 Hok Hfetch. rewrite (zoneRead_run w Hok). rewrite Hfetch. simpl.
    unfold addError, hasError. simpl.
    rewrite AddError_fresh by exact Hok.
    repeat split. rewrite HasError_app. simpl. apply orb_true_r.
  - intros Hsome. destruct (Read_keeps_state_or_sets w) as [Heq | [m Heq]];
      rewrite Heq; [exact Hsome | simpl; discriminate].
Qed.

End ZoneRecordRead.

(** ** Zone record Update *)

Section ZoneRecordUpdate.

Import zoneRecordResource.

Context {W : Type} (h : remote W) (r : zoneRecordResource.t).

Variable req : UpdateRequest.t ZoneRecordResourceModel.
Variable resp : Response.t ZoneRecordResourceModel.

Local Abbreviation state := (tfsdk.decoded (UpdateRequest.State req)).
Local Abbreviation plan := (tfsdk.decoded (UpdateRequest.Plan req)).
Local Abbreviation resp1 :=
  (appendDiags resp (tfsdk.decodeDiags (UpdateRequest.State req))).
Local Abbreviation resp2 :=
  (appendDiags resp1 (tfsdk.decodeDiags (UpdateRequest.Plan req))).
Local Abbreviation domain := (types.ValueString (Domain plan)).
Local Abbreviation subdomain := (types.ValueString (Subdomain plan)).
Local Abbreviation priorId :=
  (int64 (types.ValueInt32 (RecordId (Record_ state)))).
Local Abbreviation sent :=
  {| loopia.ID := priorId;
     loopia.TTL := int (types.ValueInt32 (Ttl (Record_ plan)));
     loopia.Type_ := types.ValueString (Type_ (Record_ plan));
     loopia.Value := types.ValueString (Value (Record_ plan));
     loopia.Priority := int (types.ValueInt32 (Priority (Record_ plan))) |}.
Local Abbreviation update :=
  (loopia.UpdateZoneRecord (client r) domain subdomain sent).
Local Abbreviation refetch :=
  (loopia.GetZoneRecord (client r) domain subdomain priorId).

Lemma zoneUpdate_run (w : W) :
  hasError resp1 = false -> hasError resp2 = false ->
  run h (Update r req resp) w =
  match h _ update w with
  | (Some e, w1) =>
      (addError resp2 "Error Updating Zone Record"
         ("Could not update zone record ID "
          ++ fmt_d (types.ValueInt32 (RecordId (Record_ state)))
          ++ ": " ++ e)%string, w1)
  | (None, w1) =>
      match h _ refetch w1 with
      | (loopia.Err e, w2) =>
          (addError resp2 "Error Refreshing Zone Record After Update"
             ("Could not read updated zone record: " ++ e)%string, w2)
      | (loopia.Ok updatedRec, w2) =>
          (setState resp2
             {| Domain := Domain plan; Subdomain := Subdomain plan;
                Record_ := recordModelFromClient updatedRec |}, w2)
      end
  end.
Proof.
  destruct req as [[p dp] [s ds]]. simpl. intros Hok1 Hok2.
  unfold Update. simpl. rewrite Hok1. simpl. rewrite Hok2. simpl.
  destruct (h _ _ w) as [[e |] w1]; simpl; [reflexivity |].
  destruct (h _ _ w1) as [[rec | e] w2]; reflexivity.
Qed.

Lemma zoneUpdate_calls (w : W) :
  hasError resp1 = false -> hasError resp2 = false ->
  calls h (Update r req resp) w =
  Issued update ::
    match h _ update w with
    | (Some _, _) => []
    | (None, w1) => [Issued refetch]
    end.
Proof.
  destruct req as [[p dp] [s ds]]. simpl. intros Hok1 Hok2.
  unfold Update. simpl. rewrite Hok1. simpl. rewrite Hok2. simpl.
  destruct (h _ _ w) as [[e |] w1]; simpl; [reflexivity |].
  destruct (h _ _ w1) as [[rec | e] w2]; reflexivity.
Qed.

(** C6. Zone record Update sends the plan's fields under the identifier of
    the prior state, whatever identifier the plan carried; when the update
    succeeds it fetches the record again under that same identifier and the
    fetched record, with the plan's domain and subdomain, becomes the state,
    so the state keeps the prior identifier whenever the client hands back
    the record it was asked for; when either call fails, an error diagnostic
    is added, the state is left as handed over, and a failed update is not
    followed by a fetch. *)
Theorem Update_carries_prior_identifier (w : W) :
  hasError resp1 = false -> hasError resp2 = false ->
  (exists rest, calls h (Update r req resp) w = Issued update :: rest)
  /\ (forall w1,
        h _ update w = (None, w1) ->
        calls h (Update r req resp) w = [Issued update; Issued refetch])
  /\ (forall w1 w2 updatedRec,
        h _ update w = (None, w1) ->
        h _ refetch w1 = (loopia.Ok updatedRec, w2) ->
        Response.State (fst (run h (Update r req resp) w)) =
          {| tfsdk.Raw :=
               Some {| Domain := Domain plan; Subdomain := Subdomain plan;
                       Record_ := recordModelFromClient updatedRec |} |}
        /\ Response.Diagnostics (fst (run h (Update r req resp) w))
           = Response.Diagnostics resp2
        /\ (loopia.ID updatedRec = priorId ->
            int32_range (types.ValueInt32 (RecordId (Record_ state))) ->
            RecordId (recordModelFromClient updatedRec)
            = types.Int32Value (types.ValueInt32 (RecordId (Record_ state)))))
  /\ (forall w1 e,
        h _ update w = (Some e, w1) ->
        calls h (Update r req resp) w = [Issued update]
        /\ Response.State (fst (run h (Update r req resp) w))
           = Response.State resp
        /\ Response.Diagnostics (fst (run h (Update r req resp) w)) =
           Response.Diagnostics resp2
           ++ [diag.NewErrorDiagnostic "Error Updating Zone Record"
                 ("Could not update zone record ID "
                  ++ fmt_d (types.ValueInt32 (RecordId (Record_ state)))
                  ++ ": " ++ e)%string])
  /\ (forall w1 w2 e,
        h _ update w = (None, w1) ->
        h _ refetch w1 = (loopia.Err e, w2) ->
        Response.State (fst (run h (Update r req resp) w))
        = Response.State resp
        /\ Response.Diagnostics (fst (run h (Update r req resp) w)) =
           Response.Diagnostics resp2
           ++ [diag.NewErrorDiagnostic
                 "Error Refreshing Zone Record After Update"
                 ("Could not read updated zone record: " ++ e)%string]).
Proof.
  intros Hok1 Hok2.
  rewrite (zoneUpdate_run w Hok1 Hok2), (zoneUpdate_calls w Hok1 Hok2).
  split; [eexists; reflexivity |].
  split; [intros w1 Hu; rewrite Hu; reflexivity |].
  split; [| split].
  - intros w1 w2 updatedRec Hu Hf. rewrite Hu, Hf. simpl.
    repeat split.
    intros Hid Hrange. unfold recordModelFromClient. simpl.
    rewrite Hid.
    unfold int32_range in Hrange.
    rewrite (wrap_small 64) by lia.
    rewrite (proj2 (int32_fixed_iff _) Hrange). reflexivity.
  - intros w1 e Hu. rewrite Hu. simpl.
    unfold addError. simpl. rewrite AddError_fresh by exact Hok2.
    repeat split.
  - intros w1 w2 e Hu Hf. rewrite Hu, Hf. simpl.
    unfold addError. simpl. rewrite AddError_fresh by exact Hok2.
    repeat split.
Qed.

End ZoneRecordUpdate.

(** ** Identifiers, TTL and priority through the 32-bit state fields *)

Section ZoneRecordWidth.

Import zoneRecordResource.

Context {W : Type} (h : remote W) (r : zoneRecordResource.t).

Lemma roundtrip_fields (rec : loopia.Record_) :
  toClientRecord (recordModelFromClient rec) =
  {| loopia.ID := int32 (loopia.ID rec);
     loopia.TTL := int32 (loopia.TTL rec);
     loopia.Type_ := loopia.Type_ rec;
     loopia.Value := loopia.Value rec;
     loopia.Priority := int32 (loopia.Priority rec) |}.
Proof.
  unfold toClientRecord, recordModelFromClient. simpl.
  rewrite int64_of_int32, !int_of_int32. reflexivity.
Qed.

(** C8. A client record stored in the state and read back has its ID, TTL
    and priority reduced to 32 bits: each comes back congruent to the
    original modulo 2^32 and inside the signed 32-bit range, hence equal to
    the original exactly when the original is in that range; type and value
    are unchanged.  The calls made later from such a state - the fetch of
    Read, the removal of Delete, the update and re-fetch of Update - carry
    the reduced identifier, without any diagnostic of the reduction. *)
Theorem roundtrip_truncates_to_int32 (rec : loopia.Record_) :
  let back := toClientRecord (recordModelFromClient rec) in
  (loopia.Type_ back = loopia.Type_ rec
   /\ loopia.Value back = loopia.Value rec)
  /\ (loopia.ID back = int32 (loopia.ID rec)
      /\ loopia.TTL back = int32 (loopia.TTL rec)
      /\ loopia.Priority back = int32 (loopia.Priority rec))
  /\ ((loopia.ID back = loopia.ID rec <-> int32_range (loopia.ID rec))
      /\ (loopia.TTL back = loopia.TTL rec <-> int32_range (loopia.TTL rec))
      /\ (loopia.Priority back = loopia.Priority rec
          <-> int32_range (loopia.Priority rec)))
  /\ ((loopia.ID back) mod 2 ^ 32 = (loopia.ID rec) mod 2 ^ 32
      /\ int32_range (loopia.ID back))
  /\ (forall (w : W) domain subdomain planned st,
        let stored :=
          {| tfsdk.decoded :=
               {| Domain := types.StringValue domain;
                  Subdomain := types.StringValue subdomain;
                  Record_ := recordModelFromClient rec |};
             tfsdk.decodeDiags := [] |} in
        let resp :=
          {| Response.State := st; Response.Diagnostics := [] |} in
        calls h (Read r {| ReadRequest.State := stored |} resp) w
        = [Issued (loopia.GetZoneRecord (client r) domain subdomain
                     (int32 (loopia.ID rec)))]
        /\ calls h (Delete r {| DeleteRequest.State := stored |} resp) w
           = [Issued (loopia.RemoveZoneRecord (client r) domain subdomain
                        (int32 (loopia.ID rec)))]
        /\ exists sent rest,
            calls h
              (Update r
                 {| UpdateRequest.Plan :=
                      {| tfsdk.decoded := planned; tfsdk.decodeDiags := [] |};
                    UpdateRequest.State := stored |} resp) w
            = Issued (loopia.UpdateZoneRecord (client r)
                        (types.ValueString (Domain planned))
                        (types.ValueString (Subdomain planned)) sent) :: rest
            /\ loopia.ID sent = int32 (loopia.ID rec)).
Proof.
  intros back. subst back. rewrite roundtrip_fields. simpl.
  split; [split; reflexivity |].
  split; [repeat split |].
  split; [split; [| split]; apply int32_fixed_iff |].
  split.
  - split; [apply (wrap_congruent 32); lia | apply int32_in_range].
  - intros w domain subdomain planned st. simpl.
    split; [| split].
    + unfold Read. simpl. rewrite int64_of_int32.
      destruct (h _ _ w) as [[x | e] w1]; reflexivity.
    + unfold Delete. simpl. rewrite int64_of_int32.
      destruct (h _ _ w) as [[e |] w1]; reflexivity.
    + unfold Update. simpl.
      destruct (h _ _ w) as [[e |] w1]; simpl;
        (eexists _, _; split; [reflexivity | simpl; apply int64_of_int32]).
Qed.

End ZoneRecordWidth.

(** ** Subdomain resource *)

Section Subdomain.

Import subdomainResource.

Context {W : Type} (h : remote W) (r : subdomainResource.t).

Lemma subdomainRead_run (req : ReadRequest.t SubdomainResourceModel)
  (resp : Response.t SubdomainResourceModel) (w w1 : W)
  (listed : list loopia.Subdomain) :
  hasError (appendDiags resp (tfsdk.decodeDiags (ReadRequest.State req)))
    = false ->
  h _ (loopia.GetSubdomains (client r)
         (types.ValueString (Domain (tfsdk.decoded (ReadRequest.State req)))))
    w = (loopia.Ok listed, w1) ->
  run h (Read r req resp) w =
  ({| Response.State :=
        if existsb
             (listedName
                (types.ValueString
                   (Subdomain (tfsdk.decoded (ReadRequest.State req)))))
             listed
        then {| tfsdk.Raw := Some (tfsdk.decoded (ReadRequest.State req)) |}
        else {| tfsdk.Raw := None |};
      Response.Diagnostics :=
        diag.Append (Response.Diagnostics resp)
          (tfsdk.decodeDiags (ReadRequest.State req)) |}, w1).
Proof.
  destruct req as [[s ds]]. simpl. intros Hok Hlist.
  unfold Read. simpl. rewrite Hok. simpl. rewrite Hlist. simpl.
  unfold listedName.
  destruct (existsb _ listed); reflexivity.
Qed.

(** C4. When the listing succeeds, subdomain Read looks for the state's
    subdomain name among the listed names: if none is equal, the state is
    cleared (the resource is removed) and the diagnostics are those Read
    started with, none of them an error; if one is equal, the state is set
    to the prior model - its domain and its subdomain, nothing else - again
    with no diagnostic added. *)
Theorem subdomain_Read_drops_or_keeps
  (req : ReadRequest.t SubdomainResourceModel)
  (resp : Response.t SubdomainResourceModel) (w w1 : W)
  (listed : list loopia.Subdomain) :
  let state := tfsdk.decoded (ReadRequest.State req) in
  let resp0 := appendDiags resp (tfsdk.decodeDiags (ReadRequest.State req)) in
  let out := fst (run h (Read r req resp) w) in
  hasError resp0 = false ->
  h _ (loopia.GetSubdomains (client r) (types.ValueString (Domain state))) w
    = (loopia.Ok listed, w1) ->
  ((forall s, In s listed ->
              loopia.Name s <> types.ValueString (Subdomain state)) ->
   Response.State out = {| tfsdk.Raw := None |}
   /\ Response.Diagnostics out = Response.Diagnostics resp0
   /\ hasError out = false)
  /\ ((exists s, In s listed
                 /\ loopia.Name s = types.ValueString (Subdomain state)) ->
      Response.State out =
        {| tfsdk.Raw :=
             Some {| Domain := Domain state; Subdomain := Subdomain state |} |}
      /\ Response.Diagnostics out = Response.Diagnostics resp0
      /\ hasError out = false).
Proof.
  intros state resp0 out Hok Hlist. subst out.
  rewrite (subdomainRead_run req resp w w1 listed Hok Hlist). simpl.
  split.
  - intros Hnone.
    assert (Hex : existsb
                    (listedName (types.ValueString (Subdomain state))) listed
                  = false).
    { destruct (existsb _ listed) eqn:He; [| reflexivity].
      apply existsb_exists in He. destruct He as [s [Hin Hs]].
      apply String.eqb_eq in Hs. elim (Hnone s Hin Hs). }
    subst state. rewrite Hex. repeat split. exact Hok.
  - intros [s [Hin Hs]].
    assert (Hex : existsb
                    (listedName (types.ValueString (Subdomain state))) listed
                  = true).
    { apply existsb_exists. exists s. split; [exact Hin |].
      apply String.eqb_eq. exact Hs. }
    subst state. rewrite Hex.
    destruct (tfsdk.decoded (ReadRequest.State req)) as [d s']. simpl.
    repeat split. exact Hok.
Qed.

(** C7. A subdomain Create whose AddSubdomain call succeeds writes the plan
    - the domain and the subdomain as given, nothing else - as the state,
    and a later Read of that state, in any later world where the listing
    succeeds and holds the subdomain's name, sets the state to that same
    model again. *)
Theorem subdomain_Create_then_Read
  (created : SubdomainResourceModel)
  (planDiags : diag.Diagnostics)
  (respC : Response.t SubdomainResourceModel) (w w1 : W) :
  let reqC :=
    {| CreateRequest.Plan :=
         {| tfsdk.decoded := created; tfsdk.decodeDiags := planDiags |} |} in
  hasError (appendDiags respC planDiags) = false ->
  h _ (loopia.AddSubdomain (client r)
         (types.ValueString (Domain created))
         (types.ValueString (Subdomain created))) w = (None, w1) ->
  Response.State (fst (run h (Create r reqC respC) w))
    = {| tfsdk.Raw :=
           Some {| Domain := Domain created;
                   Subdomain := Subdomain created |} |}
  /\ snd (run h (Create r reqC respC) w) = w1
  /\ forall stored stateDiags respR (w' w'' : W) listed,
      tfsdk.Raw (Response.State (fst (run h (Create r reqC respC) w)))
        = Some stored ->
      let reqR :=
        {| ReadRequest.State :=
             {| tfsdk.decoded := stored;
                tfsdk.decodeDiags := stateDiags |} |} in
      hasError (appendDiags respR stateDiags) = false ->
      h _ (loopia.GetSubdomains (client r)
             (types.ValueString (Domain stored))) w' = (loopia.Ok listed, w'') ->
      In {| loopia.Name := types.ValueString (Subdomain created) |} listed ->
      Response.State (fst (run h (Read r reqR respR) w'))
        = {| tfsdk.Raw := Some created |}.
Proof.
  intros reqC Hok Hadd.
  assert (Hrun : run h (Create r reqC respC) w
                 = (setState (appendDiags respC planDiags) created, w1)).
  { unfold Create. simpl. rewrite Hok. simpl. rewrite Hadd. simpl.
    destruct (hasError _); reflexivity. }
  rewrite Hrun. simpl.
  split; [destruct created; reflexivity |].
  split; [reflexivity |].
  intros stored stateDiags respR w' w'' listed Hstored HokR Hlist Hin.
  inversion Hstored; subst stored.
  rewrite (subdomainRead_run
             {| ReadRequest.State :=
                  {| tfsdk.decoded := created;
                     tfsdk.decodeDiags := stateDiags |} |}
             respR w' w'' listed HokR Hlist). simpl.
  assert (Hex : existsb
                  (listedName (types.ValueString (Subdomain created))) listed
                = true).
  { apply existsb_exists. eexists. split; [exact Hin |].
    apply String.eqb_refl. }
  rewrite Hex. reflexivity.
Qed.

End Subdomain.

(** ** Provider Configure *)

Section ProviderConfigure.

Import provider.

Context {W : Type} (h : remote W) (p : LoopiaProvider).

Variable req : ConfigureRequest.t.
Variable resp : ConfigureResponse.t.

Local Abbreviation config := (tfsdk.decoded (ConfigureRequest.Config req)).
Local Abbreviation diags0 :=
  (diag.Append (ConfigureResponse.Diagnostics resp)
     (tfsdk.decodeDiags (ConfigureRequest.Config req))).

Lemma Contains_app (a b : diag.Diagnostics) (d : diag.Diagnostic) :
  diag.Contains (a ++ b) d = diag.Contains a d || diag.Contains b d.
Proof. apply existsb_app. Qed.

(** Two attribute errors appended to diagnostics free of errors: the
    second is kept when it differs from the first. *)
Lemma Append_two_errors (ds : diag.Diagnostics) (first second : bool)
  (d1 d2 : diag.Diagnostic) :
  diag.HasError ds = false ->
  diag.isError d1 = true -> diag.isError d2 = true ->
  diag.Equal d2 d1 = false ->
  (if second
   then diag.Append (if first then diag.Append ds [d1] else ds) [d2]
   else (if first then diag.Append ds [d1] else ds))
  = ds ++ (if first then [d1] else []) ++ (if second then [d2] else []).
Proof.
  intros Hok H1 H2 Hne.
  destruct first, second.
  - rewrite (Append_error ds d1 H1 Hok).
    assert (Hc : diag.Contains (ds ++ [d1]) d2 = false).
    { rewrite Contains_app, (Contains_error ds d2 H2 Hok).
      unfold diag.Contains. simpl. rewrite Hne. reflexivity. }
    unfold diag.Append. cbn [fold_left]. rewrite Hc.
    rewrite <- app_assoc. reflexivity.
  - rewrite (Append_error ds d1 H1 Hok), app_nil_r. reflexivity.
  - apply (Append_error ds d2 H2 Hok).
  - simpl. rewrite app_nil_r. reflexivity.
Qed.

Lemma HasError_two_errors (ds : diag.Diagnostics) (first second : bool)
  (d1 d2 : diag.Diagnostic) :
  diag.HasError ds = false ->
  diag.isError d1 = true -> diag.isError d2 = true ->
  diag.HasError
    (ds ++ (if first then [d1] else []) ++ (if second then [d2] else []))
  = first || second.
Proof.
  intros Hok H1 H2. rewrite !HasError_app, Hok.
  destruct first, second; simpl; rewrite ?H1, ?H2; reflexivity.
Qed.

(** The response of Configure after the two unknown checks, and after the
    two empty checks, in the shape the lemmas above read. *)
Lemma Configure_unfold (w : W) :
  diag.HasError diags0 = false ->
  let unknownU := types.StringIsUnknown (Username config) in
  let unknownP := types.StringIsUnknown (Password config) in
  let envU := fst (h _ (loopia.os_Getenv "LOOPIA_USERNAME") w) in
  let wU := snd (h _ (loopia.os_Getenv "LOOPIA_USERNAME") w) in
  let envP := fst (h _ (loopia.os_Getenv "LOOPIA_PASSWORD") wU) in
  let wP := snd (h _ (loopia.os_Getenv "LOOPIA_PASSWORD") wU) in
  let username := resolve (Username config) envU in
  let password := resolve (Password config) envP in
  let missingU := String.eqb username "" in
  let missingP := String.eqb password "" in
  run h (Configure p req resp) w =
  (if unknownU || unknownP
   then (withDiagnostics resp
           (diags0 ++ (if unknownU then [unknownUsername] else [])
                   ++ (if unknownP then [unknownPassword] else [])), w)
   else if missingU || missingP
   then (withDiagnostics resp
           (diags0 ++ (if missingU then [missingUsername] else [])
                   ++ (if missingP then [missingPassword] else [])), wP)
   else match h _ (loopia.New username password) wP with
        | (loopia.Ok client, w') =>
            ({| ConfigureResponse.DataSourceData := APIData (Some client);
                ConfigureResponse.ResourceData := APIData (Some client);
                ConfigureResponse.Diagnostics := diags0 |}, w')
        | (loopia.Err e, w') =>
            (withDiagnostics resp
               (diag.AddError diags0 "Unable to Create Loopia API Client"
                  ("An unexpected error occurred when creating the Loopia API client. "
                   ++ "If the error is not clear, please contact the provider developers."
                   ++ String (Ascii.ascii_of_nat 10)
                        (String (Ascii.ascii_of_nat 10) "")
                   ++ "Loopia Client Error: " ++ e)%string), w')
        end)
  /\ calls h (Configure p req resp) w =
     (if unknownU || unknownP then []
      else Issued (loopia.os_Getenv "LOOPIA_USERNAME")
           :: Issued (loopia.os_Getenv "LOOPIA_PASSWORD")
           :: (if missingU || missingP then []
               else [Issued (loopia.New username password)])).
Proof.
  Local Opaque diag.Append diag.HasError String.append String.eqb.
  intros Hok. simpl.
  destruct req as [[cfg ds]]. simpl in *.
  unfold Configure. simpl. rewrite Hok.
  destruct resp as [dsd rd rdiags]. simpl in *.
  set (ds0 := diag.Append rdiags ds) in *.
  assert (Hunk := Append_two_errors ds0
                    (types.StringIsUnknown (Username cfg))
                    (types.StringIsUnknown (Password cfg))
                    unknownUsername unknownPassword Hok
                    eq_refl eq_refl eq_refl).
  assert (HunkE := HasError_two_errors ds0
                     (types.StringIsUnknown (Username cfg))
                     (types.StringIsUnknown (Password cfg))
                     unknownUsername unknownPassword Hok eq_refl eq_refl).
  destruct (types.StringIsUnknown (Username cfg)) eqn:HuU;
    destruct (types.StringIsUnknown (Password cfg)) eqn:HuP;
    simpl in *; unfold withDiagnostics; simpl;
    try (rewrite Hunk, HunkE; split; reflexivity).
  rewrite Hok.
  simpl.
  set (envU := fst (h _ (loopia.os_Getenv "LOOPIA_USERNAME") w)).
  set (wU := snd (h _ (loopia.os_Getenv "LOOPIA_USERNAME") w)).
  set (envP := fst (h _ (loopia.os_Getenv "LOOPIA_PASSWORD") wU)).
  set (wP := snd (h _ (loopia.os_Getenv "LOOPIA_PASSWORD") wU)).
  unfold resolve.
  set (username := if types.StringIsNull (Username cfg) then envU
                   else types.ValueString (Username cfg)).
  set (password := if types.StringIsNull (Password cfg) then envP
                   else types.ValueString (Password cfg)).
  assert (Hu : (if negb (types.StringIsNull (Username cfg))
                then types.ValueString (Username cfg) else envU) = username)
    by (subst username; destruct (types.StringIsNull (Username cfg));
        reflexivity).
  assert (Hp : (if negb (types.StringIsNull (Password cfg))
                then types.ValueString (Password cfg) else envP) = password)
    by (subst password; destruct (types.StringIsNull (Password cfg));
        reflexivity).
  rewrite ?Hu, ?Hp.
  assert (Hmis := Append_two_errors ds0
                    (String.eqb username "") (String.eqb password "")
                    missingUsername missingPassword Hok
                    eq_refl eq_refl eq_refl).
  assert (HmisE := HasError_two_errors ds0
                     (String.eqb username "") (String.eqb password "")
                     missingUsername missingPassword Hok eq_refl eq_refl).
  destruct (String.eqb username "") eqn:Hmu;
    destruct (String.eqb password "") eqn:Hmp;
    simpl in *;
    try (rewrite Hmis, HmisE; split; reflexivity).
  rewrite Hok. simpl.
  destruct (h _ (loopia.New username password) wP) as [[client | e] w'];
    split; reflexivity.
  Local Transparent diag.Append diag.HasError String.append String.eqb.
Qed.

(** C3. With a configuration that decodes without error, Configure takes
    each credential from the configuration when the value there is not null
    and from its environment variable otherwise.  An unknown value is
    rejected first, with one attribute error per unknown attribute and
    before the environment is read.  Otherwise each credential that
    resolves to the empty string gets one attribute error - two errors
    when both do - and no client is built: [loopia.New] is not called and
    the provider data stay as they were.  When both are non-empty the client
    is built from exactly the resolved pair and handed to data sources and
    resources. *)
Theorem Configure_resolves_credentials (w : W) :
  let unknownU := types.StringIsUnknown (Username config) in
  let unknownP := types.StringIsUnknown (Password config) in
  let envU := fst (h _ (loopia.os_Getenv "LOOPIA_USERNAME") w) in
  let wU := snd (h _ (loopia.os_Getenv "LOOPIA_USERNAME") w) in
  let envP := fst (h _ (loopia.os_Getenv "LOOPIA_PASSWORD") wU) in
  let wP := snd (h _ (loopia.os_Getenv "LOOPIA_PASSWORD") wU) in
  let username := resolve (Username config) envU in
  let password := resolve (Password config) envP in
  let out := fst (run h (Configure p req resp) w) in
  diag.HasError diags0 = false ->
  ((forall v, Username config = types.StringValue v -> username = v)
   /\ (Username config = types.StringNull -> username = envU)
   /\ (forall v, Password config = types.StringValue v -> password = v)
   /\ (Password config = types.StringNull -> password = envP))
  /\ (unknownU || unknownP = true ->
      calls h (Configure p req resp) w = []
      /\ ConfigureResponse.Diagnostics out =
         diags0 ++ (if unknownU then [unknownUsername] else [])
                ++ (if unknownP then [unknownPassword] else [])
      /\ ConfigureResponse.DataSourceData out
         = ConfigureResponse.DataSourceData resp
      /\ ConfigureResponse.ResourceData out
         = ConfigureResponse.ResourceData resp)
  /\ (unknownU || unknownP = false ->
      (username = "" \/ password = "" ->
       calls h (Configure p req resp) w =
         [Issued (loopia.os_Getenv "LOOPIA_USERNAME");
          Issued (loopia.os_Getenv "LOOPIA_PASSWORD")]
       /\ ConfigureResponse.Diagnostics out =
          diags0
          ++ (if String.eqb username "" then [missingUsername] else [])
          ++ (if String.eqb password "" then [missingPassword] else [])
       /\ diag.HasError (ConfigureResponse.Diagnostics out) = true
       /\ ConfigureResponse.DataSourceData out
          = ConfigureResponse.DataSourceData resp
       /\ ConfigureResponse.ResourceData out
          = ConfigureResponse.ResourceData resp)
      /\ (username = "" -> password = "" ->
          ConfigureResponse.Diagnostics out
          = diags0 ++ [missingUsername; missingPassword])
      /\ (username <> "" -> password <> "" ->
          calls h (Configure p req resp) w =
            [Issued (loopia.os_Getenv "LOOPIA_USERNAME");
             Issued (loopia.os_Getenv "LOOPIA_PASSWORD");
             Issued (loopia.New username password)]
          /\ forall client w',
              h _ (loopia.New username password) wP = (loopia.Ok client, w') ->
              out =
              {| ConfigureResponse.DataSourceData := APIData (Some client);
                 ConfigureResponse.ResourceData := APIData (Some client);
                 ConfigureResponse.Diagnostics := diags0 |}))
  /\ (diag.Path unknownUsername = Some "username"
      /\ diag.Path unknownPassword = Some "password"
      /\ diag.Path missingUsername = Some "username"
      /\ diag.Path missingPassword = Some "password").
Proof.
  intros unknownU unknownP envU wU envP wP username password out Hok.
  destruct (Configure_unfold w Hok) as [Hrun Hcalls].
  fold unknownU unknownP envU wU envP wP username password in Hrun, Hcalls.
  split.
  { subst username password. unfold resolve.
    repeat split; intros; try match goal with H : _ = _ |- _ => rewrite H end;
      reflexivity. }
  split; [| split; [| repeat split]].
  - intros Hunk. subst out. rewrite Hrun, Hcalls, Hunk. simpl.
    repeat split.
  - intros Hunk.
    assert (Hmiss : forall s, String.eqb s "" = true <-> s = "")
      by (intros s; apply String.eqb_eq).
    split; [| split].
    + intros Hempty.
      assert (Hb : String.eqb username "" || String.eqb password "" = true).
      { destruct Hempty as [He | He]; rewrite He; simpl;
          [reflexivity | apply orb_true_r]. }
      subst out. rewrite Hrun, Hcalls, Hunk, Hb. simpl.
      repeat split.
      rewrite HasError_two_errors by (exact Hok || reflexivity). exact Hb.
    + intros HeU HeP.
      subst out. rewrite Hrun, Hunk, HeU, HeP. reflexivity.
    + intros HnU HnP.
      assert (Hb : String.eqb username "" || String.eqb password "" = false).
      { apply orb_false_iff. split; apply String.eqb_neq; assumption. }
      subst out. rewrite Hrun, Hcalls, Hunk, Hb.
      split; [reflexivity |].
      intros client w' Hnew. rewrite Hnew. reflexivity.
Qed.

End ProviderConfigure.

(** ** Configure hooks of the adapters *)

Lemma resource_OtherData_reports (ds : diag.Diagnostics) (summary detail : string) :
  diag.HasError (diag.AddError ds summary detail) = true.
Proof. apply HasError_Append_one. reflexivity. Qed.

(** C10. Each of the six adapters - the two resources and the four data
    sources - returns from Configure with nothing changed when the provider
    data are nil: no diagnostic is added and the adapter keeps the client it
    had, which is the nil pointer for an adapter fresh from its constructor.
    Its diagnostics change only when the provider data are a value of a type
    other than [*loopia.API]; such a value is reported as an error and a
    [*loopia.API] is stored without any report. *)
Theorem Configure_nil_provider_data_is_silent :
  configureContract resource.ConfigureRequest.Build_t
    resource.ConfigureResponse.Diagnostics
    subdomainResource.client subdomainResource.Configure
  /\ configureContract resource.ConfigureRequest.Build_t
       resource.ConfigureResponse.Diagnostics
       zoneRecordResource.client zoneRecordResource.Configure
  /\ configureContract datasource.ConfigureRequest.Build_t
       datasource.ConfigureResponse.Diagnostics
       DomainDataSource.client DomainDataSource.Configure
  /\ configureContract datasource.ConfigureRequest.Build_t
       datasource.ConfigureResponse.Diagnostics
       DomainsDataSource.client DomainsDataSource.Configure
  /\ configureContract datasource.ConfigureRequest.Build_t
       datasource.ConfigureResponse.Diagnostics
       SubdomainsDataSource.client SubdomainsDataSource.Configure
  /\ configureContract datasource.ConfigureRequest.Build_t
       datasource.ConfigureResponse.Diagnostics
       zoneRecordsDataSource.client zoneRecordsDataSource.Configure
  /\ (subdomainResource.client subdomainResource.NewSubdomainResource = None
      /\ zoneRecordResource.client zoneRecordResource.NewZoneRecordResource
         = None
      /\ DomainDataSource.client DomainDataSource.NewDomainDataSource = None
      /\ DomainsDataSource.client DomainsDataSource.NewDomainsDataSource
         = None
      /\ SubdomainsDataSource.client
           SubdomainsDataSource.NewSubdomainsDataSource = None
      /\ zoneRecordsDataSource.client
           zoneRecordsDataSource.NewZoneRecordsDataSource = None).
Proof.
  assert (Hcase : forall data : any,
             data = NilData \/ (exists c, data = APIData c)
             \/ exists typeName, data = OtherData typeName).
  { intros [| c | typeName]; [left | right; left | right; right];
      try reflexivity; eexists; reflexivity. }
  repeat match goal with |- _ /\ _ => split end;
    try reflexivity;
    unfold configureContract;
    (split; [reflexivity |]);
    (split; [intros a resp c; split; reflexivity |]);
    (split;
     [ intros a resp data Hne;
       destruct (Hcase data) as [Hd | [[c Hd] | Hd]];
       [ subst data; elim Hne; reflexivity
       | subst data; elim Hne; reflexivity
       | exact Hd ]
     | intros a resp typeName; split;
       [ apply resource_OtherData_reports | reflexivity ] ]).
Qed.

(** * Concrete runs against the reference registrar *)

(** C1, counterexample to the claim as stated.  A listing with two records
    of the submitted tuple: the registrar already
    served the record under identifier 11, the creation adds the same tuple
    under 12, both succeed and both listed records match - and Create
    reports no error and writes identifier 11, the older record's, into the
    state. *)
Lemma Create_duplicate_is_adopted :
  let r := configured in
  let domain := "example.com" in
  let subdomain := "www" in
  let submitted := zoneRecordResource.toClientRecord sampleRecord in
  let add :=
    registrar.answer _
      (loopia.AddZoneRecord (zoneRecordResource.client r) domain subdomain
         submitted) occupiedZone in
  let listing :=
    registrar.answer _
      (loopia.GetZoneRecords (zoneRecordResource.client r) domain subdomain)
      (snd add) in
  let out :=
    fst (run registrar.answer
           (zoneRecordResource.Create r sampleCreate emptyResponse)
           occupiedZone) in
  fst add = None
  /\ fst listing = loopia.Ok [served 11; served 12]
  /\ filter (fun x => sameTuple x submitted) [served 11; served 12]
     = [served 11; served 12]
  /\ hasError out = false
  /\ Response.State out =
     {| tfsdk.Raw :=
          Some {| zoneRecordResource.Domain := types.StringValue "example.com";
                  zoneRecordResource.Subdomain := types.StringValue "www";
                  zoneRecordResource.Record_ :=
                    {| zoneRecordResource.Type_ := types.StringValue "A";
                       zoneRecordResource.Ttl := types.Int32Value 0;
                       zoneRecordResource.Priority := types.Int32Value 0;
                       zoneRecordResource.Value :=
                         types.StringValue "192.0.2.1";
                       zoneRecordResource.RecordId :=
                         types.Int32Value 11 |} |} |}.
Proof.
  cbv zeta. split; [reflexivity |]. split; [reflexivity |].
  split; [reflexivity |]. split; [reflexivity |]. vm_compute. reflexivity.
Qed.

(** The same run, through the theorem on duplicates. *)
Lemma Create_adopts_first_of_duplicates_witness :
  (2 <= List.length
          (filter
             (fun x => sameTuple x (zoneRecordResource.toClientRecord sampleRecord))
             [served 11; served 12]))%nat
  /\ exists rec,
      loopia.ID rec = 11
      /\ Response.State
           (fst (run registrar.answer
                   (zoneRecordResource.Create configured sampleCreate
                      emptyResponse) occupiedZone))
         = {| tfsdk.Raw :=
                Some (zoneRecordResource.withRecord samplePlan
                        (zoneRecordResource.recordModelFromClient rec)) |}.
Proof.
  split; [simpl; lia |].
  destruct (Create_adopts_first_of_duplicates registrar.answer configured
              sampleCreate emptyResponse occupiedZone
              (snd (registrar.answer _
                      (loopia.AddZoneRecord (Some sampleAPI) "example.com"
                         "www" (zoneRecordResource.toClientRecord sampleRecord))
                      occupiedZone))
              _ [served 11; served 12] eq_refl eq_refl eq_refl
              (le_n 2))
    as [rec [Hfirst [Hstate _]]].
  exists rec. split; [| exact Hstate].
  destruct Hfirst as [pre [post [Hl [_ Hpre]]]].
  destruct pre as [| y pre].
  - simpl in Hl. inversion Hl. reflexivity.
  - simpl in Hl. inversion Hl; subst y.
    specialize (Hpre (served 11) (or_introl eq_refl)). discriminate Hpre.
Defined.

(** Create against a zone that lists another record first: the listing is
    record 7, then the record just added under 11; the first does not match
    and the second is the one stored, with its five attributes known. *)
Lemma Create_adopts_first_match_witness :
  let out :=
    fst (run registrar.answer
           (zoneRecordResource.Create configured sampleCreate emptyResponse)
           mixedZone) in
  hasError (appendDiags (@emptyResponse zoneRecordResource.ZoneRecordResourceModel) [])
    = false
  /\ fst (registrar.answer _
            (loopia.GetZoneRecords (Some sampleAPI) "example.com" "www")
            (snd (registrar.answer _
                    (loopia.AddZoneRecord (Some sampleAPI) "example.com" "www"
                       (zoneRecordResource.toClientRecord sampleRecord))
                    mixedZone)))
     = loopia.Ok [otherRecord; served 11]
  /\ sameTuple otherRecord (zoneRecordResource.toClientRecord sampleRecord)
     = false
  /\ Response.State out
     = {| tfsdk.Raw :=
            Some {| zoneRecordResource.Domain :=
                      types.StringValue "example.com";
                    zoneRecordResource.Subdomain := types.StringValue "www";
                    zoneRecordResource.Record_ :=
                      {| zoneRecordResource.Type_ := types.StringValue "A";
                         zoneRecordResource.Ttl := types.Int32Value 0;
                         zoneRecordResource.Priority := types.Int32Value 0;
                         zoneRecordResource.Value :=
                           types.StringValue "192.0.2.1";
                         zoneRecordResource.RecordId :=
                           types.Int32Value 11 |} |} |}
  /\ Response.Diagnostics out = [].
Proof.
  cbv zeta.
  split; [reflexivity |]. split; [reflexivity |]. split; [reflexivity |].
  destruct (Create_adopts_first_match registrar.answer configured
              sampleCreate emptyResponse mixedZone
              (snd (registrar.answer _
                      (loopia.AddZoneRecord (Some sampleAPI) "example.com"
                         "www" (zoneRecordResource.toClientRecord sampleRecord))
                      mixedZone))
              (snd (registrar.answer _
                      (loopia.AddZoneRecord (Some sampleAPI) "example.com"
                         "www" (zoneRecordResource.toClientRecord sampleRecord))
                      mixedZone))
              [otherRecord; served 11] eq_refl eq_refl eq_refl)
    as [Hfound _].
  destruct (Hfound (served 11)) as [Hstate [_ [_ [_ Hdiags]]]].
  - exists [otherRecord], []. split; [reflexivity |].
    split; [reflexivity |].
    intros y [Hy | []]. subst y. reflexivity.
  - split; [exact Hstate | exact Hdiags].
Defined.


(** Read of a record the registrar does not hold. *)
Lemma Read_surfaces_every_fetch_error_witness :
  let out :=
    fst (run registrar.answer
           (zoneRecordResource.Read configured sampleRead priorResponse)
           emptyZone) in
  Response.Diagnostics out =
    [diag.NewErrorDiagnostic "Error Reading Zone Record"
       "Could not read zone record ID 11: record not found"]
  /\ hasError out = true
  /\ Response.State out = Response.State priorResponse.
Proof.
  cbv zeta.
  destruct (Read_surfaces_every_fetch_error registrar.answer configured
              sampleRead priorResponse emptyZone) as [Hfails _].
  exact (Hfails "record not found" emptyZone eq_refl eq_refl).
Defined.

(** Update of record 11 from a plan that does not know the identifier. *)
Lemma Update_carries_prior_identifier_witness :
  let out :=
    fst (run registrar.answer
           (zoneRecordResource.Update configured sampleUpdate priorResponse)
           occupiedZone) in
  calls registrar.answer
    (zoneRecordResource.Update configured sampleUpdate priorResponse)
    occupiedZone
  = [Issued (loopia.UpdateZoneRecord (Some sampleAPI) "example.com" "www"
               {| loopia.ID := 11; loopia.TTL := 300; loopia.Type_ := "A";
                  loopia.Value := "192.0.2.2"; loopia.Priority := 0 |});
     Issued (loopia.GetZoneRecord (Some sampleAPI) "example.com" "www" 11)]
  /\ Response.State out =
     {| tfsdk.Raw :=
          Some (zoneRecordResource.withRecord samplePlan
                  {| zoneRecordResource.Type_ := types.StringValue "A";
                     zoneRecordResource.Ttl := types.Int32Value 300;
                     zoneRecordResource.Priority := types.Int32Value 0;
                     zoneRecordResource.Value := types.StringValue "192.0.2.2";
                     zoneRecordResource.RecordId := types.Int32Value 11 |}) |}.
Proof.
  cbv zeta.
  destruct (Update_carries_prior_identifier registrar.answer configured
              sampleUpdate priorResponse occupiedZone eq_refl eq_refl)
    as [_ [Hcalls [Hstate _]]].
  split.
  - exact (Hcalls _ eq_refl).
  - destruct (Hstate _ _ _ eq_refl eq_refl) as [Hs _]. exact Hs.
Defined.

(** Read of a subdomain the registrar no longer lists. *)
Lemma subdomain_Read_drops_or_keeps_witness :
  let gone :=
    fst (run registrar.answer
           (subdomainResource.Read subdomainAdapter
              {| ReadRequest.State :=
                   {| tfsdk.decoded := sampleSubdomain;
                      tfsdk.decodeDiags := [] |} |}
              {| Response.State := {| tfsdk.Raw := Some sampleSubdomain |};
                 Response.Diagnostics := [] |})
           emptyZone) in
  Response.State gone = {| tfsdk.Raw := None |}
  /\ Response.Diagnostics gone = [].
Proof.
  cbv zeta.
  destruct (subdomain_Read_drops_or_keeps registrar.answer subdomainAdapter
              {| ReadRequest.State :=
                   {| tfsdk.decoded := sampleSubdomain;
                      tfsdk.decodeDiags := [] |} |}
              {| Response.State := {| tfsdk.Raw := Some sampleSubdomain |};
                 Response.Diagnostics := [] |}
              emptyZone emptyZone [] eq_refl eq_refl) as [Hgone _].
  destruct Hgone as [Hs [Hd _]].
  - intros s [].
  - split; [exact Hs | exact Hd].
Defined.

(** Create of a subdomain, then Read in the world Create left. *)
Lemma subdomain_Create_then_Read_witness :
  let afterCreate :=
    run registrar.answer
      (subdomainResource.Create subdomainAdapter
         {| CreateRequest.Plan :=
              {| tfsdk.decoded := sampleSubdomain;
                 tfsdk.decodeDiags := [] |} |}
         emptyResponse) emptyZone in
  Response.State (fst afterCreate) = {| tfsdk.Raw := Some sampleSubdomain |}
  /\ Response.State
       (fst (run registrar.answer
               (subdomainResource.Read subdomainAdapter
                  {| ReadRequest.State :=
                       {| tfsdk.decoded := sampleSubdomain;
                          tfsdk.decodeDiags := [] |} |}
                  (fst afterCreate))
               (snd afterCreate)))
     = {| tfsdk.Raw := Some sampleSubdomain |}.
Proof.
  cbv zeta.
  destruct (subdomain_Create_then_Read registrar.answer subdomainAdapter
              sampleSubdomain [] emptyResponse emptyZone _ eq_refl eq_refl)
    as [Hcreated [_ Hread]].
  split; [exact Hcreated |].
  eapply (Hread sampleSubdomain []).
  - reflexivity.
  - reflexivity.
  - reflexivity.
  - simpl. left. reflexivity.
Defined.

(** No credentials in the configuration, none in the environment. *)
Lemma Configure_resolves_credentials_witness :
  let out :=
    fst (run registrar.answer
           (provider.Configure devProvider sampleConfigure
              freshConfigureResponse) emptyZone) in
  provider.ConfigureResponse.Diagnostics out
    = [provider.missingUsername; provider.missingPassword]
  /\ provider.ConfigureResponse.ResourceData out = NilData
  /\ calls registrar.answer
       (provider.Configure devProvider sampleConfigure freshConfigureResponse)
       emptyZone
     = [Issued (loopia.os_Getenv "LOOPIA_USERNAME");
        Issued (loopia.os_Getenv "LOOPIA_PASSWORD")].
Proof.
  cbv zeta.
  destruct (Configure_resolves_credentials registrar.answer devProvider
              sampleConfigure freshConfigureResponse emptyZone eq_refl)
    as [_ [_ [Hknown _]]].
  destruct (Hknown eq_refl) as [Hmissing [Hboth _]].
  destruct (Hmissing (or_introl eq_refl)) as [Hcalls [_ [_ [_ Hdata]]]].
  split; [exact (Hboth eq_refl eq_refl) |].
  split; [exact Hdata | exact Hcalls].
Defined.

(** A record the client numbers 2^32 + 11 is stored as 11, and a Read of
    that state asks for record 11 - which this registrar holds, a different
    record - and refreshes the state from it without a diagnostic. *)
Example wide_identifier_reads_another_record :
  let wide := served (2 ^ 32 + 11) in
  let stored :=
    {| tfsdk.decoded :=
         zoneRecordResource.withRecord samplePlan
           (zoneRecordResource.recordModelFromClient wide);
       tfsdk.decodeDiags := [] |} in
  let zone :=
    {| registrar.environ := []; registrar.subdomains := [];
       registrar.records := [served 11; wide];
       registrar.nextID := 2 ^ 32 + 12 |} in
  let read :=
    zoneRecordResource.Read configured {| ReadRequest.State := stored |}
      emptyResponse in
  zoneRecordResource.RecordId (zoneRecordResource.recordModelFromClient wide)
    = types.Int32Value 11
  /\ calls registrar.answer read zone
     = [Issued (loopia.GetZoneRecord (Some sampleAPI) "example.com" "www" 11)]
  /\ fst (registrar.answer _
            (loopia.GetZoneRecord (Some sampleAPI) "example.com" "www" 11)
            zone) = loopia.Ok (served 11)
  /\ Response.Diagnostics (fst (run registrar.answer read zone)) = [].
Proof.
  cbv zeta. split; [reflexivity |]. split; [reflexivity |].
  split; reflexivity.
Qed.

(** Credentials in the environment only: the client is built from them.
    With a username in the configuration as well, that one is used. *)
Example Configure_from_environment :
  calls registrar.answer
    (provider.Configure devProvider sampleConfigure freshConfigureResponse)
    credentialedZone
  = [Issued (loopia.os_Getenv "LOOPIA_USERNAME");
     Issued (loopia.os_Getenv "LOOPIA_PASSWORD");
     Issued (loopia.New "env-user" "env-pass")]
  /\ calls registrar.answer
       (provider.Configure devProvider explicitConfigure freshConfigureResponse)
       credentialedZone
     = [Issued (loopia.os_Getenv "LOOPIA_USERNAME");
        Issued (loopia.os_Getenv "LOOPIA_PASSWORD");
        Issued (loopia.New "cfg-user" "env-pass")]
  /\ fst (run registrar.answer
            (provider.Configure devProvider explicitConfigure
               freshConfigureResponse) credentialedZone)
     = {| provider.ConfigureResponse.DataSourceData :=
            APIData (Some {| loopia.username := "cfg-user";
                             loopia.password := "env-pass" |});
          provider.ConfigureResponse.ResourceData :=
            APIData (Some {| loopia.username := "cfg-user";
                             loopia.password := "env-pass" |});
          provider.ConfigureResponse.Diagnostics := [] |}.
Proof.
  split; [vm_compute; reflexivity |].
  split; vm_compute; reflexivity.
Qed.

(** * Further properties of the handlers *)

(** ** Responses *)

Lemma addError_reports {M : Type} (resp : Response.t M)
  (summary detail : string) :
  Response.State (addError resp summary detail) = Response.State resp
  /\ hasError (addError resp summary detail) = true.
Proof.
  split; [reflexivity |].
  unfold hasError, addError. simpl.
  apply HasError_Append_one. reflexivity.
Qed.

Lemma addError_fresh {M : Type} (resp : Response.t M)
  (summary detail : string) :
  hasError resp = false ->
  Response.Diagnostics (addError resp summary detail)
  = Response.Diagnostics resp ++ [diag.NewErrorDiagnostic summary detail].
Proof. intros Hok. unfold addError. simpl. apply AddError_fresh. exact Hok. Qed.

Lemma setState_keeps_diagnostics {M : Type} (resp : Response.t M) (val : M) :
  Response.Diagnostics (setState resp val) = Response.Diagnostics resp
  /\ Response.State (setState resp val) = {| tfsdk.Raw := Some val |}.
Proof. split; reflexivity. Qed.

(** ** Zone record Create: every path *)

Section ZoneRecordCreatePaths.

Import zoneRecordResource.

Context {W : Type} (h : remote W) (r : zoneRecordResource.t).

Variable req : CreateRequest.t ZoneRecordResourceModel.
Variable resp : Response.t ZoneRecordResourceModel.

Local Abbreviation plan := (tfsdk.decoded (CreateRequest.Plan req)).
Local Abbreviation resp0 :=
  (appendDiags resp (tfsdk.decodeDiags (CreateRequest.Plan req))).
Local Abbreviation domain := (types.ValueString (Domain plan)).
Local Abbreviation subdomain := (types.ValueString (Subdomain plan)).
Local Abbreviation submitted := (toClientRecord (Record_ plan)).
Local Abbreviation add :=
  (loopia.AddZoneRecord (client r) domain subdomain submitted).
Local Abbreviation list_ := (loopia.GetZoneRecords (client r) domain subdomain).

Lemma zoneCreate_paths (w : W) :
  run h (Create r req resp) w =
  (if hasError resp0 then (resp0, w)
   else match h _ add w with
        | (Some e, w1) =>
            (addError resp0 "Error Creating Zone Record"
               ("Could not create zone record: " ++ e)%string, w1)
        | (None, w1) =>
            match h _ list_ w1 with
            | (loopia.Err e, w2) =>
                (addError resp0 "Error Fetching Zone Records After Creation"
                   ("Could not list zone records: " ++ e)%string, w2)
            | (loopia.Ok listed, w2) =>
                (match find (fun rec => sameTuple rec submitted) listed with
                 | Some createdRecord =>
                     setState resp0
                       (withRecord plan (recordModelFromClient createdRecord))
                 | None =>
                     addError resp0 "Unable to Identify Created Record"
                       "Could not find the newly created record in the API response."
                 end, w2)
            end
        end)
  /\ calls h (Create r req resp) w =
     (if hasError resp0 then []
      else Issued add ::
           match h _ add w with
           | (Some _, _) => []
           | (None, w1) => [Issued list_]
           end).
Proof.
  destruct req as [[p ds]]. simpl.
  unfold Create. simpl.
  destruct (hasError (appendDiags resp ds)); [split; reflexivity |]. simpl.
  destruct (h _ _ w) as [[e |] w1]; simpl; [split; reflexivity |].
  destruct (h _ _ w1) as [[listed | e] w2]; simpl; [| split; reflexivity].
  destruct (find _ listed); split; reflexivity.
Qed.

(** X1. A zone record Create whose AddZoneRecord call fails stops there:
    the listing is not requested, the error "Error Creating Zone Record"
    carries the client's text, and the state is left as handed over.  When
    the add succeeds and the listing fails, the error "Error Fetching Zone
    Records After Creation" is added and the state is left as well, and the
    record just added is not removed again: on no path does Create issue a
    removal or an update. *)
Theorem zoneCreate_failures_write_nothing (w : W) :
  hasError resp0 = false ->
  (forall e w1,
      h _ add w = (Some e, w1) ->
      calls h (Create r req resp) w = [Issued add]
      /\ Response.State (fst (run h (Create r req resp) w))
         = Response.State resp
      /\ Response.Diagnostics (fst (run h (Create r req resp) w))
         = Response.Diagnostics resp0
           ++ [diag.NewErrorDiagnostic "Error Creating Zone Record"
                 ("Could not create zone record: " ++ e)%string])
  /\ (forall e w1 w2,
        h _ add w = (None, w1) ->
        h _ list_ w1 = (loopia.Err e, w2) ->
        calls h (Create r req resp) w = [Issued add; Issued list_]
        /\ Response.State (fst (run h (Create r req resp) w))
           = Response.State resp
        /\ Response.Diagnostics (fst (run h (Create r req resp) w))
           = Response.Diagnostics resp0
             ++ [diag.NewErrorDiagnostic
                   "Error Fetching Zone Records After Creation"
                   ("Could not list zone records: " ++ e)%string])
  /\ existsb undoes (calls h (Create r req resp) w) = false.
Proof.
  intros Hok. destruct (zoneCreate_paths w) as [Hrun Hcalls].
  rewrite Hrun, Hcalls, Hok.
  split; [| split].
  - intros e w1 Hadd. rewrite Hadd. simpl.
    rewrite AddError_fresh by exact Hok. repeat split.
  - intros e w1 w2 Hadd Hlist. rewrite Hadd, Hlist. simpl.
    rewrite AddError_fresh by exact Hok. repeat split.
  - destruct (h _ add w) as [[e |] w1]; reflexivity.
Qed.

Lemma sameTuple_refl (a : loopia.Record_) : sameTuple a a = true.
Proof.
  unfold sameTuple. rewrite !String.eqb_refl, !Z.eqb_refl. reflexivity.
Qed.

(** X2. The match ignores the identifier and accepts the submitted record
    itself: when the listing after a successful add holds the submitted
    (type, value, ttl, priority) under any identifier - the remote stored
    the record as sent - Create does not report "Unable to Identify Created
    Record" but writes a state whose record has the submitted tuple - the
    submitted type and value, the submitted ttl and priority through the
    32-bit fields, all as known values - under the identifier of a listed
    record of that tuple; and when every listed record of that tuple carries
    the identifier [id], it is that identifier, reduced to 32 bits, that the
    state holds. *)
Theorem zoneCreate_finds_record_stored_as_sent
  (w w1 w2 : W) (listed : list loopia.Record_) (id : Z) :
  hasError resp0 = false ->
  h _ add w = (None, w1) ->
  h _ list_ w1 = (loopia.Ok listed, w2) ->
  In {| loopia.ID := id; loopia.TTL := loopia.TTL submitted;
        loopia.Type_ := loopia.Type_ submitted;
        loopia.Value := loopia.Value submitted;
        loopia.Priority := loopia.Priority submitted |} listed ->
  (forall id', recordsMatch r
                 {| loopia.ID := id'; loopia.TTL := loopia.TTL submitted;
                    loopia.Type_ := loopia.Type_ submitted;
                    loopia.Value := loopia.Value submitted;
                    loopia.Priority := loopia.Priority submitted |}
                 (Record_ plan) = true)
  /\ hasError (fst (run h (Create r req resp) w)) = false
  /\ (exists rec,
        In rec listed
        /\ sameTuple rec submitted = true
        /\ Response.State (fst (run h (Create r req resp) w))
           = {| tfsdk.Raw :=
                  Some {| Domain := Domain plan; Subdomain := Subdomain plan;
                          Record_ :=
                            {| Type_ :=
                                 types.StringValue (loopia.Type_ submitted);
                               Ttl :=
                                 types.Int32Value (int32 (loopia.TTL submitted));
                               Priority :=
                                 types.Int32Value
                                   (int32 (loopia.Priority submitted));
                               Value :=
                                 types.StringValue (loopia.Value submitted);
                               RecordId :=
                                 types.Int32Value (int32 (loopia.ID rec)) |} |} |}
        /\ Response.State (fst (run h (Create r req resp) w))
           = {| tfsdk.Raw :=
                  Some {| Domain := Domain plan; Subdomain := Subdomain plan;
                          Record_ := recordModelFromClient rec |} |}
        /\ ((forall other, In other listed ->
                           sameTuple other submitted = true ->
                           loopia.ID other = id) ->
            RecordId (recordModelFromClient rec)
            = types.Int32Value (int32 id)
            /\ Response.State (fst (run h (Create r req resp) w))
               = {| tfsdk.Raw :=
                      Some {| Domain := Domain plan;
                              Subdomain := Subdomain plan;
                              Record_ :=
                                {| Type_ :=
                                     types.StringValue (loopia.Type_ submitted);
                                   Ttl :=
                                     types.Int32Value
                                       (int32 (loopia.TTL submitted));
                                   Priority :=
                                     types.Int32Value
                                       (int32 (loopia.Priority submitted));
                                   Value :=
                                     types.StringValue (loopia.Value submitted);
                                   RecordId :=
                                     types.Int32Value (int32 id) |} |} |})).
Proof.
  intros Hok Hadd Hlist Hin.
  assert (Hself : forall id',
             sameTuple
               {| loopia.ID := id'; loopia.TTL := loopia.TTL submitted;
                  loopia.Type_ := loopia.Type_ submitted;
                  loopia.Value := loopia.Value submitted;
                  loopia.Priority := loopia.Priority submitted |}
               submitted = true).
  { intros id'. unfold sameTuple. simpl.
    rewrite !String.eqb_refl, !Z.eqb_refl. reflexivity. }
  split; [exact Hself |].
  destruct (zoneCreate_paths w) as [Hrun _].
  rewrite Hrun, Hok, Hadd, Hlist. simpl.
  destruct (find (fun rec => sameTuple rec submitted) listed) as [rec |] eqn:Hf.
  - simpl. split; [exact Hok |].
    destruct (find_some _ _ Hf) as [Hrec Hsame].
    destruct (sameTuple_fields _ _ Hsame) as [Hty [Hv [Ht Hp]]].
    assert (Hstored :
              recordModelFromClient rec =
              {| Type_ := types.StringValue (loopia.Type_ submitted);
                 Ttl := types.Int32Value (int32 (loopia.TTL submitted));
                 Priority :=
                   types.Int32Value (int32 (loopia.Priority submitted));
                 Value := types.StringValue (loopia.Value submitted);
                 RecordId := types.Int32Value (int32 (loopia.ID rec)) |}).
    { unfold recordModelFromClient. rewrite Hty, Hv, Ht, Hp. reflexivity. }
    simpl in Hstored.
    exists rec.
    split; [exact Hrec |]. split; [exact Hsame |].
    split; [rewrite <- Hstored; reflexivity |].
    split; [reflexivity |].
    intros Hunique. rewrite <- (Hunique rec Hrec Hsame).
    split; [reflexivity |]. rewrite <- Hstored. reflexivity.
  - exfalso. pose proof (find_none _ _ Hf _ Hin) as Hno. cbv beta in Hno.
    rewrite (Hself id) in Hno. discriminate.
Qed.

(** X3. What a successful Create stores agrees with what was planned: for
    the first listed record of the submitted tuple, every attribute of the
    plan's record that is a known value - an integer one within the 32-bit
    range of its type - is the attribute the state holds, and a null or
    unknown ttl or priority is stored as the known value 0. *)
Theorem zoneCreate_state_agrees_with_known_plan
  (w w1 w2 : W) (listed : list loopia.Record_) (rec : loopia.Record_) :
  hasError resp0 = false ->
  h _ add w = (None, w1) ->
  h _ list_ w1 = (loopia.Ok listed, w2) ->
  firstMatch (fun x => sameTuple x submitted) listed rec ->
  exists stored,
    Response.State (fst (run h (Create r req resp) w))
    = {| tfsdk.Raw :=
           Some {| Domain := Domain plan; Subdomain := Subdomain plan;
                   Record_ := stored |} |}
    /\ (forall v, Type_ (Record_ plan) = types.StringValue v ->
                  Type_ stored = Type_ (Record_ plan))
    /\ (forall v, Value (Record_ plan) = types.StringValue v ->
                  Value stored = Value (Record_ plan))
    /\ (forall n, Ttl (Record_ plan) = types.Int32Value n -> int32_range n ->
                  Ttl stored = Ttl (Record_ plan))
    /\ (forall n, Priority (Record_ plan) = types.Int32Value n ->
                  int32_range n ->
                  Priority stored = Priority (Record_ plan))
    /\ (Ttl (Record_ plan) = types.Int32Null
        \/ Ttl (Record_ plan) = types.Int32Unknown ->
        Ttl stored = types.Int32Value 0)
    /\ (Priority (Record_ plan) = types.Int32Null
        \/ Priority (Record_ plan) = types.Int32Unknown ->
        Priority stored = types.Int32Value 0).
Proof.
  intros Hok Hadd Hlist Hfirst.
  destruct (zoneCreate_paths w) as [Hrun _].
  rewrite Hrun, Hok, Hadd, Hlist. simpl.
  pose proof (proj2 (find_firstMatch _ _ _) Hfirst) as Hf. rewrite Hf.
  destruct Hfirst as [_ [_ [_ [Hsame _]]]].
  unfold sameTuple in Hsame.
  apply andb_prop in Hsame. destruct Hsame as [Hsame Hp].
  apply andb_prop in Hsame. destruct Hsame as [Hsame Ht].
  apply andb_prop in Hsame. destruct Hsame as [Hty Hv].
  apply String.eqb_eq in Hty, Hv. apply Z.eqb_eq in Ht, Hp.
  simpl in Hty, Hv, Ht, Hp.
  exists (recordModelFromClient rec). split; [reflexivity |].
  unfold recordModelFromClient. simpl.
  rewrite Hty, Hv, Ht, Hp.
  assert (Hint : forall n, int32_range n -> int32 (int n) = n).
  { intros n Hn. unfold int, int32_range in *.
    rewrite (wrap_small 64) by lia. apply wrap_small; lia. }
  repeat split.
  - intros v Hknown. rewrite Hknown. reflexivity.
  - intros v Hknown. rewrite Hknown. reflexivity.
  - intros n Hknown Hn. rewrite Hknown. simpl. rewrite (Hint n Hn).
    reflexivity.
  - intros n Hknown Hn. rewrite Hknown. simpl. rewrite (Hint n Hn).
    reflexivity.
  - intros [Hnull | Hnull]; rewrite Hnull; reflexivity.
  - intros [Hnull | Hnull]; rewrite Hnull; reflexivity.
Qed.

End ZoneRecordCreatePaths.

(** ** Zone record resource: what all four handlers keep *)

Section ZoneRecordHandlers.

Import zoneRecordResource.

Context {W : Type} (h : remote W) (r : zoneRecordResource.t).

Lemma zoneCreate_guard (req : CreateRequest.t ZoneRecordResourceModel)
  (resp : Response.t ZoneRecordResourceModel) (w : W) :
  (hasError (fst (run h (Create r req resp) w)) = true ->
   Response.State (fst (run h (Create r req resp) w)) = Response.State resp)
  /\ (hasError (appendDiags resp (tfsdk.decodeDiags (CreateRequest.Plan req)))
      = true ->
      calls h (Create r req resp) w = []).
Proof.
  destruct (zoneCreate_paths h r req resp w) as [Hrun Hcalls].
  rewrite Hrun, Hcalls.
  destruct (hasError (appendDiags resp _)) eqn:Hok;
    [split; reflexivity |].
  split; [| discriminate].
  destruct (h _ _ w) as [[e |] w1]; [reflexivity |].
  destruct (h _ _ w1) as [[listed | e] w2]; [| reflexivity].
  simpl. destruct (find _ listed); [| reflexivity].
  intros Herr. unfold hasError in Herr, Hok. simpl in Herr, Hok.
  congruence.
Qed.

Lemma zoneRead_guard (req : ReadRequest.t ZoneRecordResourceModel)
  (resp : Response.t ZoneRecordResourceModel) (w : W) :
  (hasError (fst (run h (Read r req resp) w)) = true ->
   Response.State (fst (run h (Read r req resp) w)) = Response.State resp)
  /\ (hasError (appendDiags resp (tfsdk.decodeDiags (ReadRequest.State req)))
      = true ->
      calls h (Read r req resp) w = []).
Proof.
  destruct req as [[s ds]]. unfold Read. simpl.
  destruct (hasError (appendDiags resp ds)) eqn:Hok;
    [split; reflexivity |].
  split; [| discriminate]. simpl.
  destruct (fst (h _ _ w)) as [rec | e]; [| reflexivity].
  intros Herr. unfold hasError in Herr, Hok. simpl in Herr, Hok.
  congruence.
Qed.

Lemma zoneUpdate_guard (req : UpdateRequest.t ZoneRecordResourceModel)
  (resp : Response.t ZoneRecordResourceModel) (w : W) :
  (hasError (fst (run h (Update r req resp) w)) = true ->
   Response.State (fst (run h (Update r req resp) w)) = Response.State resp)
  /\ (hasError
        (appendDiags
           (appendDiags resp (tfsdk.decodeDiags (UpdateRequest.State req)))
           (tfsdk.decodeDiags (UpdateRequest.Plan req))) = true ->
      calls h (Update r req resp) w = []).
Proof.
  destruct req as [[p dp] [s ds]]. unfold Update. simpl.
  destruct (hasError (appendDiags resp ds)) eqn:Hok1.
  - split; [reflexivity |]. reflexivity.
  - destruct (hasError (appendDiags (appendDiags resp ds) dp)) eqn:Hok2;
      [split; reflexivity |].
    split; [| discriminate]. simpl.
    destruct (fst (h _ _ w)) as [e |]; [reflexivity |]. simpl.
    destruct (fst (h _ _ _)) as [rec | e]; [| reflexivity].
    intros Herr. unfold hasError in Herr, Hok2. simpl in Herr, Hok2.
    congruence.
Qed.

Lemma zoneDelete_paths (req : DeleteRequest.t ZoneRecordResourceModel)
  (resp : Response.t ZoneRecordResourceModel) (w : W) :
  let state := tfsdk.decoded (DeleteRequest.State req) in
  let resp0 := appendDiags resp (tfsdk.decodeDiags (DeleteRequest.State req)) in
  let remove :=
    loopia.RemoveZoneRecord (client r)
      (types.ValueString (Domain state))
      (types.ValueString (Subdomain state))
      (int64 (types.ValueInt32 (RecordId (Record_ state)))) in
  run h (Delete r req resp) w =
  (if hasError resp0 then (resp0, w)
   else match h _ remove w with
        | (Some e, w1) =>
            (addError resp0 "Error Deleting Zone Record"
               ("Could not delete zone record ID "
                ++ fmt_d (types.ValueInt32 (RecordId (Record_ state)))
                ++ ": " ++ e)%string, w1)
        | (None, w1) => (resp0, w1)
        end)
  /\ calls h (Delete r req resp) w =
     (if hasError resp0 then [] else [Issued remove]).
Proof.
  destruct req as [[s ds]]. simpl. unfold Delete. simpl.
  destruct (hasError (appendDiags resp ds)); [split; reflexivity |]. simpl.
  destruct (h _ _ w) as [[e |] w1]; split; reflexivity.
Qed.

(** X4. In each of the four handlers of the zone record resource the state
    is written only on a path that ends without an error: whenever the
    response that comes back holds an error diagnostic, its state is the one
    that was handed in; Delete never writes the state at all; and a handler
    whose request does not decode without error returns before any call on
    the client. *)
Theorem zone_record_state_written_only_without_error (w : W) :
  (forall (req : CreateRequest.t ZoneRecordResourceModel) resp,
      (hasError (fst (run h (Create r req resp) w)) = true ->
       Response.State (fst (run h (Create r req resp) w))
       = Response.State resp)
      /\ (hasError
            (appendDiags resp (tfsdk.decodeDiags (CreateRequest.Plan req)))
          = true ->
          calls h (Create r req resp) w = []))
  /\ (forall (req : ReadRequest.t ZoneRecordResourceModel) resp,
        (hasError (fst (run h (Read r req resp) w)) = true ->
         Response.State (fst (run h (Read r req resp) w))
         = Response.State resp)
        /\ (hasError
              (appendDiags resp (tfsdk.decodeDiags (ReadRequest.State req)))
            = true ->
            calls h (Read r req resp) w = []))
  /\ (forall (req : UpdateRequest.t ZoneRecordResourceModel) resp,
        (hasError (fst (run h (Update r req resp) w)) = true ->
         Response.State (fst (run h (Update r req resp) w))
         = Response.State resp)
        /\ (hasError
              (appendDiags
                 (appendDiags resp
                    (tfsdk.decodeDiags (UpdateRequest.State req)))
                 (tfsdk.decodeDiags (UpdateRequest.Plan req))) = true ->
            calls h (Update r req resp) w = []))
  /\ (forall (req : DeleteRequest.t ZoneRecordResourceModel) resp,
        Response.State (fst (run h (Delete r req resp) w))
        = Response.State resp
        /\ (hasError
              (appendDiags resp (tfsdk.decodeDiags (DeleteRequest.State req)))
            = true ->
            calls h (Delete r req resp) w = [])).
Proof.
  split; [intros req resp; apply zoneCreate_guard |].
  split; [intros req resp; apply zoneRead_guard |].
  split; [intros req resp; apply zoneUpdate_guard |].
  intros req resp.
  destruct (zoneDelete_paths req resp w) as [Hrun Hcalls].
  rewrite Hrun, Hcalls.
  destruct (hasError (appendDiags resp _)); [split; reflexivity |].
  split; [| discriminate].
  destruct (h _ _ w) as [[e |] w1]; reflexivity.
Qed.

(** X5. Zone record Delete asks the client once, for the removal of the
    record under the identifier, domain and subdomain of the prior state.
    When the client refuses, the error "Error Deleting Zone Record" carries
    that identifier and the client's text; when it accepts, the response is
    returned with no diagnostic added. *)
Theorem zoneDelete_removes_stored_identifier
  (req : DeleteRequest.t ZoneRecordResourceModel)
  (resp : Response.t ZoneRecordResourceModel) (w : W) :
  let state := tfsdk.decoded (DeleteRequest.State req) in
  let resp0 := appendDiags resp (tfsdk.decodeDiags (DeleteRequest.State req)) in
  let remove :=
    loopia.RemoveZoneRecord (client r)
      (types.ValueString (Domain state))
      (types.ValueString (Subdomain state))
      (int64 (types.ValueInt32 (RecordId (Record_ state)))) in
  hasError resp0 = false ->
  calls h (Delete r req resp) w = [Issued remove]
  /\ (forall w1,
        h _ remove w = (None, w1) ->
        run h (Delete r req resp) w = (resp0, w1))
  /\ (forall e w1,
        h _ remove w = (Some e, w1) ->
        Response.Diagnostics (fst (run h (Delete r req resp) w))
        = Response.Diagnostics resp0
          ++ [diag.NewErrorDiagnostic "Error Deleting Zone Record"
                ("Could not delete zone record ID "
                 ++ fmt_d (types.ValueInt32 (RecordId (Record_ state)))
                 ++ ": " ++ e)%string]).
Proof.
  intros state resp0 remove Hok.
  destruct (zoneDelete_paths req resp w) as [Hrun Hcalls].
  fold state resp0 remove in Hrun, Hcalls.
  rewrite Hrun, Hcalls, Hok.
  split; [reflexivity |]. split.
  - intros w1 Hrem. rewrite Hrem. reflexivity.
  - intros e w1 Hrem. rewrite Hrem. simpl.
    apply AddError_fresh. exact Hok.
Qed.

(** X6. The state a Create wrote is a fixed point of Read on a remote that
    still serves the adopted record: when the fetch under the stored
    identifier returns the record Create adopted, Read writes the very
    state it was given and adds no diagnostic. *)
Theorem zoneCreate_then_Read_is_stable
  (reqC : CreateRequest.t ZoneRecordResourceModel)
  (respC respR : Response.t ZoneRecordResourceModel)
  (stateDiags : diag.Diagnostics)
  (w w1 w2 w' w'' : W) (listed : list loopia.Record_) (rec : loopia.Record_) :
  let plan := tfsdk.decoded (CreateRequest.Plan reqC) in
  let created :=
    {| Domain := Domain plan; Subdomain := Subdomain plan;
       Record_ := recordModelFromClient rec |} in
  let reqR :=
    {| ReadRequest.State :=
         {| tfsdk.decoded := created; tfsdk.decodeDiags := stateDiags |} |} in
  hasError (appendDiags respC (tfsdk.decodeDiags (CreateRequest.Plan reqC)))
    = false ->
  h _ (loopia.AddZoneRecord (client r) (types.ValueString (Domain plan))
         (types.ValueString (Subdomain plan))
         (toClientRecord (Record_ plan))) w = (None, w1) ->
  h _ (loopia.GetZoneRecords (client r) (types.ValueString (Domain plan))
         (types.ValueString (Subdomain plan))) w1 = (loopia.Ok listed, w2) ->
  firstMatch (fun x => sameTuple x (toClientRecord (Record_ plan))) listed rec ->
  hasError (appendDiags respR stateDiags) = false ->
  h _ (loopia.GetZoneRecord (client r) (types.ValueString (Domain plan))
         (types.ValueString (Subdomain plan)) (int32 (loopia.ID rec))) w'
    = (loopia.Ok rec, w'') ->
  Response.State (fst (run h (Create r reqC respC) w))
    = {| tfsdk.Raw := Some created |}
  /\ Response.State (fst (run h (Read r reqR respR) w'))
     = {| tfsdk.Raw := Some created |}
  /\ Response.Diagnostics (fst (run h (Read r reqR respR) w'))
     = diag.Append (Response.Diagnostics respR) stateDiags.
Proof.
  intros plan created reqR HokC Hadd Hlist Hfirst HokR Hfetch.
  destruct (zoneCreate_paths h r reqC respC w) as [Hrun _].
  fold plan in Hrun. rewrite Hrun, HokC, Hadd, Hlist.
  rewrite (proj2 (find_firstMatch _ _ _) Hfirst). simpl.
  split; [reflexivity |].
  rewrite (zoneRead_run h r reqR respR w' HokR). simpl.
  rewrite int64_of_int32, Hfetch. simpl.
  split; reflexivity.
Qed.

End ZoneRecordHandlers.

(** ** The two conversions of the zone record resource *)


(** ** Subdomain resource: the other paths *)

Section SubdomainPaths.

Import subdomainResource.

Context {W : Type} (h : remote W) (r : subdomainResource.t).

Lemma subdomainCreate_paths (req : CreateRequest.t SubdomainResourceModel)
  (resp : Response.t SubdomainResourceModel) (w : W) :
  let plan := tfsdk.decoded (CreateRequest.Plan req) in
  let resp0 := appendDiags resp (tfsdk.decodeDiags (CreateRequest.Plan req)) in
  let add :=
    loopia.AddSubdomain (client r) (types.ValueString (Domain plan))
      (types.ValueString (Subdomain plan)) in
  run h (Create r req resp) w =
  (if hasError resp0 then (resp0, w)
   else match h _ add w with
        | (Some e, w1) =>
            (addError resp0 "Error creating subdomain"
               ("Could not create subdomain, unexpected error: " ++ e)%string,
             w1)
        | (None, w1) => (setState resp0 plan, w1)
        end)
  /\ calls h (Create r req resp) w =
     (if hasError resp0 then [] else [Issued add]).
Proof.
  destruct req as [[p ds]]. simpl. unfold Create. simpl.
  destruct (hasError (appendDiags resp ds)); [split; reflexivity |]. simpl.
  destruct (h _ _ w) as [[e |] w1]; simpl; [split; reflexivity |].
  destruct (hasError _); split; reflexivity.
Qed.

Lemma subdomainRead_paths (req : ReadRequest.t SubdomainResourceModel)
  (resp : Response.t SubdomainResourceModel) (w : W) :
  let state := tfsdk.decoded (ReadRequest.State req) in
  let resp0 := appendDiags resp (tfsdk.decodeDiags (ReadRequest.State req)) in
  let list_ :=
    loopia.GetSubdomains (client r) (types.ValueString (Domain state)) in
  run h (Read r req resp) w =
  (if hasError resp0 then (resp0, w)
   else match h _ list_ w with
        | (loopia.Err e, w1) =>
            (addError resp0 "Unable to Read Subdomains" e, w1)
        | (loopia.Ok listed, w1) =>
            ({| Response.State :=
                  if existsb
                       (listedName (types.ValueString (Subdomain state)))
                       listed
                  then {| tfsdk.Raw := Some state |}
                  else {| tfsdk.Raw := None |};
                Response.Diagnostics := Response.Diagnostics resp0 |}, w1)
        end)
  /\ calls h (Read r req resp) w =
     (if hasError resp0 then [] else [Issued list_]).
Proof.
  destruct req as [[s ds]]. simpl. unfold Read. simpl.
  destruct (hasError (appendDiags resp ds)); [split; reflexivity |]. simpl.
  destruct (h _ _ w) as [[listed | e] w1]; simpl; [| split; reflexivity].
  unfold listedName. destruct (existsb _ listed); split; reflexivity.
Qed.

Lemma subdomainDelete_paths (req : DeleteRequest.t SubdomainResourceModel)
  (resp : Response.t SubdomainResourceModel) (w : W) :
  let state := tfsdk.decoded (DeleteRequest.State req) in
  let resp0 := appendDiags resp (tfsdk.decodeDiags (DeleteRequest.State req)) in
  let remove :=
    loopia.RemoveSubDomain (client r) (types.ValueString (Domain state))
      (types.ValueString (Subdomain state)) in
  run h (Delete r req resp) w =
  (if hasError resp0 then (resp0, w)
   else match h _ remove w with
        | (Some e, w1) =>
            (addError resp0 "Error Deleting Loopia Subdomain"
               ("Could not delete subdomain, unexpected error: " ++ e)%string,
             w1)
        | (None, w1) => (resp0, w1)
        end)
  /\ calls h (Delete r req resp) w =
     (if hasError resp0 then [] else [Issued remove]).
Proof.
  destruct req as [[s ds]]. simpl. unfold Delete. simpl.
  destruct (hasError (appendDiags resp ds)); [split; reflexivity |]. simpl.
  destruct (h _ _ w) as [[e |] w1]; split; reflexivity.
Qed.

(** X8. When the client's call fails, subdomain Create and subdomain Read
    report it and leave the state as handed over: Create adds "Error
    creating subdomain" with the client's text after its single call, and
    Read, whose listing failed, adds "Unable to Read Subdomains" with the
    client's text as the whole detail and does not remove the resource - a
    failed listing is not read as a deletion. *)
Theorem subdomain_client_errors_keep_state (w : W) :
  (forall (req : CreateRequest.t SubdomainResourceModel) resp e w1,
      hasError (appendDiags resp (tfsdk.decodeDiags (CreateRequest.Plan req)))
        = false ->
      h _ (loopia.AddSubdomain (client r)
             (types.ValueString
                (Domain (tfsdk.decoded (CreateRequest.Plan req))))
             (types.ValueString
                (Subdomain (tfsdk.decoded (CreateRequest.Plan req))))) w
        = (Some e, w1) ->
      Response.State (fst (run h (Create r req resp) w)) = Response.State resp
      /\ Response.Diagnostics (fst (run h (Create r req resp) w))
         = diag.Append (Response.Diagnostics resp)
             (tfsdk.decodeDiags (CreateRequest.Plan req))
           ++ [diag.NewErrorDiagnostic "Error creating subdomain"
                 ("Could not create subdomain, unexpected error: " ++ e)%string])
  /\ (forall (req : ReadRequest.t SubdomainResourceModel) resp e w1,
        hasError (appendDiags resp (tfsdk.decodeDiags (ReadRequest.State req)))
          = false ->
        h _ (loopia.GetSubdomains (client r)
               (types.ValueString
                  (Domain (tfsdk.decoded (ReadRequest.State req))))) w
          = (loopia.Err e, w1) ->
        Response.State (fst (run h (Read r req resp) w)) = Response.State resp
        /\ Response.Diagnostics (fst (run h (Read r req resp) w))
           = diag.Append (Response.Diagnostics resp)
               (tfsdk.decodeDiags (ReadRequest.State req))
             ++ [diag.NewErrorDiagnostic "Unable to Read Subdomains" e]).
Proof.
  split.
  - intros req resp e w1 Hok Hadd.
    destruct (subdomainCreate_paths req resp w) as [Hrun _].
    rewrite Hrun, Hok, Hadd. simpl.
    rewrite AddError_fresh by exact Hok. split; reflexivity.
  - intros req resp e w1 Hok Hlist.
    destruct (subdomainRead_paths req resp w) as [Hrun _].
    rewrite Hrun, Hok, Hlist. simpl.
    rewrite AddError_fresh by exact Hok. split; reflexivity.
Qed.

(** X9. Subdomain Delete asks the client once, for the removal of the
    state's (domain, subdomain) pair, and never writes the state; a refusal
    becomes the error "Error Deleting Loopia Subdomain" with the client's
    text, an acceptance adds nothing.  Subdomain Update is empty: it calls
    nothing and returns the response it was given. *)
Theorem subdomain_Delete_and_Update
  (req : DeleteRequest.t SubdomainResourceModel)
  (resp : Response.t SubdomainResourceModel) (w : W) :
  let state := tfsdk.decoded (DeleteRequest.State req) in
  let resp0 := appendDiags resp (tfsdk.decodeDiags (DeleteRequest.State req)) in
  let remove :=
    loopia.RemoveSubDomain (client r) (types.ValueString (Domain state))
      (types.ValueString (Subdomain state)) in
  hasError resp0 = false ->
  calls h (Delete r req resp) w = [Issued remove]
  /\ Response.State (fst (run h (Delete r req resp) w)) = Response.State resp
  /\ (forall w1,
        h _ remove w = (None, w1) ->
        run h (Delete r req resp) w = (resp0, w1))
  /\ (forall e w1,
        h _ remove w = (Some e, w1) ->
        Response.Diagnostics (fst (run h (Delete r req resp) w))
        = Response.Diagnostics resp0
          ++ [diag.NewErrorDiagnostic "Error Deleting Loopia Subdomain"
                ("Could not delete subdomain, unexpected error: " ++ e)%string])
  /\ (forall (reqU : UpdateRequest.t SubdomainResourceModel) respU,
        run h (Update r reqU respU) w = (respU, w)
        /\ calls h (Update r reqU respU) w = []).
Proof.
  intros state resp0 remove Hok.
  destruct (subdomainDelete_paths req resp w) as [Hrun Hcalls].
  fold state resp0 remove in Hrun, Hcalls.
  rewrite Hrun, Hcalls, Hok.
  split; [reflexivity |].
  split; [destruct (h _ remove w) as [[e |] w1]; reflexivity |].
  split; [intros w1 Hrem; rewrite Hrem; reflexivity |].
  split.
  - intros e w1 Hrem. rewrite Hrem. simpl. apply AddError_fresh. exact Hok.
  - intros reqU respU. split; reflexivity.
Qed.

End SubdomainPaths.

(** ** Data sources *)

Lemma fold_left_snoc {A B : Type} (f : A -> B) (l : list A) (init : list B) :
  fold_left (fun acc x => acc ++ [f x]) l init = init ++ map f l.
Proof.
  revert init. induction l as [| a l IH]; intros init; simpl.
  - rewrite app_nil_r. reflexivity.
  - rewrite IH, <- app_assoc. reflexivity.
Qed.

Section ListingDataSources.

Context {W : Type} (h : remote W).

Lemma subdomainsRead_paths (d : SubdomainsDataSource.t)
  (req : datasource.ReadRequest.t SubdomainsDataSource.SubdomainsDataSourceModel)
  (resp : Response.t SubdomainsDataSource.SubdomainsDataSourceModel) (w : W) :
  let state := tfsdk.decoded (datasource.ReadRequest.Config req) in
  let resp0 :=
    appendDiags resp (tfsdk.decodeDiags (datasource.ReadRequest.Config req)) in
  let list_ :=
    loopia.GetSubdomains (SubdomainsDataSource.client d)
      (types.ValueString (SubdomainsDataSource.Domain state)) in
  run h (SubdomainsDataSource.Read d req resp) w =
  (if hasError resp0 then (resp0, w)
   else match h _ list_ w with
        | (loopia.Err e, w1) =>
            (addError resp0 "Unable to Read Loopia Subdomains" e, w1)
        | (loopia.Ok listed, w1) =>
            (setState resp0
               {| SubdomainsDataSource.Domain :=
                    SubdomainsDataSource.Domain state;
                  SubdomainsDataSource.Subdomains :=
                    basetypes.ListKnown
                      (map (fun s => types.StringValue (loopia.Name s))
                         listed) |}, w1)
        end)
  /\ calls h (SubdomainsDataSource.Read d req resp) w =
     (if hasError resp0 then [] else [Issued list_]).
Proof.
  destruct req as [[s ds]]. simpl. unfold SubdomainsDataSource.Read. simpl.
  destruct (hasError (appendDiags resp ds)) eqn:Hok;
    [split; reflexivity |]. simpl.
  destruct (h _ _ w) as [[listed | e] w1]; simpl; [| split; reflexivity].
  unfold hasError in *. simpl in *. rewrite Hok.
  rewrite (fold_left_snoc (fun s => types.StringValue (loopia.Name s))).
  split; reflexivity.
Qed.

(** X10. The subdomains data source, when its one listing call succeeds,
    writes the queried domain and a known list with one string per listed
    subdomain, the names in the order the client returned them: as many
    elements as subdomains, the i-th element the i-th name, and a known
    empty list - not a null one - for a domain without subdomains.  When
    the call fails, the client's text is the detail of "Unable to Read
    Loopia Subdomains" and the state is left as handed over. *)
Theorem subdomains_data_source_lists_names_in_order
  (d : SubdomainsDataSource.t)
  (req : datasource.ReadRequest.t SubdomainsDataSource.SubdomainsDataSourceModel)
  (resp : Response.t SubdomainsDataSource.SubdomainsDataSourceModel) (w : W) :
  let state := tfsdk.decoded (datasource.ReadRequest.Config req) in
  let resp0 :=
    appendDiags resp (tfsdk.decodeDiags (datasource.ReadRequest.Config req)) in
  let list_ :=
    loopia.GetSubdomains (SubdomainsDataSource.client d)
      (types.ValueString (SubdomainsDataSource.Domain state)) in
  let out := fst (run h (SubdomainsDataSource.Read d req resp) w) in
  hasError resp0 = false ->
  calls h (SubdomainsDataSource.Read d req resp) w = [Issued list_]
  /\ (forall listed w1,
        h _ list_ w = (loopia.Ok listed, w1) ->
        exists names,
          Response.State out =
            {| tfsdk.Raw :=
                 Some {| SubdomainsDataSource.Domain :=
                           SubdomainsDataSource.Domain state;
                         SubdomainsDataSource.Subdomains :=
                           basetypes.ListKnown names |} |}
          /\ List.length names = List.length listed
          /\ (forall i s, nth_error listed i = Some s ->
                          nth_error names i
                          = Some (types.StringValue (loopia.Name s)))
          /\ (listed = [] -> names = [])
          /\ Response.Diagnostics out = Response.Diagnostics resp0)
  /\ (forall e w1,
        h _ list_ w = (loopia.Err e, w1) ->
        Response.State out = Response.State resp
        /\ Response.Diagnostics out
           = Response.Diagnostics resp0
             ++ [diag.NewErrorDiagnostic "Unable to Read Loopia Subdomains" e]).
Proof.
  intros state resp0 list_ out Hok. subst out.
  destruct (subdomainsRead_paths d req resp w) as [Hrun Hcalls].
  fold state resp0 list_ in Hrun, Hcalls. rewrite Hrun, Hcalls, Hok.
  split; [reflexivity |]. split.
  - intros listed w1 Hlist. rewrite Hlist. simpl.
    exists (map (fun s => types.StringValue (loopia.Name s)) listed).
    split; [reflexivity |].
    split; [apply length_map |].
    split; [| split; [intros Hnil; rewrite Hnil; reflexivity | reflexivity]].
    intros i s Hnth. rewrite nth_error_map, Hnth. reflexivity.
  - intros e w1 Hlist. rewrite Hlist. simpl.
    rewrite AddError_fresh by exact Hok. split; reflexivity.
Qed.

Lemma zoneRecords_fold (records : list loopia.Record_)
  (state : zoneRecordsDataSource.ZoneRecordsDataSourceModel) :
  fold_left
    (fun state record =>
       {| zoneRecordsDataSource.Domain := zoneRecordsDataSource.Domain state;
          zoneRecordsDataSource.Subdomain :=
            zoneRecordsDataSource.Subdomain state;
          zoneRecordsDataSource.ZoneRecords :=
            zoneRecordsDataSource.ZoneRecords state
            ++ [zoneRecordsDataSource.zoneRecordState record] |})
    records state
  = {| zoneRecordsDataSource.Domain := zoneRecordsDataSource.Domain state;
       zoneRecordsDataSource.Subdomain := zoneRecordsDataSource.Subdomain state;
       zoneRecordsDataSource.ZoneRecords :=
         zoneRecordsDataSource.ZoneRecords state
         ++ map zoneRecordsDataSource.zoneRecordState records |}.
Proof.
  revert state. induction records as [| a l IH]; intros state; simpl.
  - rewrite app_nil_r. destruct state; reflexivity.
  - rewrite IH. simpl. rewrite <- app_assoc. reflexivity.
Qed.

(** X11. The zone records data source, when its one listing call succeeds,
    keeps the queried domain and subdomain and appends one entry per listed
    record, in the order the client returned them, to the entries the
    configuration decoded to; the entry of a record holds the same five
    attribute values as the state the zone record resource keeps for that
    record, identifier, ttl and priority reduced to 32 bits alike.  When
    the call fails, "Unable to Read Loopia Zone Records" carries the
    client's text and the state is left as handed over. *)
Theorem zone_records_data_source_agrees_with_resource
  (d : zoneRecordsDataSource.t)
  (req : datasource.ReadRequest.t
           zoneRecordsDataSource.ZoneRecordsDataSourceModel)
  (resp : Response.t zoneRecordsDataSource.ZoneRecordsDataSourceModel)
  (w : W) :
  let state := tfsdk.decoded (datasource.ReadRequest.Config req) in
  let resp0 :=
    appendDiags resp (tfsdk.decodeDiags (datasource.ReadRequest.Config req)) in
  let list_ :=
    loopia.GetZoneRecords (zoneRecordsDataSource.client d)
      (types.ValueString (zoneRecordsDataSource.Domain state))
      (types.ValueString (zoneRecordsDataSource.Subdomain state)) in
  let out := fst (run h (zoneRecordsDataSource.Read d req resp) w) in
  hasError resp0 = false ->
  calls h (zoneRecordsDataSource.Read d req resp) w = [Issued list_]
  /\ (forall listed w1,
        h _ list_ w = (loopia.Ok listed, w1) ->
        exists entries,
          Response.State out =
            {| tfsdk.Raw :=
                 Some {| zoneRecordsDataSource.Domain :=
                           zoneRecordsDataSource.Domain state;
                         zoneRecordsDataSource.Subdomain :=
                           zoneRecordsDataSource.Subdomain state;
                         zoneRecordsDataSource.ZoneRecords :=
                           zoneRecordsDataSource.ZoneRecords state
                           ++ entries |} |}
          /\ List.length entries = List.length listed
          /\ (forall i rec,
                nth_error listed i = Some rec ->
                exists entry,
                  nth_error entries i = Some entry
                  /\ zoneRecordsDataSource.Type_ entry
                     = zoneRecordResource.Type_
                         (zoneRecordResource.recordModelFromClient rec)
                  /\ zoneRecordsDataSource.Ttl entry
                     = zoneRecordResource.Ttl
                         (zoneRecordResource.recordModelFromClient rec)
                  /\ zoneRecordsDataSource.Priority entry
                     = zoneRecordResource.Priority
                         (zoneRecordResource.recordModelFromClient rec)
                  /\ zoneRecordsDataSource.Value entry
                     = zoneRecordResource.Value
                         (zoneRecordResource.recordModelFromClient rec)
                  /\ zoneRecordsDataSource.RecordId entry
                     = zoneRecordResource.RecordId
                         (zoneRecordResource.recordModelFromClient rec))
          /\ Response.Diagnostics out = Response.Diagnostics resp0)
  /\ (forall e w1,
        h _ list_ w = (loopia.Err e, w1) ->
        Response.State out = Response.State resp
        /\ Response.Diagnostics out
           = Response.Diagnostics resp0
             ++ [diag.NewErrorDiagnostic "Unable to Read Loopia Zone Records"
                   ("Could not read zone records: " ++ e)%string]).
Proof.
  intros state resp0 list_ out Hok. subst out.
  assert (Hrun : run h (zoneRecordsDataSource.Read d req resp) w =
                 match h _ list_ w with
                 | (loopia.Err e, w1) =>
                     (addError resp0 "Unable to Read Loopia Zone Records"
                        ("Could not read zone records: " ++ e)%string, w1)
                 | (loopia.Ok listed, w1) =>
                     (setState resp0
                        {| zoneRecordsDataSource.Domain :=
                             zoneRecordsDataSource.Domain state;
                           zoneRecordsDataSource.Subdomain :=
                             zoneRecordsDataSource.Subdomain state;
                           zoneRecordsDataSource.ZoneRecords :=
                             zoneRecordsDataSource.ZoneRecords state
                             ++ map zoneRecordsDataSource.zoneRecordState
                                  listed |}, w1)
                 end
                 /\ calls h (zoneRecordsDataSource.Read d req resp) w
                    = [Issued list_]).
  { subst state resp0 list_. destruct req as [[s ds]]. simpl in *.
    unfold zoneRecordsDataSource.Read. simpl. rewrite Hok. simpl.
    destruct (h _ _ w) as [[listed | e] w1]; simpl; [| split; reflexivity].
    rewrite zoneRecords_fold. split; reflexivity. }
  destruct Hrun as [Hrun Hcalls]. rewrite Hrun, Hcalls.
  split; [reflexivity |]. split.
  - intros listed w1 Hlist. rewrite Hlist. simpl.
    exists (map zoneRecordsDataSource.zoneRecordState listed).
    split; [reflexivity |].
    split; [apply length_map |].
    split; [| reflexivity].
    intros i rec Hnth.
    exists (zoneRecordsDataSource.zoneRecordState rec).
    split; [rewrite nth_error_map, Hnth; reflexivity |].
    repeat split.
  - intros e w1 Hlist. rewrite Hlist. simpl.
    rewrite AddError_fresh by exact Hok. split; reflexivity.
Qed.

End ListingDataSources.

Section DomainDataSources.

Context {W : Type} (h : domainRemote W).

Lemma domains_fold (domains : list loopia.Domain)
  (state : DomainsDataSource.DomainsDataSourceModel) :
  fold_left
    (fun state domain =>
       {| DomainsDataSource.Domains :=
            DomainsDataSource.Domains state
            ++ [DomainsDataSource.domainState domain] |})
    domains state
  = {| DomainsDataSource.Domains :=
         DomainsDataSource.Domains state
         ++ map DomainsDataSource.domainState domains |}.
Proof.
  revert state. induction domains as [| a l IH]; intros state; simpl.
  - rewrite app_nil_r. destruct state; reflexivity.
  - rewrite IH. simpl. rewrite <- app_assoc. reflexivity.
Qed.

(** X12. The domain data source asks the client for the configured name
    and, when a domain comes back, writes all six attributes from it as
    known values - the name too is the one the client returned, not the
    configured one.  When the call fails, the client's text is the whole
    detail of "Unable to Read Loopia Domain" and the state is left as
    handed over; when the configuration does not decode, the client is not
    called. *)
Theorem domain_data_source_projects_the_reply
  (d : DomainDataSource.t)
  (req : datasource.ReadRequest.t DomainDataSource.DomainDataSourceModel)
  (resp : Response.t DomainDataSource.DomainDataSourceModel) (w : W) :
  let state := tfsdk.decoded (datasource.ReadRequest.Config req) in
  let resp0 :=
    appendDiags resp (tfsdk.decodeDiags (datasource.ReadRequest.Config req)) in
  let get :=
    loopia.GetDomain (DomainDataSource.client d)
      (types.ValueString (DomainDataSource.Name state)) in
  let out := fst (domainRun h (DomainDataSource.Read d req resp) w) in
  (hasError resp0 = true ->
   domainCalls h (DomainDataSource.Read d req resp) w = []
   /\ out = resp0)
  /\ (hasError resp0 = false ->
      domainCalls h (DomainDataSource.Read d req resp) w = [DomainIssued get]
      /\ (forall domain w1,
            h _ get w = (loopia.Ok domain, w1) ->
            Response.State out =
              {| tfsdk.Raw :=
                   Some {| DomainDataSource.Name :=
                             types.StringValue (loopia.DomainName domain);
                           DomainDataSource.Paid :=
                             types.BoolValue (loopia.Paid domain);
                           DomainDataSource.Registered :=
                             types.BoolValue (loopia.Registered domain);
                           DomainDataSource.RenewalStatus :=
                             types.StringValue (loopia.RenewalStatus domain);
                           DomainDataSource.ExpirationDate :=
                             types.StringValue (loopia.ExpirationDate domain);
                           DomainDataSource.ReferenceNumber :=
                             types.Int32Value
                               (loopia.ReferenceNumber domain) |} |}
            /\ Response.Diagnostics out = Response.Diagnostics resp0)
      /\ (forall e w1,
            h _ get w = (loopia.Err e, w1) ->
            Response.State out = Response.State resp
            /\ Response.Diagnostics out
               = Response.Diagnostics resp0
                 ++ [diag.NewErrorDiagnostic "Unable to Read Loopia Domain" e])).
Proof.
  intros state resp0 get out. subst state resp0 get out.
  destruct req as [[s ds]]. simpl.
  unfold DomainDataSource.Read. simpl.
  destruct (hasError (appendDiags resp ds)) eqn:Hok.
  - split; [intros _; split; reflexivity | discriminate].
  - split; [discriminate |]. intros _. simpl.
    split; [destruct (fst (h _ _ w)); reflexivity |]. split.
    + intros domain w1 Hget. rewrite Hget. simpl. split; reflexivity.
    + intros e w1 Hget. rewrite Hget. simpl.
      rewrite AddError_fresh by exact Hok. split; reflexivity.
Qed.

(** X13. The domains data source does not read its configuration: whatever
    the request and whatever the response already holds, it calls the
    client once for the list.  On a reply it writes one entry per domain, in
    the client's order, and the six attributes of an entry are those the
    domain data source writes when the client hands it that domain.  When
    the call fails, the client's text is the whole detail of "Unable to
    Read Loopia Domains" and the state is left as handed over. *)
Theorem domains_data_source_agrees_with_domain
  (d : DomainsDataSource.t)
  (req : datasource.ReadRequest.t DomainsDataSource.DomainsDataSourceModel)
  (resp : Response.t DomainsDataSource.DomainsDataSourceModel) (w : W) :
  let list_ := loopia.GetDomains (DomainsDataSource.client d) in
  let out := fst (domainRun h (DomainsDataSource.Read d req resp) w) in
  domainCalls h (DomainsDataSource.Read d req resp) w = [DomainIssued list_]
  /\ (forall domains w1,
        h _ list_ w = (loopia.Ok domains, w1) ->
        exists entries,
          Response.State out =
            {| tfsdk.Raw := Some {| DomainsDataSource.Domains := entries |} |}
          /\ Response.Diagnostics out = Response.Diagnostics resp
          /\ List.length entries = List.length domains
          /\ forall i domain,
              nth_error domains i = Some domain ->
              exists entry,
                nth_error entries i = Some entry
                /\ forall (h1 : domainRemote W) d1 req1 resp1 w0 w2 single,
                    hasError
                      (appendDiags resp1
                         (tfsdk.decodeDiags
                            (datasource.ReadRequest.Config req1))) = false ->
                    h1 _ (loopia.GetDomain (DomainDataSource.client d1)
                            (types.ValueString
                               (DomainDataSource.Name
                                  (tfsdk.decoded
                                     (datasource.ReadRequest.Config req1)))))
                      w0 = (loopia.Ok domain, w2) ->
                    tfsdk.Raw
                      (Response.State
                         (fst (domainRun h1
                                 (DomainDataSource.Read d1 req1 resp1) w0)))
                    = Some single ->
                    DomainDataSource.Name single
                    = DomainsDataSource.Name entry
                    /\ DomainDataSource.Paid single
                       = DomainsDataSource.Paid entry
                    /\ DomainDataSource.Registered single
                       = DomainsDataSource.Registered entry
                    /\ DomainDataSource.RenewalStatus single
                       = DomainsDataSource.RenewalStatus entry
                    /\ DomainDataSource.ExpirationDate single
                       = DomainsDataSource.ExpirationDate entry
                    /\ DomainDataSource.ReferenceNumber single
                       = DomainsDataSource.ReferenceNumber entry)
  /\ (forall e w1,
        h _ list_ w = (loopia.Err e, w1) ->
        Response.State out = Response.State resp
        /\ Response.Diagnostics out
           = diag.AddError (Response.Diagnostics resp)
               "Unable to Read Loopia Domains" e).
Proof.
  intros list_ out. subst list_ out.
  unfold DomainsDataSource.Read. simpl.
  assert (Hif : forall (b : bool) (x : Response.t
                          DomainsDataSource.DomainsDataSourceModel),
             (if b then DomainRet x else DomainRet x) = DomainRet x)
    by (intros [|] x; reflexivity).
  split.
  { destruct (fst (h _ _ w)) as [domains | e]; [| reflexivity].
    rewrite Hif. reflexivity. }
  split.
  - intros domains w1 Hlist. rewrite Hlist. simpl.
    rewrite domains_fold. simpl.
    exists (map DomainsDataSource.domainState domains).
    rewrite Hif. simpl.
    split; [reflexivity |]. split; [reflexivity |].
    split; [apply length_map |].
    intros i domain Hnth.
    exists (DomainsDataSource.domainState domain).
    split; [rewrite nth_error_map, Hnth; reflexivity |].
    intros h1 d1 req1 resp1 w0 w2 single Hok Hget Hstate.
    destruct req1 as [[s1 ds1]]. simpl in *.
    unfold DomainDataSource.Read in Hstate. simpl in Hstate.
    rewrite Hok in Hstate. simpl in Hstate. rewrite Hget in Hstate.
    simpl in Hstate. inversion Hstate; subst single. simpl.
    repeat split.
  - intros e w1 Hlist. rewrite Hlist. simpl. split; reflexivity.
Qed.

End DomainDataSources.

(** ** Provider Configure: the client it hands out *)

Section ProviderClient.

Import provider.

Context {W : Type} (h : remote W) (p : LoopiaProvider).

Variable req : ConfigureRequest.t.
Variable resp : ConfigureResponse.t.

Local Abbreviation config := (tfsdk.decoded (ConfigureRequest.Config req)).
Local Abbreviation diags0 :=
  (diag.Append (ConfigureResponse.Diagnostics resp)
     (tfsdk.decodeDiags (ConfigureRequest.Config req))).
Local Abbreviation envU w := (fst (h _ (loopia.os_Getenv "LOOPIA_USERNAME") w)).
Local Abbreviation wU w := (snd (h _ (loopia.os_Getenv "LOOPIA_USERNAME") w)).
Local Abbreviation envP w :=
  (fst (h _ (loopia.os_Getenv "LOOPIA_PASSWORD") (wU w))).
Local Abbreviation wP w :=
  (snd (h _ (loopia.os_Getenv "LOOPIA_PASSWORD") (wU w))).
Local Abbreviation username w := (resolve (Username config) (envU w)).
Local Abbreviation password w := (resolve (Password config) (envP w)).

Lemma Configure_decode_error (w : W) :
  diag.HasError diags0 = true ->
  run h (Configure p req resp) w = (withDiagnostics resp diags0, w)
  /\ calls h (Configure p req resp) w = [].
Proof.
  destruct req as [[cfg ds]]. simpl. intros Herr.
  unfold Configure. simpl. rewrite Herr. split; reflexivity.
Qed.

(** X14. When both credentials resolve to non-empty strings and
    [loopia.New] returns an error, Configure adds the error "Unable to
    Create Loopia API Client", whose detail ends with the client's text,
    and hands out nothing: the data for data sources and for resources stay
    as they were. *)
Theorem Configure_client_error_hands_out_nothing (w w' : W) (e : error) :
  diag.HasError diags0 = false ->
  types.StringIsUnknown (Username config) = false ->
  types.StringIsUnknown (Password config) = false ->
  username w <> "" -> password w <> "" ->
  h _ (loopia.New (username w) (password w)) (wP w) = (loopia.Err e, w') ->
  let out := fst (run h (Configure p req resp) w) in
  ConfigureResponse.Diagnostics out
  = diags0
    ++ [diag.NewErrorDiagnostic "Unable to Create Loopia API Client"
          ("An unexpected error occurred when creating the Loopia API client. "
           ++ "If the error is not clear, please contact the provider developers."
           ++ String (Ascii.ascii_of_nat 10)
                (String (Ascii.ascii_of_nat 10) "")
           ++ "Loopia Client Error: " ++ e)%string]
  /\ diag.HasError (ConfigureResponse.Diagnostics out) = true
  /\ ConfigureResponse.DataSourceData out
     = ConfigureResponse.DataSourceData resp
  /\ ConfigureResponse.ResourceData out = ConfigureResponse.ResourceData resp.
Proof.
  intros Hok HuU HuP HnU HnP Hnew out. subst out.
  destruct (Configure_unfold h p req resp w Hok) as [Hrun _].
  rewrite Hrun, HuU, HuP.
  apply String.eqb_neq in HnU, HnP. rewrite HnU, HnP. simpl.
  rewrite Hnew. simpl.
  rewrite AddError_fresh by exact Hok.
  split; [reflexivity |].
  split; [| split; reflexivity].
  rewrite HasError_app. simpl. apply orb_true_r.
Qed.

(** X15. Whatever the configuration, the environment and the client do,
    Configure either leaves the data for data sources and resources as they
    were or sets both to one and the same client, never one of them alone;
    and it sets them only on a path without an error: a response that
    holds an error diagnostic has both as they were handed in. *)
Theorem Configure_hands_out_client_only_without_error (w : W) :
  let out := fst (run h (Configure p req resp) w) in
  ((ConfigureResponse.DataSourceData out
    = ConfigureResponse.DataSourceData resp
    /\ ConfigureResponse.ResourceData out
       = ConfigureResponse.ResourceData resp)
   \/ (exists client,
         ConfigureResponse.DataSourceData out = APIData (Some client)
         /\ ConfigureResponse.ResourceData out = APIData (Some client)
         /\ diag.HasError (ConfigureResponse.Diagnostics out) = false
         /\ exists w',
             h _ (loopia.New (username w) (password w)) (wP w)
             = (loopia.Ok client, w')))
  /\ (diag.HasError (ConfigureResponse.Diagnostics out) = true ->
      ConfigureResponse.DataSourceData out
      = ConfigureResponse.DataSourceData resp
      /\ ConfigureResponse.ResourceData out
         = ConfigureResponse.ResourceData resp).
Proof.
  intros out. subst out.
  destruct (diag.HasError diags0) eqn:Hok.
  - destruct (Configure_decode_error w Hok) as [Hrun _]. rewrite Hrun.
    simpl. split; [left; split; reflexivity | intros _; split; reflexivity].
  - destruct (Configure_unfold h p req resp w Hok) as [Hrun _].
    rewrite Hrun.
    destruct (types.StringIsUnknown (Username config)
              || types.StringIsUnknown (Password config));
      [simpl; split; [left; split; reflexivity | intros _; split; reflexivity] |].
    destruct (String.eqb (username w) "" || String.eqb (password w) "");
      [simpl; split; [left; split; reflexivity | intros _; split; reflexivity] |].
    destruct (h _ (loopia.New (username w) (password w)) (wP w))
      as [[client | e] w'] eqn:Hnew; simpl.
    + split.
      * right. exists client. repeat split; try assumption.
        exists w'. reflexivity.
      * intros Herr. congruence.
    + split; [left; split; reflexivity | intros _; split; reflexivity].
Qed.

(** X16. The client a successful provider Configure hands out is the one
    every adapter ends up holding: each of the two resources, configured
    with the response's resource data, and each of the four data sources,
    configured with its data-source data, stores that client and reports
    nothing. *)
Theorem provider_client_reaches_every_adapter
  (w w' : W) (client : loopia.API) :
  diag.HasError diags0 = false ->
  types.StringIsUnknown (Username config) = false ->
  types.StringIsUnknown (Password config) = false ->
  username w <> "" -> password w <> "" ->
  h _ (loopia.New (username w) (password w)) (wP w) = (loopia.Ok client, w') ->
  let out := fst (run h (Configure p req resp) w) in
  let forResources :=
    {| resource.ConfigureRequest.ProviderData :=
         ConfigureResponse.ResourceData out |} in
  let forDataSources :=
    {| datasource.ConfigureRequest.ProviderData :=
         ConfigureResponse.DataSourceData out |} in
  (forall a cresp,
      subdomainResource.Configure a forResources cresp
      = ({| subdomainResource.client := Some client |}, cresp))
  /\ (forall a cresp,
        zoneRecordResource.Configure a forResources cresp
        = ({| zoneRecordResource.client := Some client |}, cresp))
  /\ (forall a cresp,
        DomainDataSource.Configure a forDataSources cresp
        = ({| DomainDataSource.client := Some client |}, cresp))
  /\ (forall a cresp,
        DomainsDataSource.Configure a forDataSources cresp
        = ({| DomainsDataSource.client := Some client |}, cresp))
  /\ (forall a cresp,
        SubdomainsDataSource.Configure a forDataSources cresp
        = ({| SubdomainsDataSource.client := Some client |}, cresp))
  /\ (forall a cresp,
        zoneRecordsDataSource.Configure a forDataSources cresp
        = ({| zoneRecordsDataSource.client := Some client |}, cresp)).
Proof.
  intros Hok HuU HuP HnU HnP Hnew out forResources forDataSources.
  subst forResources forDataSources out.
  destruct (Configure_unfold h p req resp w Hok) as [Hrun _].
  rewrite Hrun, HuU, HuP.
  apply String.eqb_neq in HnU, HnP. rewrite HnU, HnP. simpl.
  rewrite Hnew. simpl.
  repeat split.
Qed.

End ProviderClient.

(** ** Type names *)

Lemma append_cancel (prefix a b : string) :
  (prefix ++ a)%string = (prefix ++ b)%string -> a = b.
Proof.
  induction prefix as [| c prefix IH]; simpl; intros H.
  - exact H.
  - inversion H. apply IH. assumption.
Qed.

(** X17. For every provider type name the adapters name themselves apart:
    the two resources get different type names and the four data sources
    get four different ones, each the provider's name followed by the
    adapter's suffix; under this provider's own name they are
    loopia_subdomain and loopia_zone_record, and loopia_domain,
    loopia_domains, loopia_subdomains and loopia_zone_records. *)
Theorem adapter_type_names_are_distinct (name : string) :
  let names :=
    [DomainDataSource.Metadata DomainDataSource.NewDomainDataSource name;
     DomainsDataSource.Metadata DomainsDataSource.NewDomainsDataSource name;
     SubdomainsDataSource.Metadata
       SubdomainsDataSource.NewSubdomainsDataSource name;
     zoneRecordsDataSource.Metadata
       zoneRecordsDataSource.NewZoneRecordsDataSource name] in
  subdomainResource.Metadata subdomainResource.NewSubdomainResource name
  <> zoneRecordResource.Metadata zoneRecordResource.NewZoneRecordResource name
  /\ NoDup names
  /\ (forall typeName, In typeName names ->
                       exists suffix, typeName = (name ++ suffix)%string)
  /\ (forall p,
        name = fst (provider.Metadata p) ->
        subdomainResource.Metadata subdomainResource.NewSubdomainResource name
        = "loopia_subdomain"
        /\ zoneRecordResource.Metadata
             zoneRecordResource.NewZoneRecordResource name
           = "loopia_zone_record"
        /\ names = ["loopia_domain"; "loopia_domains"; "loopia_subdomains";
                    "loopia_zone_records"]).
Proof.
  intros names. subst names.
  unfold subdomainResource.Metadata, zoneRecordResource.Metadata,
    DomainDataSource.Metadata, DomainsDataSource.Metadata,
    SubdomainsDataSource.Metadata, zoneRecordsDataSource.Metadata.
  split; [intros H; apply append_cancel in H; discriminate |].
  split.
  - repeat constructor; simpl;
      intros H;
      repeat (destruct H as [H | H];
              [apply append_cancel in H; discriminate |]);
      exact H.
  - split.
    + intros typeName Hin. simpl in Hin.
      repeat (destruct Hin as [Hin | Hin];
              [eexists; symmetry; exact Hin |]).
      elim Hin.
    + intros p0 Hname. simpl in Hname. subst name. repeat split.
Qed.

(** * Concrete runs of the further properties *)

(** Create against a remote that refuses the first call. *)
Lemma zoneCreate_failures_write_nothing_witness :
  calls flaky.answer
    (zoneRecordResource.Create configured sampleCreate priorResponse) O
  = [Issued (loopia.AddZoneRecord (Some sampleAPI) "example.com" "www"
               (zoneRecordResource.toClientRecord sampleRecord))]
  /\ Response.State
       (fst (run flaky.answer
               (zoneRecordResource.Create configured sampleCreate priorResponse)
               O))
     = Response.State priorResponse
  /\ calls flaky.answer
       (zoneRecordResource.Create configured sampleCreate priorResponse) 1%nat
     = [Issued (loopia.AddZoneRecord (Some sampleAPI) "example.com" "www"
                  (zoneRecordResource.toClientRecord sampleRecord));
        Issued (loopia.GetZoneRecords (Some sampleAPI) "example.com" "www")].
Proof.
  destruct (zoneCreate_failures_write_nothing flaky.answer configured
              sampleCreate priorResponse O eq_refl) as [Hadd _].
  destruct (Hadd flaky.refusal O eq_refl) as [Hcalls [Hstate _]].
  destruct (zoneCreate_failures_write_nothing flaky.answer configured
              sampleCreate priorResponse 1%nat eq_refl) as [_ [Hlist _]].
  destruct (Hlist flaky.refusal O O eq_refl eq_refl) as [Hcalls2 _].
  split; [exact Hcalls |]. split; [exact Hstate | exact Hcalls2].
Defined.

(** Create against a zone that lists another record first: the record is
    stored as sent under 11, the only one of its tuple, and the state holds
    the submitted tuple under 11. *)
Lemma zoneCreate_finds_record_stored_as_sent_witness :
  let out :=
    fst (run registrar.answer
           (zoneRecordResource.Create configured sampleCreate emptyResponse)
           mixedZone) in
  In (served 11) [otherRecord; served 11]
  /\ hasError out = false
  /\ Response.State out
     = {| tfsdk.Raw :=
            Some {| zoneRecordResource.Domain :=
                      types.StringValue "example.com";
                    zoneRecordResource.Subdomain := types.StringValue "www";
                    zoneRecordResource.Record_ :=
                      {| zoneRecordResource.Type_ := types.StringValue "A";
                         zoneRecordResource.Ttl := types.Int32Value 0;
                         zoneRecordResource.Priority := types.Int32Value 0;
                         zoneRecordResource.Value :=
                           types.StringValue "192.0.2.1";
                         zoneRecordResource.RecordId :=
                           types.Int32Value 11 |} |} |}.
Proof.
  cbv zeta.
  assert (Hin : In (served 11) [otherRecord; served 11])
    by (right; left; reflexivity).
  split; [exact Hin |].
  destruct (zoneCreate_finds_record_stored_as_sent registrar.answer configured
              sampleCreate emptyResponse mixedZone
              (snd (registrar.answer _
                      (loopia.AddZoneRecord (Some sampleAPI) "example.com"
                         "www" (zoneRecordResource.toClientRecord sampleRecord))
                      mixedZone))
              (snd (registrar.answer _
                      (loopia.AddZoneRecord (Some sampleAPI) "example.com"
                         "www" (zoneRecordResource.toClientRecord sampleRecord))
                      mixedZone))
              [otherRecord; served 11] 11 eq_refl eq_refl eq_refl Hin)
    as [_ [Hok [rec [_ [_ [_ [_ Hid]]]]]]].
  split; [exact Hok |].
  destruct Hid as [_ Hstate]; [| exact Hstate].
  intros other [Hother | [Hother | []]] Hsame; subst other.
  - discriminate Hsame.
  - reflexivity.
Defined.

(** Create of a fully planned record: ttl 300 and priority 0 come back as
    planned. *)
Lemma zoneCreate_state_agrees_with_known_plan_witness :
  exists stored,
    Response.State
      (fst (run registrar.answer
              (zoneRecordResource.Create configured knownCreate emptyResponse)
              emptyZone))
    = {| tfsdk.Raw :=
           Some (zoneRecordResource.withRecord samplePlan stored) |}
    /\ zoneRecordResource.Ttl stored = types.Int32Value 300
    /\ zoneRecordResource.Value stored = types.StringValue "192.0.2.2".
Proof.
  destruct (zoneCreate_state_agrees_with_known_plan registrar.answer configured
              knownCreate emptyResponse emptyZone
              (snd (registrar.answer _
                      (loopia.AddZoneRecord (Some sampleAPI) "example.com"
                         "www"
                         (zoneRecordResource.toClientRecord
                            (zoneRecordResource.Record_
                               (tfsdk.decoded
                                  (CreateRequest.Plan knownCreate)))))
                      emptyZone))
              (snd (registrar.answer _
                      (loopia.AddZoneRecord (Some sampleAPI) "example.com"
                         "www"
                         (zoneRecordResource.toClientRecord
                            (zoneRecordResource.Record_
                               (tfsdk.decoded
                                  (CreateRequest.Plan knownCreate)))))
                      emptyZone))
              [{| loopia.ID := 11; loopia.TTL := 300; loopia.Type_ := "A";
                  loopia.Value := "192.0.2.2"; loopia.Priority := 0 |}]
              {| loopia.ID := 11; loopia.TTL := 300; loopia.Type_ := "A";
                 loopia.Value := "192.0.2.2"; loopia.Priority := 0 |}
              eq_refl eq_refl eq_refl)
    as [stored [Hstate [_ [Hvalue [Httl _]]]]].
  - exists [], []. repeat split. intros y [].
  - exists stored. split; [exact Hstate |]. split.
    + rewrite (Httl 300 eq_refl); [reflexivity |].
      unfold int32_range. lia.
    + rewrite (Hvalue "192.0.2.2" eq_refl). reflexivity.
Defined.

(** Delete of record 11. *)
Lemma zoneDelete_removes_stored_identifier_witness :
  calls registrar.answer
    (zoneRecordResource.Delete configured sampleDelete priorResponse)
    occupiedZone
  = [Issued (loopia.RemoveZoneRecord (Some sampleAPI) "example.com" "www" 11)]
  /\ fst (run registrar.answer
            (zoneRecordResource.Delete configured sampleDelete priorResponse)
            occupiedZone) = priorResponse
  /\ registrar.records
       (snd (run registrar.answer
               (zoneRecordResource.Delete configured sampleDelete priorResponse)
               occupiedZone)) = [].
Proof.
  destruct (zoneDelete_removes_stored_identifier registrar.answer configured
              sampleDelete priorResponse occupiedZone eq_refl)
    as [Hcalls [Hdone _]].
  split; [exact Hcalls |].
  rewrite (Hdone _ eq_refl). split; reflexivity.
Defined.

(** Create, then Read in the world Create left. *)
Lemma zoneCreate_then_Read_is_stable_witness :
  let afterCreate :=
    run registrar.answer
      (zoneRecordResource.Create configured sampleCreate emptyResponse)
      emptyZone in
  Response.State
    (fst (run registrar.answer
            (zoneRecordResource.Read configured sampleRead (fst afterCreate))
            (snd afterCreate)))
  = Response.State (fst afterCreate)
  /\ Response.State (fst afterCreate)
     = {| tfsdk.Raw := Some (tfsdk.decoded (ReadRequest.State sampleRead)) |}.
Proof.
  cbv zeta.
  destruct (zoneCreate_then_Read_is_stable registrar.answer configured
              sampleCreate emptyResponse
              (fst (run registrar.answer
                      (zoneRecordResource.Create configured sampleCreate
                         emptyResponse) emptyZone))
              []
              emptyZone
              (snd (registrar.answer _
                      (loopia.AddZoneRecord (Some sampleAPI) "example.com"
                         "www" (zoneRecordResource.toClientRecord sampleRecord))
                      emptyZone))
              (snd (registrar.answer _
                      (loopia.AddZoneRecord (Some sampleAPI) "example.com"
                         "www" (zoneRecordResource.toClientRecord sampleRecord))
                      emptyZone))
              (snd (run registrar.answer
                      (zoneRecordResource.Create configured sampleCreate
                         emptyResponse) emptyZone))
              (snd (run registrar.answer
                      (zoneRecordResource.Create configured sampleCreate
                         emptyResponse) emptyZone))
              [served 11] (served 11)
              eq_refl eq_refl eq_refl)
    as [Hcreated [Hread _]].
  - exists [], []. repeat split. intros y [].
  - reflexivity.
  - reflexivity.
  - split; [| exact Hcreated].
    rewrite Hcreated. exact Hread.
Defined.

(** Delete of the subdomain www among two. *)
Lemma subdomain_Delete_and_Update_witness :
  calls registrar.answer
    (subdomainResource.Delete subdomainAdapter
       {| DeleteRequest.State := sampleSubdomainState |} emptyResponse)
    twoSubdomains
  = [Issued (loopia.RemoveSubDomain (Some sampleAPI) "example.com" "www")]
  /\ registrar.subdomains
       (snd (run registrar.answer
               (subdomainResource.Delete subdomainAdapter
                  {| DeleteRequest.State := sampleSubdomainState |}
                  emptyResponse) twoSubdomains))
     = [{| loopia.Name := "mail" |}].
Proof.
  destruct (subdomain_Delete_and_Update registrar.answer subdomainAdapter
              {| DeleteRequest.State := sampleSubdomainState |} emptyResponse
              twoSubdomains eq_refl) as [Hcalls [_ [Hdone _]]].
  split; [exact Hcalls |].
  rewrite (Hdone _ eq_refl). reflexivity.
Defined.

(** The subdomains of a domain with two. *)
Lemma subdomains_data_source_lists_names_in_order_witness :
  exists names,
    Response.State
      (fst (run registrar.answer
              (SubdomainsDataSource.Read
                 {| SubdomainsDataSource.client := Some sampleAPI |}
                 subdomainsQuery emptyResponse) twoSubdomains))
    = {| tfsdk.Raw :=
           Some {| SubdomainsDataSource.Domain :=
                     types.StringValue "example.com";
                   SubdomainsDataSource.Subdomains :=
                     basetypes.ListKnown names |} |}
    /\ nth_error names 1 = Some (types.StringValue "mail")
    /\ List.length names = 2%nat.
Proof.
  destruct (subdomains_data_source_lists_names_in_order registrar.answer
              {| SubdomainsDataSource.client := Some sampleAPI |}
              subdomainsQuery emptyResponse twoSubdomains eq_refl)
    as [_ [Hlisted _]].
  destruct (Hlisted _ _ eq_refl) as [names [Hstate [Hlen [Hnth _]]]].
  exists names. split; [exact Hstate |].
  split; [exact (Hnth 1%nat {| loopia.Name := "mail" |} eq_refl) | exact Hlen].
Defined.

(** The zone records of a subdomain with two. *)
Lemma zone_records_data_source_agrees_with_resource_witness :
  exists entries,
    Response.State
      (fst (run registrar.answer
              (zoneRecordsDataSource.Read
                 {| zoneRecordsDataSource.client := Some sampleAPI |}
                 zoneRecordsQuery emptyResponse) twoSubdomains))
    = {| tfsdk.Raw :=
           Some {| zoneRecordsDataSource.Domain :=
                     types.StringValue "example.com";
                   zoneRecordsDataSource.Subdomain := types.StringValue "www";
                   zoneRecordsDataSource.ZoneRecords := entries |} |}
    /\ List.length entries = 2%nat
    /\ exists entry,
        nth_error entries 1 = Some entry
        /\ zoneRecordsDataSource.RecordId entry = types.Int32Value 12.
Proof.
  destruct (zone_records_data_source_agrees_with_resource registrar.answer
              {| zoneRecordsDataSource.client := Some sampleAPI |}
              zoneRecordsQuery emptyResponse twoSubdomains eq_refl)
    as [_ [Hlisted _]].
  destruct (Hlisted _ _ eq_refl) as [entries [Hstate [Hlen [Hnth _]]]].
  exists entries. split; [exact Hstate |]. split; [exact Hlen |].
  destruct (Hnth 1%nat (served 12) eq_refl)
    as [entry [Hentry [_ [_ [_ [_ Hid]]]]]].
  exists entry. split; [exact Hentry | exact Hid].
Defined.

(** Both credentials configured, and a client library that refuses. *)
Lemma Configure_client_error_hands_out_nothing_witness :
  let out :=
    fst (run flaky.answer
           (provider.Configure devProvider explicitBoth freshConfigureResponse)
           O) in
  diag.HasError (provider.ConfigureResponse.Diagnostics out) = true
  /\ provider.ConfigureResponse.ResourceData out = NilData
  /\ provider.ConfigureResponse.DataSourceData out = NilData.
Proof.
  cbv zeta.
  destruct (Configure_client_error_hands_out_nothing flaky.answer devProvider
              explicitBoth freshConfigureResponse O O flaky.refusal
              eq_refl eq_refl eq_refl)
    as [_ [Herr [Hds Hrd]]].
  - discriminate.
  - discriminate.
  - reflexivity.
  - split; [exact Herr |]. split; [exact Hrd | exact Hds].
Defined.

(** Credentials from the environment, and the adapters configured with
    what the provider hands out. *)
Lemma provider_client_reaches_every_adapter_witness :
  let out :=
    fst (run registrar.answer
           (provider.Configure devProvider sampleConfigure
              freshConfigureResponse) credentialedZone) in
  zoneRecordResource.client
    (fst (zoneRecordResource.Configure zoneRecordResource.NewZoneRecordResource
            {| resource.ConfigureRequest.ProviderData :=
                 provider.ConfigureResponse.ResourceData out |}
            {| resource.ConfigureResponse.Diagnostics := [] |}))
  = Some {| loopia.username := "env-user"; loopia.password := "env-pass" |}
  /\ SubdomainsDataSource.client
       (fst (SubdomainsDataSource.Configure
               SubdomainsDataSource.NewSubdomainsDataSource
               {| datasource.ConfigureRequest.ProviderData :=
                    provider.ConfigureResponse.DataSourceData out |}
               {| datasource.ConfigureResponse.Diagnostics := [] |}))
     = Some {| loopia.username := "env-user"; loopia.password := "env-pass" |}.
Proof.
  cbv zeta.
  destruct (provider_client_reaches_every_adapter registrar.answer devProvider
              sampleConfigure freshConfigureResponse credentialedZone
              credentialedZone
              {| loopia.username := "env-user"; loopia.password := "env-pass" |}
              eq_refl eq_refl eq_refl)
    as [_ [Hzone [_ [_ [Hsub _]]]]].
  - discriminate.
  - discriminate.
  - reflexivity.
  - rewrite Hzone, Hsub. split; reflexivity.
Defined.

(** The two domain data sources against an account of two domains. *)
Example domain_data_sources_run :
  Response.State
    (fst (domainRun domainRegistrar.answer
            (DomainDataSource.Read DomainDataSource.NewDomainDataSource
               (domainQuery "example.org") emptyResponse)
            [exampleCom; exampleOrg]))
  = {| tfsdk.Raw :=
         Some {| DomainDataSource.Name := types.StringValue "example.org";
                 DomainDataSource.Paid := types.BoolValue false;
                 DomainDataSource.Registered := types.BoolValue true;
                 DomainDataSource.RenewalStatus :=
                   types.StringValue "NOT_HANDLED_BY_LOOPIA";
                 DomainDataSource.ExpirationDate :=
                   types.StringValue "2026-12-01";
                 DomainDataSource.ReferenceNumber :=
                   types.Int32Value 4712 |} |}
  /\ Response.Diagnostics
       (fst (domainRun domainRegistrar.answer
               (DomainDataSource.Read DomainDataSource.NewDomainDataSource
                  (domainQuery "example.net") emptyResponse)
               [exampleCom; exampleOrg]))
     = [diag.NewErrorDiagnostic "Unable to Read Loopia Domain" "unknown domain"]
  /\ Response.State
       (fst (domainRun domainRegistrar.answer
               (DomainsDataSource.Read DomainsDataSource.NewDomainsDataSource
                  domainsQuery emptyResponse)
               [exampleCom; exampleOrg]))
     = {| tfsdk.Raw :=
            Some {| DomainsDataSource.Domains :=
                      [DomainsDataSource.domainState exampleCom;
                       DomainsDataSource.domainState exampleOrg] |} |}.
Proof.
  split; [vm_compute; reflexivity |].
  split; vm_compute; reflexivity.
Qed.
